(** * hellomimir backend: the daily paper-ingestion pipeline

    A shallow embedding of the ingestion pipeline of the backend
    ([app/services/paper_service.py]) together with the services it drives:
    the arXiv candidate helpers ([app/services/arxiv_service.py]), the quiz
    generator ([app/services/llm_service.py]) and the Supabase store wrapper
    ([app/db/supabase_client.py]).

    Pure helpers are Rocq functions.  The orchestrator is written in a small
    state-and-exception monad over a [World]: the database tables, a clock
    that advances with every external call and the trace of the calls issued
    so far.  Everything
    outside the process (the feed, the PDF extractor, the chat provider, the
    moments at which the database is unreachable) is an oracle of the
    environment record [Env]; theorems quantify over it. *)

From Stdlib Require Import ZArith String Ascii List Lia Bool.
From stdpp Require Import base tactics option list gmap sets strings sorting pretty.

Local Open Scope string_scope.
Local Open Scope list_scope.
Local Open Scope Z_scope.

(** ** Python values used by the pipeline

    A [str] is a [string], each character standing for one code point
    below U+0100. *)

Module Py.

(** [str.isspace] on the characters below U+0100: the ASCII white space,
    the four separators FS, GS, RS, US, NEL and the no-break space. *)
Definition is_space (c : ascii) : bool :=
  let n := N_of_ascii c in
  ((9 <=? n) && (n <=? 13) || (28 <=? n) && (n <=? 32)
   || (n =? 133) || (n =? 160))%N.

Fixpoint lstrip (s : string) : string :=
  match s with
  | EmptyString => EmptyString
  | String c s' => if is_space c then lstrip s' else s
  end.

Definition rstrip (s : string) : string :=
  String.rev (lstrip (String.rev s)).

(** [s.strip()] *)
Definition strip (s : string) : string := rstrip (lstrip s).

(** [len(s)] *)
Definition len (s : string) : Z := Z.of_nat (String.length s).

(** Truth value of a [str]: the empty string is falsy. *)
Definition truthy (s : string) : bool :=
  match s with EmptyString => false | String _ _ => true end.

(** Truth value of an [Optional[str]]: [None] and the empty string are falsy. *)
Definition truthy_opt (o : option string) : bool :=
  match o with None => false | Some s => truthy s end.

(** Truth value of a list: the empty list is falsy. *)
Definition nonempty {A} (l : list A) : bool :=
  match l with [] => false | _ :: _ => true end.

(** [s[:n]] *)
Fixpoint take (n : N) (s : string) : string :=
  match s with
  | EmptyString => EmptyString
  | String c s' => if (n =? 0)%N then EmptyString else String c (take (N.pred n) s')
  end.

(** [max(first, *rest, key=key)]: the running maximum is replaced only by a
    strictly greater key, so the first maximal element is kept. *)
Fixpoint max_from {A} (key : A → Z) (best : A) (rest : list A) : A :=
  match rest with
  | [] => best
  | x :: rest' => max_from key (if key best <? key x then x else best) rest'
  end.

End Py.

(** ** Data model ([app/db/models.py]) *)

(** Row identifiers (UUIDs) are opaque keys; natural numbers stand for them. *)
Definition UUID := nat.
Bind Scope nat_scope with UUID.

Inductive ReadingLevel := grade5 | middle | high.

Global Instance ReadingLevel_eq_dec : EqDecision ReadingLevel.
Proof. solve_decision. Defined.

Inductive DifficultyLevel := beginner | intermediate | advanced | expert.

Record AcademicField := {
  field_id : UUID;
  slug : string;
  name : string;
  description : option string;
  arxiv_query : string;
}.

(** [published_at] is an instant on the UTC time line (the feed's
    [<published>] stamps), ordered as Python orders aware datetimes. *)
Record ArxivPaper := {
  arxiv_id : string;
  title : string;
  abstract : string;
  authors : list string;
  categories : list string;
  published_at : Z;
  pdf_url : string;
}.

Record Paper := {
  paper_id : UUID;
  paper_arxiv_id : string;
  paper_title : string;
  paper_abstract : string;
  full_text : option string;
  authors_json : list string;
  paper_categories : list string;
  paper_pdf_url : string;
  paper_published_at : Z;
}.

Record DailyPaper := {
  dp_date : string;
  dp_field_id : UUID;
  dp_paper_id : UUID;
}.

Record QuizQuestion := {
  question : string;
  options : list string;
  correct_index : Z;
  explanation : string;
}.

Record QuizData := { questions : list QuizQuestion }.

Record SummariesResult := {
  sr_grade5 : string;
  sr_middle : string;
  sr_high : string;
}.

Record JargonEntry := {
  term : string;
  definition : string;
  example_usage : option string;
}.

Record PrerequisiteEntry := {
  concept : string;
  why_needed : string;
  resources : option (list string);
}.

Record PrereadingResult := {
  jargon : list JargonEntry;
  prerequisites : list PrerequisiteEntry;
  difficulty_level : DifficultyLevel;
  estimated_read_time_minutes : Z;
  key_concepts : list string;
}.

Record FieldIngestResult := {
  field_slug : string;
  success : bool;
  res_paper_id : option UUID;
  res_arxiv_id : option string;
  error : option string;
}.

(** ** Candidate helpers ([app/services/arxiv_service.py]) *)

Definition filter_unused_papers
    (papers : list ArxivPaper) (used_arxiv_ids : list string) : list ArxivPaper :=
  let used_set : gset string := list_to_set used_arxiv_ids in
  filter (λ paper, arxiv_id paper ∉ used_set) papers.

Definition select_newest_paper (papers : list ArxivPaper) : option ArxivPaper :=
  match papers with
  | [] => None
  | first :: rest => Some (Py.max_from published_at first rest)
  end.

(** ** Exceptions

    Every failure in the pipeline is a Python exception; handlers are all
    [except Exception], so only the message ([str(e)]) is ever observed. *)

Inductive exn :=
  | ValueError (msg : string)
  | KeyError (key : string)
  | TypeError (msg : string)
  | AttributeError (msg : string)
  | ValidationError (msg : string)   (* pydantic *)
  | ExternalError (msg : string).    (* raised by httpx, postgrest or the chat client *)

(** [str(e)] *)
Definition str (e : exn) : string :=
  match e with
  | ValueError msg | TypeError msg | AttributeError msg
  | ValidationError msg | ExternalError msg => msg
  | KeyError key => ("'" ++ key ++ "'")%string
  end.

Inductive Exc (A : Type) :=
  | Ok (a : A)
  | Raise (e : exn).
Arguments Ok {A} a.
Arguments Raise {A} e.

Definition exc_bind {A B} (x : Exc A) (k : A → Exc B) : Exc B :=
  match x with
  | Ok a => k a
  | Raise e => Raise e
  end.

Notation "'let+' x ':=' e 'in' k" := (exc_bind e (λ x, k))
  (at level 10, x pattern, e at level 100, k at level 200).

(** ** Decoded JSON ([json.loads] results) *)

#[warnings="-register-all"]
Inductive json :=
  | JNull
  | JBool (b : bool)
  | JInt (z : Z)
  | JFloat (mantissa exponent : Z)
  | JStr (s : string)
  | JArr (items : list json)
  | JObj (members : list (string * json)).

(** [v == s] for a string [s]. *)
Definition is_str (s : string) (v : json) : bool :=
  match v with
  | JStr t => bool_decide (t = s)
  | _ => false
  end.

(** [d[key]] on a decoded value: only a dict can be indexed by a string. *)
Definition getitem (d : json) (key : string) : Exc json :=
  match d with
  | JObj members =>
      match list_find (λ kv, kv.1 = key) members with
      | Some (_, (_, v)) => Ok v
      | None => Raise (KeyError key)
      end
  | JArr _ => Raise (TypeError "list indices must be integers or slices, not str")
  | JStr _ => Raise (TypeError "string indices must be integers, not 'str'")
  | _ => Raise (TypeError "object is not subscriptable")
  end.

(** [len(v)] on a decoded value. *)
Definition py_len (v : json) : Exc Z :=
  match v with
  | JArr items => Ok (Z.of_nat (length items))
  | JObj members => Ok (Z.of_nat (length members))
  | JStr s => Ok (Py.len s)
  | _ => Raise (TypeError "object has no len()")
  end.

(** Iterating over a decoded value ([for x in v]). *)
Definition py_iter (v : json) : Exc (list json) :=
  match v with
  | JArr items => Ok items
  | JObj members => Ok (map (λ kv, JStr kv.1) members)
  | JStr s => Ok (map (λ c, JStr (String c EmptyString)) (list_ascii_of_string s))
  | _ => Raise (TypeError "object is not iterable")
  end.

(** ["questions" not in parsed or not isinstance(parsed["questions"], list)],
    returning the list when the test is false. *)
Definition questions_array (parsed : json) : Exc (list json) :=
  match parsed with
  | JObj members =>
      match list_find (λ kv, kv.1 = "questions") members with
      | Some (_, (_, JArr qs)) => Ok qs
      | _ => Raise (ValueError "Invalid quiz structure: missing questions array")
      end
  | JArr items =>
      if existsb (is_str "questions") items
      then Raise (TypeError "list indices must be integers or slices, not str")
      else Raise (ValueError "Invalid quiz structure: missing questions array")
  | JStr s =>
      match index 0 "questions" s with
      | Some _ => Raise (TypeError "string indices must be integers, not 'str'")
      | None => Raise (ValueError "Invalid quiz structure: missing questions array")
      end
  | _ => Raise (TypeError "argument is not iterable")
  end.

(** ** The store: the Supabase tables the pipeline touches *)

Record SummaryRow := {
  sum_paper_id : UUID;
  sum_field_id : UUID;
  sum_level : ReadingLevel;
  summary_text : string;
}.

Record QuizRow := {
  quiz_paper_id : UUID;
  quiz_field_id : UUID;
  quiz_json : QuizData;
}.

Record PrereadingRow := {
  pre_paper_id : UUID;
  pre_field_id : UUID;
  pre_content : PrereadingResult;
}.

Record Store := {
  fields : list AcademicField;
  papers : list Paper;
  daily_papers : list DailyPaper;
  paper_summaries : list SummaryRow;
  paper_quizzes : list QuizRow;
  paper_prereading : list PrereadingRow;
}.

(** The [paper_data] dict handed to [upsert_paper]. *)
Record PaperData := {
  pd_arxiv_id : string;
  pd_title : string;
  pd_abstract : string;
  pd_authors_json : list string;
  pd_categories : list string;
  pd_pdf_url : string;
  pd_published_at : Z;
}.

(** ** External calls, the trace and the environment *)

Inductive ChatRequest :=
  | SummaryRequest (level : ReadingLevel) (title abstract : string)
  | QuizRequest (title abstract : string)
  | PrereadingRequest (field_name title abstract truncated_text : string).

Inductive ReadOp :=
  | SelectFields
  | SelectDailyPaper (field : UUID) (date : string)
  | SelectUsedArxivIds (field : UUID)
  | CountSummaries (paper field : UUID)
  | CountQuizzes (paper field : UUID)
  | CountPrereading (paper field : UUID).

Inductive WriteOp :=
  | UpsertPaper (arxiv : string)
  | UpdateFullText (paper : UUID)
  | InsertDailyPaper (date : string) (field paper : UUID)
  | UpsertSummary (paper field : UUID) (level : ReadingLevel)
  | UpsertQuiz (paper field : UUID)
  | UpsertPrereading (paper field : UUID).

Inductive Event :=
  | StoreRead (op : ReadOp)
  | StoreWrite (op : WriteOp)
  | FeedFetch (query : string) (max_results : Z)
  | PdfDownload (url : string)
  | ChatCompletion (request : ChatRequest)
  | Sleep.

Global Instance ReadOp_eq_dec : EqDecision ReadOp.
Proof. solve_decision. Defined.
Global Instance WriteOp_eq_dec : EqDecision WriteOp.
Proof. solve_decision. Defined.
Global Instance ChatRequest_eq_dec : EqDecision ChatRequest.
Proof. solve_decision. Defined.
Global Instance Event_eq_dec : EqDecision Event.
Proof. solve_decision. Defined.

Record PdfMetadata := {
  page_count : Z;
  character_count : Z;
  word_count : Z;
}.

(** What the outside world answers.  Every oracle is indexed by the clock
    value of the call, so answers may change from one call to the next.
    - [store_fault t = Some msg]: the database request issued at time [t]
      fails with an error whose message is [msg];
    - [feed]: the outcome of [arxiv_service.fetch_papers];
    - [pdf_extract]: the outcome of [pdf_service.extract_text_from_url];
    - [chat]: the provider's answer, [response.choices[0].message.content];
    - [json_loads]: [json.loads], raising on text that is not JSON;
    - [pydantic_int]: pydantic's coercion of a decoded value to [int];
    - [today]: the current UTC date as [YYYY-MM-DD]. *)
Record Env := {
  store_fault : nat → option string;
  feed : nat → string → Z → Exc (list ArxivPaper);
  pdf_extract : nat → string → Exc (string * PdfMetadata);
  chat : nat → ChatRequest → Exc (option string);
  json_loads : string → Exc json;
  pydantic_int : json → option Z;
  today : nat → string;
}.

Record World := {
  store : Store;
  clock : nat;
  trace : list Event;
}.

(** ** The effect monad: state passing over [World], with exceptions.
    The world reached when an exception is raised is kept: writes made
    before the failure stay in the store. *)

Definition M (A : Type) : Type := World → Exc A * World.

Definition ret {A} (a : A) : M A := λ w, (Ok a, w).

Definition raise {A} (e : exn) : M A := λ w, (Raise e, w).

Definition bind {A B} (m : M A) (k : A → M B) : M B :=
  λ w, match m w with
       | (Ok a, w') => k a w'
       | (Raise e, w') => (Raise e, w')
       end.

(** [try: m except Exception as e: handler e] *)
Definition try_except {A} (m : M A) (handler : exn → M A) : M A :=
  λ w, match m w with
       | (Ok a, w') => (Ok a, w')
       | (Raise e, w') => handler e w'
       end.

Definition lift {A} (x : Exc A) : M A := λ w, (x, w).

Notation "'let*' x ':=' m 'in' k" := (bind m (λ x, k))
  (at level 10, x pattern, m at level 100, k at level 200).

Definition get_store : M Store := λ w, (Ok (store w), w).

Definition put_store (s : Store) : M unit :=
  λ w, (Ok tt, {| store := s; clock := clock w; trace := trace w |}).

(** The world after one more external call. *)
Definition advance (ev : Event) (w : World) : World :=
  {| store := store w; clock := S (clock w); trace := trace w ++ [ev] |}.

(** One round trip to the outside: the call is recorded and the clock
    advances; the result is the time of the call. *)
Definition tick (ev : Event) : M nat := λ w, (Ok (clock w), advance ev w).

(** [for x in l: body x] *)
Fixpoint for_each {A} (l : list A) (body : A → M unit) : M unit :=
  match l with
  | [] => ret tt
  | x :: l' => let* _ := body x in for_each l' body
  end.

(** ** Store operations ([app/db/supabase_client.py])

    The wrappers whose handler is [logger.error(...); raise] re-raise the
    exception unchanged, so the handler is not written out for them. *)

Definition set_papers (s : Store) (ps : list Paper) : Store :=
  {| fields := fields s; papers := ps; daily_papers := daily_papers s;
     paper_summaries := paper_summaries s; paper_quizzes := paper_quizzes s;
     paper_prereading := paper_prereading s |}.

Definition set_daily_papers (s : Store) (ds : list DailyPaper) : Store :=
  {| fields := fields s; papers := papers s; daily_papers := ds;
     paper_summaries := paper_summaries s; paper_quizzes := paper_quizzes s;
     paper_prereading := paper_prereading s |}.

Definition set_paper_summaries (s : Store) (rs : list SummaryRow) : Store :=
  {| fields := fields s; papers := papers s; daily_papers := daily_papers s;
     paper_summaries := rs; paper_quizzes := paper_quizzes s;
     paper_prereading := paper_prereading s |}.

Definition set_paper_quizzes (s : Store) (rs : list QuizRow) : Store :=
  {| fields := fields s; papers := papers s; daily_papers := daily_papers s;
     paper_summaries := paper_summaries s; paper_quizzes := rs;
     paper_prereading := paper_prereading s |}.

Definition set_paper_prereading (s : Store) (rs : list PrereadingRow) : Store :=
  {| fields := fields s; papers := papers s; daily_papers := daily_papers s;
     paper_summaries := paper_summaries s; paper_quizzes := paper_quizzes s;
     paper_prereading := rs |}.

(** [upsert(row, on_conflict=key)]: the row with the same key is replaced in
    place, otherwise the row is added. *)
Definition upsert_row {A} (same_key : A → bool) (row : A) (rows : list A) : list A :=
  if existsb same_key rows
  then map (λ r, if same_key r then row else r) rows
  else rows ++ [row].

Definition name_le (f g : AcademicField) : Prop := String.le (name f) (name g).

Global Instance name_le_dec : RelDecision name_le.
Proof. intros f g. unfold name_le. apply _. Defined.

(** [s in text] for strings. *)
Definition contains (s text : string) : bool :=
  match index 0 s text with Some _ => true | None => false end.

Definition daily_paper_matches (field : UUID) (date : string) (dp : DailyPaper) : bool :=
  bool_decide (dp_field_id dp = field) && bool_decide (dp_date dp = date).

Definition summary_matches (paper field : UUID) (r : SummaryRow) : bool :=
  bool_decide (sum_paper_id r = paper) && bool_decide (sum_field_id r = field).

Definition quiz_matches (paper field : UUID) (r : QuizRow) : bool :=
  bool_decide (quiz_paper_id r = paper) && bool_decide (quiz_field_id r = field).

Definition prereading_matches (paper field : UUID) (r : PrereadingRow) : bool :=
  bool_decide (pre_paper_id r = paper) && bool_decide (pre_field_id r = field).

Definition find_paper (s : Store) (id : UUID) : option Paper :=
  find (λ p, bool_decide (paper_id p = id)) (papers s).

(** The conflict key of [paper_summaries]: (paper_id, field_id, level). *)
Definition summary_key (paper field : UUID) (level : ReadingLevel) (r : SummaryRow) : bool :=
  summary_matches paper field r && bool_decide (sum_level r = level).

(** The table after [upsert] of one summary. *)
Definition put_summary
    (paper field : UUID) (level : ReadingLevel) (text : string)
    (rows : list SummaryRow) : list SummaryRow :=
  upsert_row (summary_key paper field level)
    {| sum_paper_id := paper; sum_field_id := field;
       sum_level := level; summary_text := text |} rows.

(** The queries, as evaluated by the database on the current tables. *)

Definition assignment_rows (s : Store) (field : UUID) (date : string) : list DailyPaper :=
  filter (λ dp, daily_paper_matches field date dp) (daily_papers s).

(** [select("paper_id, papers!inner(arxiv_id)").eq("field_id", ..)]: the
    assignments of the field joined with their papers. *)
Definition used_arxiv_ids (s : Store) (field : UUID) : list string :=
  omap (λ dp, paper_arxiv_id <$> find_paper s (dp_paper_id dp))
       (filter (λ dp, dp_field_id dp = field) (daily_papers s)).

Definition count_summaries (s : Store) (paper field : UUID) : Z :=
  Z.of_nat (length (filter (λ r, summary_matches paper field r) (paper_summaries s))).

Definition count_quizzes (s : Store) (paper field : UUID) : Z :=
  Z.of_nat (length (filter (λ r, quiz_matches paper field r) (paper_quizzes s))).

Definition count_prereading (s : Store) (paper field : UUID) : Z :=
  Z.of_nat (length (filter (λ r, prereading_matches paper field r) (paper_prereading s))).

(** The error of [.single()] when the rows matched are not exactly one. *)
Definition PGRST116 : string :=
  "PGRST116: JSON object requested, multiple (or no) rows returned".

(** The identifier the database gives to a new paper row: one not in use. *)
Definition fresh_paper_id (s : Store) : UUID :=
  S (max_list (map paper_id (papers s))).

Section SupabaseClient.
Variable env : Env.

(** [.execute()]: the request goes out; it fails when the database does. *)
Definition execute (ev : Event) : M unit :=
  let* t := tick ev in
  match store_fault env t with
  | Some msg => raise (ExternalError msg)
  | None => ret tt
  end.

(** [select("*").order("name")]; names are compared byte by byte. *)
Definition get_fields : M (list AcademicField) :=
  let* _ := execute (StoreRead SelectFields) in
  let* s := get_store in
  ret (merge_sort name_le (fields s)).

(** [.single()] fails with code PGRST116 unless exactly one row matches;
    the handler turns any error naming that code into [None]. *)
Definition get_daily_paper (field : UUID) (date : string) : M (option DailyPaper) :=
  try_except
    (let* _ := execute (StoreRead (SelectDailyPaper field date)) in
     let* s := get_store in
     match assignment_rows s field date with
     | [row] => ret (Some row)
     | _ => raise (ExternalError PGRST116)
     end)
    (λ e, if contains "PGRST116" (str e) then ret None else raise e).

(** Modelled from the spec: the table definition of [daily_papers] is not
    part of the sources; an assignment is unique per (field, date), so an
    insert for a pair already present is refused by the database. *)
Definition create_daily_paper (date : string) (field paper : UUID) : M DailyPaper :=
  let* _ := execute (StoreWrite (InsertDailyPaper date field paper)) in
  let* s := get_store in
  if existsb (daily_paper_matches field date) (daily_papers s)
  then raise (ExternalError "duplicate key value violates unique constraint")
  else
    let row := {| dp_date := date; dp_field_id := field; dp_paper_id := paper |} in
    let* _ := put_store (set_daily_papers s (daily_papers s ++ [row])) in
    ret row.

Definition get_used_paper_arxiv_ids (field : UUID) : M (list string) :=
  let* _ := execute (StoreRead (SelectUsedArxivIds field)) in
  let* s := get_store in
  ret (used_arxiv_ids s field).

(** [upsert(paper_data, on_conflict="arxiv_id")]: an existing row keeps its
    id and full text and takes the other columns from [paper_data]. *)
Definition upsert_paper (paper_data : PaperData) : M Paper :=
  let* _ := execute (StoreWrite (UpsertPaper (pd_arxiv_id paper_data))) in
  let* s := get_store in
  let same := λ p, bool_decide (paper_arxiv_id p = pd_arxiv_id paper_data) in
  let row :=
    match find same (papers s) with
    | Some old =>
        {| paper_id := paper_id old; paper_arxiv_id := pd_arxiv_id paper_data;
           paper_title := pd_title paper_data; paper_abstract := pd_abstract paper_data;
           full_text := full_text old; authors_json := pd_authors_json paper_data;
           paper_categories := pd_categories paper_data;
           paper_pdf_url := pd_pdf_url paper_data;
           paper_published_at := pd_published_at paper_data |}
    | None =>
        {| paper_id := fresh_paper_id s; paper_arxiv_id := pd_arxiv_id paper_data;
           paper_title := pd_title paper_data; paper_abstract := pd_abstract paper_data;
           full_text := None; authors_json := pd_authors_json paper_data;
           paper_categories := pd_categories paper_data;
           paper_pdf_url := pd_pdf_url paper_data;
           paper_published_at := pd_published_at paper_data |}
    end in
  let* _ := put_store (set_papers s (upsert_row same row (papers s))) in
  ret row.

Definition with_full_text (text : string) (p : Paper) : Paper :=
  {| paper_id := paper_id p; paper_arxiv_id := paper_arxiv_id p;
     paper_title := paper_title p; paper_abstract := paper_abstract p;
     full_text := Some text; authors_json := authors_json p;
     paper_categories := paper_categories p; paper_pdf_url := paper_pdf_url p;
     paper_published_at := paper_published_at p |}.

Definition update_paper_full_text (paper : UUID) (text : string) : M unit :=
  let* _ := execute (StoreWrite (UpdateFullText paper)) in
  let* s := get_store in
  put_store (set_papers s
    (map (λ p, if bool_decide (paper_id p = paper) then with_full_text text p else p)
         (papers s))).

Definition summaries_exist (paper field : UUID) : M bool :=
  try_except
    (let* _ := execute (StoreRead (CountSummaries paper field)) in
     let* s := get_store in
     let count := count_summaries s paper field in
     ret (3 <=? count))
    (λ e, ret false).

Definition create_paper_summary
    (paper field : UUID) (level : ReadingLevel) (text : string) : M unit :=
  let* _ := execute (StoreWrite (UpsertSummary paper field level)) in
  let* s := get_store in
  put_store (set_paper_summaries s
    (put_summary paper field level text (paper_summaries s))).

Definition quiz_exists (paper field : UUID) : M bool :=
  try_except
    (let* _ := execute (StoreRead (CountQuizzes paper field)) in
     let* s := get_store in
     let count := count_quizzes s paper field in
     ret (0 <? count))
    (λ e, ret false).

Definition create_paper_quiz (paper field : UUID) (quiz_data : QuizData) : M unit :=
  let* _ := execute (StoreWrite (UpsertQuiz paper field)) in
  let* s := get_store in
  let row := {| quiz_paper_id := paper; quiz_field_id := field; quiz_json := quiz_data |} in
  put_store (set_paper_quizzes s
    (upsert_row (quiz_matches paper field) row (paper_quizzes s))).

Definition prereading_exists (paper field : UUID) : M bool :=
  try_except
    (let* _ := execute (StoreRead (CountPrereading paper field)) in
     let* s := get_store in
     let count := count_prereading s paper field in
     ret (0 <? count))
    (λ e, ret false).

Definition create_paper_prereading
    (paper field : UUID) (jargon : list JargonEntry)
    (prerequisites : list PrerequisiteEntry) (difficulty_level : DifficultyLevel)
    (estimated_read_time : Z) (key_concepts : list string) : M unit :=
  let* _ := execute (StoreWrite (UpsertPrereading paper field)) in
  let* s := get_store in
  let row := {| pre_paper_id := paper; pre_field_id := field;
                pre_content := {| jargon := jargon; prerequisites := prerequisites;
                                  difficulty_level := difficulty_level;
                                  estimated_read_time_minutes := estimated_read_time;
                                  key_concepts := key_concepts |} |} in
  put_store (set_paper_prereading s
    (upsert_row (prereading_matches paper field) row (paper_prereading s))).

End SupabaseClient.

(** ** Pydantic models built from decoded JSON ([app/db/models.py]) *)

Fixpoint exc_map {A B} (f : A → Exc B) (l : list A) : Exc (list B) :=
  match l with
  | [] => Ok []
  | x :: l' => let+ y := f x in let+ ys := exc_map f l' in Ok (y :: ys)
  end.

(** A [str] field takes a string and nothing else. *)
Definition pydantic_str (v : json) : option string :=
  match v with JStr s => Some s | _ => None end.

(** A [List[str]] field takes a list of strings. *)
Definition pydantic_str_list (v : json) : option (list string) :=
  match v with
  | JArr items => mapM pydantic_str items
  | _ => None
  end.

(** An [Optional[...]] field with default [None]: absent or null gives [None]. *)
Definition pydantic_optional {A} (dec : json → option A) (v : option json)
    : option (option A) :=
  match v with
  | None | Some JNull => Some None
  | Some x => Some <$> dec x
  end.

(** A [Literal["beginner", "intermediate", "advanced", "expert"]] field. *)
Definition pydantic_difficulty (v : json) : option DifficultyLevel :=
  match v with
  | JStr s =>
      if String.eqb s "beginner" then Some beginner
      else if String.eqb s "intermediate" then Some intermediate
      else if String.eqb s "advanced" then Some advanced
      else if String.eqb s "expert" then Some expert
      else None
  | _ => None
  end.

Definition member (d : list (string * json)) (key : string) : option json :=
  (λ kv, kv.2.2) <$> list_find (λ kv : string * json, kv.1 = key) d.

Definition validation_error {A} (model : string) : Exc A :=
  Raise (ValidationError ("validation error for " ++ model)%string).

Section Models.
Variable env : Env.

(** [QuizQuestion(question=.., options=.., correct_index=.., explanation=..)]:
    field types, [Field(ge=0, le=3)] and the [validate_options_length]
    validator. *)
Definition QuizQuestion_new (q o c e : json) : Exc QuizQuestion :=
  match pydantic_str q, pydantic_str_list o, pydantic_int env c, pydantic_str e with
  | Some q', Some o', Some c', Some e' =>
      if bool_decide (length o' = 4%nat) && (0 <=? c') && (c' <=? 3)
      then Ok {| question := q'; options := o'; correct_index := c'; explanation := e' |}
      else validation_error "QuizQuestion"
  | _, _, _, _ => validation_error "QuizQuestion"
  end.

(** [JargonEntry] built from the members of the dict [j] as keyword arguments. *)
Definition JargonEntry_new (j : json) : Exc JargonEntry :=
  match j with
  | JObj d =>
      match member d "term" ≫= pydantic_str,
            member d "definition" ≫= pydantic_str,
            pydantic_optional pydantic_str (member d "example_usage") with
      | Some t, Some df, Some ex =>
          Ok {| term := t; definition := df; example_usage := ex |}
      | _, _, _ => validation_error "JargonEntry"
      end
  | _ => Raise (TypeError "argument after ** must be a mapping")
  end.

(** [PrerequisiteEntry] built from the members of the dict [p] as keyword arguments. *)
Definition PrerequisiteEntry_new (p : json) : Exc PrerequisiteEntry :=
  match p with
  | JObj d =>
      match member d "concept" ≫= pydantic_str,
            member d "why_needed" ≫= pydantic_str,
            pydantic_optional pydantic_str_list (member d "resources") with
      | Some c, Some w, Some r =>
          Ok {| concept := c; why_needed := w; resources := r |}
      | _, _, _ => validation_error "PrerequisiteEntry"
      end
  | _ => Raise (TypeError "argument after ** must be a mapping")
  end.

(** [PrereadingResult(jargon=.., prerequisites=.., difficulty_level=..,
    estimated_read_time_minutes=.., key_concepts=..)] *)
Definition PrereadingResult_new
    (jg : list JargonEntry) (pr : list PrerequisiteEntry) (d t k : json)
    : Exc PrereadingResult :=
  match pydantic_difficulty d, pydantic_int env t, pydantic_str_list k with
  | Some d', Some t', Some k' =>
      Ok {| jargon := jg; prerequisites := pr; difficulty_level := d';
            estimated_read_time_minutes := t'; key_concepts := k' |}
  | _, _, _ => validation_error "PrereadingResult"
  end.

End Models.

(** ** Feed and document services, as far as the orchestrator sees them *)

Section Services.
Variable env : Env.

(** [arxiv_service.fetch_papers]: one request to the feed. *)
Definition fetch_papers (arxiv_query : string) (max_results : Z) : M (list ArxivPaper) :=
  let* t := tick (FeedFetch arxiv_query max_results) in
  lift (feed env t arxiv_query max_results).

(** [pdf_service.extract_text_from_url]: download, then extraction. *)
Definition extract_text_from_url (pdf_url : string) : M (string * PdfMetadata) :=
  let* t := tick (PdfDownload pdf_url) in
  lift (pdf_extract env t pdf_url).

(** [client.chat.completions.create(...)], read at [choices[0].message.content]. *)
Definition chat_completion (request : ChatRequest) : M (option string) :=
  let* t := tick (ChatCompletion request) in
  lift (chat env t request).

(** ** Generation client ([app/services/llm_service.py]) *)

Definition generate_summary (title abstract : string) (level : ReadingLevel) : M string :=
  let* content := chat_completion (SummaryRequest level title abstract) in
  match content with
  | Some c =>
      if Py.truthy c then ret (Py.strip c)
      else raise (ValueError "Empty response from OpenAI")
  | None => raise (ValueError "Empty response from OpenAI")
  end.

Definition generate_all_summaries (title abstract : string) : M SummariesResult :=
  let* g := generate_summary title abstract grade5 in
  let* m := generate_summary title abstract middle in
  let* h := generate_summary title abstract high in
  ret {| sr_grade5 := g; sr_middle := m; sr_high := h |}.

(** The loop of [generate_quiz] over [parsed["questions"]]; [questions] is
    the list built so far. *)
Fixpoint quiz_loop (qs : list json) (questions : list QuizQuestion)
    : Exc (list QuizQuestion) :=
  match qs with
  | [] => Ok questions
  | q :: qs' =>
      let+ opts := getitem q "options" in
      let+ n := py_len opts in
      if negb (n =? 4)
      then Raise (ValueError ("Question must have exactly 4 options, got "
                              ++ pretty n)%string)
      else
        let+ a := getitem q "question" in
        let+ b := getitem q "options" in
        let+ c := getitem q "correct_index" in
        let+ d := getitem q "explanation" in
        let+ question := QuizQuestion_new env a b c d in
        quiz_loop qs' (questions ++ [question])
  end.

(** Validation and conversion of the decoded answer to [QuizData]. *)
Definition quiz_of_json (parsed : json) : Exc QuizData :=
  let+ qs := questions_array parsed in
  let+ questions := quiz_loop qs [] in
  Ok {| questions := questions |}.

Definition generate_quiz (title abstract : string) : M QuizData :=
  let* content := chat_completion (QuizRequest title abstract) in
  match content with
  | Some c =>
      if Py.truthy c
      then lift (let+ parsed := json_loads env c in quiz_of_json parsed)
      else raise (ValueError "Empty response from OpenAI")
  | None => raise (ValueError "Empty response from OpenAI")
  end.

Definition prereading_of_json (parsed : json) : Exc PrereadingResult :=
  match parsed with
  | JObj _ =>
      let+ js := getitem parsed "jargon" in
      let+ js := py_iter js in
      let+ jargon := exc_map JargonEntry_new js in
      let+ ps := getitem parsed "prerequisites" in
      let+ ps := py_iter ps in
      let+ prerequisites := exc_map PrerequisiteEntry_new ps in
      let+ d := getitem parsed "difficulty_level" in
      let+ t := getitem parsed "estimated_read_time_minutes" in
      let+ k := getitem parsed "key_concepts" in
      PrereadingResult_new env jargon prerequisites d t k
  | _ => Raise (AttributeError "object has no attribute 'get'")
  end.

Definition generate_prereading
    (title abstract full_text field_name : string) : M PrereadingResult :=
  let ellipsis := if 120000 <? Py.len full_text then "..." else "" in
  let truncated_text := (Py.take 120000 full_text ++ ellipsis)%string in
  let* content :=
    chat_completion (PrereadingRequest field_name title abstract truncated_text) in
  match content with
  | Some c =>
      if Py.truthy c
      then lift (let+ parsed := json_loads env c in prereading_of_json parsed)
      else raise (ValueError "Empty response from OpenAI")
  | None => raise (ValueError "Empty response from OpenAI")
  end.

End Services.

(** ** The orchestrator ([app/services/paper_service.py]) *)

Definition succeeded (field : AcademicField) (paper : UUID) (arxiv : option string)
    : FieldIngestResult :=
  {| field_slug := slug field; success := true; res_paper_id := Some paper;
     res_arxiv_id := arxiv; error := None |}.

Definition failed (field : AcademicField) (msg : string) : FieldIngestResult :=
  {| field_slug := slug field; success := false; res_paper_id := None;
     res_arxiv_id := None; error := Some msg |}.

Definition paper_data_of (selected_paper : ArxivPaper) : PaperData :=
  {| pd_arxiv_id := arxiv_id selected_paper; pd_title := title selected_paper;
     pd_abstract := abstract selected_paper; pd_authors_json := authors selected_paper;
     pd_categories := categories selected_paper; pd_pdf_url := pdf_url selected_paper;
     pd_published_at := published_at selected_paper |}.

(** [getattr(summaries, level)] *)
Definition getattr (summaries : SummariesResult) (level : ReadingLevel) : string :=
  match level with
  | grade5 => sr_grade5 summaries
  | middle => sr_middle summaries
  | high => sr_high summaries
  end.

Definition levels : list ReadingLevel := [grade5; middle; high].

(** The minimum-length test on extracted text:
    [full_text and len(full_text.strip()) > 100]. *)
Definition viable_text (full_text : string) : bool :=
  Py.truthy full_text && (100 <? Py.len (Py.strip full_text)).

Section PaperService.
Variable env : Env.

(** [get_today_date]: reads the system clock. *)
Definition get_today_date : M string := λ w, (Ok (today env (clock w)), w).

(** The idempotency check on an existing assignment: [Some result] is the
    early [return], [None] falls through to the steps below. *)
Definition check_existing (field : AcademicField) (existing_daily_paper : option DailyPaper)
    : M (option FieldIngestResult) :=
  match existing_daily_paper with
  | Some dp =>
      let* has_summaries := summaries_exist env (dp_paper_id dp) (field_id field) in
      let* has_quiz := quiz_exists env (dp_paper_id dp) (field_id field) in
      let* has_prereading := prereading_exists env (dp_paper_id dp) (field_id field) in
      if has_summaries && has_quiz && has_prereading
      then ret (Some (succeeded field (dp_paper_id dp) None))
      else ret None
  | None => ret None
  end.

(** Step 4.5, PDF extraction; the result is [db_paper] as the later steps
    see it. *)
Definition pdf_extraction (db_paper : Paper) : M Paper :=
  try_except
    (let* (full_text, pdf_metadata) := extract_text_from_url env (paper_pdf_url db_paper) in
     if viable_text full_text
     then
       let* _ := update_paper_full_text env (paper_id db_paper) full_text in
       ret (with_full_text full_text db_paper)
     else ret db_paper)
    (λ e, ret db_paper).

(** Step 5.5, pre-reading materials: the guarded [try] block ... *)
Definition generate_and_store_prereading
    (db_paper : Paper) (field : AcademicField) : M unit :=
  try_except
    (let* prereading :=
       generate_prereading env (paper_title db_paper) (paper_abstract db_paper)
         (default "" (full_text db_paper)) (name field) in
     create_paper_prereading env (paper_id db_paper) (field_id field)
       (jargon prereading) (prerequisites prereading) (difficulty_level prereading)
       (estimated_read_time_minutes prereading) (key_concepts prereading))
    (λ e, ret tt).

(** ... and its guard. *)
Definition prereading_step (db_paper : Paper) (field : AcademicField) : M unit :=
  let* has_prereading := prereading_exists env (paper_id db_paper) (field_id field) in
  if negb has_prereading && Py.truthy_opt (full_text db_paper)
  then generate_and_store_prereading db_paper field
  else ret tt.

(** Step 6, summaries: the guarded block ... *)
Definition generate_and_store_summaries
    (db_paper : Paper) (field : AcademicField) : M unit :=
  let* summaries :=
    generate_all_summaries env (paper_title db_paper) (paper_abstract db_paper) in
  for_each levels (λ level,
    let summary_text := getattr summaries level in
    create_paper_summary env (paper_id db_paper) (field_id field) level summary_text).

(** ... and its guard. *)
Definition summaries_step (db_paper : Paper) (field : AcademicField) : M unit :=
  let* has_summaries := summaries_exist env (paper_id db_paper) (field_id field) in
  if negb has_summaries
  then generate_and_store_summaries db_paper field
  else ret tt.

(** Step 7, quiz: the guarded block ... *)
Definition generate_and_store_quiz (db_paper : Paper) (field : AcademicField) : M unit :=
  let* quiz := generate_quiz env (paper_title db_paper) (paper_abstract db_paper) in
  create_paper_quiz env (paper_id db_paper) (field_id field) quiz.

(** ... and its guard. *)
Definition quiz_step (db_paper : Paper) (field : AcademicField) : M unit :=
  let* has_quiz := quiz_exists env (paper_id db_paper) (field_id field) in
  if negb has_quiz
  then generate_and_store_quiz db_paper field
  else ret tt.

(** Steps 5 to 7 and the final [return], for [db_paper] as left by the
    PDF step. *)
Definition assign_and_generate
    (field : AcademicField) (date : string)
    (existing_daily_paper : option DailyPaper) (db_paper : Paper)
    : M FieldIngestResult :=
  let* _ :=
    match existing_daily_paper with
    | None =>
        let* _ := create_daily_paper env date (field_id field) (paper_id db_paper) in ret tt
    | Some _ => ret tt
    end in
  let* _ := prereading_step db_paper field in
  let* _ := summaries_step db_paper field in
  let* _ := quiz_step db_paper field in
  ret (succeeded field (paper_id db_paper) (Some (paper_arxiv_id db_paper))).

(** Steps 4 to 7 for the selected paper. *)
Definition store_and_generate
    (field : AcademicField) (date : string)
    (existing_daily_paper : option DailyPaper) (selected_paper : ArxivPaper)
    : M FieldIngestResult :=
  let* db_paper := upsert_paper env (paper_data_of selected_paper) in
  let* db_paper := pdf_extraction db_paper in
  assign_and_generate field date existing_daily_paper db_paper.

(** Steps 1 to 3: fetch, filter, select. *)
Definition fetch_and_select
    (field : AcademicField) (date : string) (existing_daily_paper : option DailyPaper)
    : M FieldIngestResult :=
  let* arxiv_papers := fetch_papers env (arxiv_query field) 50 in
  if negb (Py.nonempty arxiv_papers)
  then ret (failed field "No papers found on arXiv")
  else
    let* used_ids := get_used_paper_arxiv_ids env (field_id field) in
    let unused_papers := filter_unused_papers arxiv_papers used_ids in
    let unused_papers :=
      if negb (Py.nonempty unused_papers) then arxiv_papers else unused_papers in
    match select_newest_paper unused_papers with
    | None => ret (failed field "Could not select a paper")
    | Some selected_paper =>
        store_and_generate field date existing_daily_paper selected_paper
    end.

(** The body of the [try] block. *)
Definition ingest_body (field : AcademicField) (date : string) : M FieldIngestResult :=
  let* existing_daily_paper := get_daily_paper env (field_id field) date in
  let* early := check_existing field existing_daily_paper in
  match early with
  | Some result => ret result
  | None => fetch_and_select field date existing_daily_paper
  end.

Definition ingest_paper_for_field (field : AcademicField) (date : string)
    : M FieldIngestResult :=
  try_except (ingest_body field date) (λ e, ret (failed field (str e))).

(** The loop of [ingest_daily_papers]; [results] is the list built so far.
    The pause between two fields is recorded in the trace. *)
Fixpoint ingest_loop (fields : list AcademicField) (date : string)
    (results : list FieldIngestResult) : M (list FieldIngestResult) :=
  match fields with
  | [] => ret results
  | field :: rest =>
      let* result := ingest_paper_for_field field date in
      let results := results ++ [result] in
      let* _ := tick Sleep in
      ingest_loop rest date results
  end.

Definition ingest_daily_papers (date : option string) : M (list FieldIngestResult) :=
  let* date :=
    match date with
    | Some d => if Py.truthy d then ret d else get_today_date
    | None => get_today_date
    end in
  let* fields := get_fields env in
  ingest_loop fields date [].

End PaperService.

(** ** Specification vocabulary *)

(** Clock values [t, t+1, ..., t+n-1] at which the database answers. *)
Definition store_up (env : Env) (t n : nat) : Prop :=
  ∀ k, (k < n)%nat → store_fault env (t + k) = None.

(** [len(q["options"]) == 4] evaluates to true. *)
Definition has_four_options (q : json) : bool :=
  match getitem q "options" with
  | Ok opts => match py_len opts with Ok n => n =? 4 | Raise _ => false end
  | Raise _ => false
  end.

(** The date of the run: the given one, or today's when none is given. *)
Definition run_date (env : Env) (date : option string) (w : World) : string :=
  match date with
  | Some d => if Py.truthy d then d else today env (clock w)
  | None => today env (clock w)
  end.

Definition is_ok {A} (x : Exc A) : bool :=
  match x with Ok _ => true | Raise _ => false end.

(** ** Scenarios: concrete fields, papers, stores and environments *)

Module Scenario.

Definition ml : AcademicField :=
  {| field_id := 7; slug := "ml"; name := "Machine Learning";
     description := None; arxiv_query := "cat:cs.LG" |}.

Definition physics : AcademicField :=
  {| field_id := 8; slug := "physics"; name := "Physics";
     description := None; arxiv_query := "cat:physics.gen-ph" |}.

Definition today_is : string := "2025-01-15".

Definition paper_A : ArxivPaper :=
  {| arxiv_id := "2501.00001"; title := "Paper A"; abstract := "Abstract of A";
     authors := ["Ada"]; categories := ["cs.LG"]; published_at := 1;
     pdf_url := "https://arxiv.org/pdf/2501.00001.pdf" |}.

Definition paper_B : ArxivPaper :=
  {| arxiv_id := "2501.00003"; title := "Paper B"; abstract := "Abstract of B";
     authors := ["Bob"]; categories := ["cs.LG"]; published_at := 3;
     pdf_url := "https://arxiv.org/pdf/2501.00003.pdf" |}.

(** The row of paper A, stored under id 1 without full text. *)
Definition row_A : Paper :=
  {| paper_id := 1; paper_arxiv_id := "2501.00001"; paper_title := "Paper A";
     paper_abstract := "Abstract of A"; full_text := None; authors_json := ["Ada"];
     paper_categories := ["cs.LG"];
     paper_pdf_url := "https://arxiv.org/pdf/2501.00001.pdf";
     paper_published_at := 1 |}.

Definition assignment_A : DailyPaper :=
  {| dp_date := today_is; dp_field_id := 7; dp_paper_id := 1 |}.

Definition summary_A (level : ReadingLevel) (text : string) : SummaryRow :=
  {| sum_paper_id := 1; sum_field_id := 7; sum_level := level; summary_text := text |}.

Definition a_question : QuizQuestion :=
  {| question := "What is shown?"; options := ["a"; "b"; "c"; "d"];
     correct_index := 0; explanation := "It is a." |}.

Definition a_prereading : PrereadingResult :=
  {| jargon := []; prerequisites := []; difficulty_level := intermediate;
     estimated_read_time_minutes := 12; key_concepts := ["learning"] |}.

(** Paper A is assigned to the field for today; nothing was generated. *)
Definition store_assigned : Store :=
  {| fields := [ml]; papers := [row_A]; daily_papers := [assignment_A];
     paper_summaries := []; paper_quizzes := []; paper_prereading := [] |}.

(** As above, and the grade-5 summary was written before the crash. *)
Definition store_partial : Store :=
  set_paper_summaries store_assigned [summary_A grade5 "old grade5 text"].

(** Paper A is assigned and every artifact is present. *)
Definition store_complete : Store :=
  {| fields := [ml]; papers := [row_A]; daily_papers := [assignment_A];
     paper_summaries := [summary_A grade5 "g"; summary_A middle "m"; summary_A high "h"];
     paper_quizzes := [ {| quiz_paper_id := 1; quiz_field_id := 7;
                           quiz_json := {| questions := [a_question] |} |} ];
     paper_prereading := [ {| pre_paper_id := 1; pre_field_id := 7;
                              pre_content := a_prereading |} ] |}.

(** Two fields, nothing ingested yet. *)
Definition store_fresh : Store :=
  {| fields := [physics; ml]; papers := []; daily_papers := [];
     paper_summaries := []; paper_quizzes := []; paper_prereading := [] |}.

Definition world_of (s : Store) : World := {| store := s; clock := 0; trace := [] |}.

Definition question_json (opts : list json) : json :=
  JObj [("question", JStr "What is shown?"); ("options", JArr opts);
        ("correct_index", JInt 0); ("explanation", JStr "It is a.")].

Definition four : list json := [JStr "a"; JStr "b"; JStr "c"; JStr "d"].

Definition quiz_json_of (qs : list json) : json := JObj [("questions", JArr qs)].

Definition int_of (v : json) : option Z :=
  match v with JInt z => Some z | _ => None end.

(** The database always answers; the feed lists [candidates]; the PDF
    cannot be downloaded; the provider answers every request with
    [answer], which decodes to [decoded]. *)
Definition env_with (candidates : list ArxivPaper) (answer : string) (decoded : json) : Env :=
  {| store_fault := λ _, None;
     feed := λ _ _ _, Ok candidates;
     pdf_extract := λ _ _, Raise (ExternalError "404 Not Found");
     chat := λ _ _, Ok (Some answer);
     json_loads := λ _, Ok decoded;
     pydantic_int := int_of;
     today := λ _, today_is |}.

(** The feed lists A (used) and B (newer, unused). *)
Definition env_two : Env :=
  env_with [paper_A; paper_B] "generated text" (quiz_json_of [question_json four]).

(** The feed lists only A. *)
Definition env_one : Env :=
  env_with [paper_A] "generated text" (quiz_json_of [question_json four]).

(** The provider's quiz has no questions. *)
Definition env_empty_quiz : Env :=
  env_with [paper_A] "generated text" (quiz_json_of []).

(** The second question of the provider's quiz has three options. *)
Definition env_bad_quiz : Env :=
  env_with [paper_A] "generated text"
    (quiz_json_of [question_json four; question_json [JStr "a"; JStr "b"; JStr "c"]]).

(** As [env], with the database failing at the clock values in [down]. *)
Definition with_faults (env : Env) (down : list nat) : Env :=
  {| store_fault := λ t, if bool_decide (t ∈ down) then Some "connection refused" else None;
     feed := feed env; pdf_extract := pdf_extract env; chat := chat env;
     json_loads := json_loads env; pydantic_int := pydantic_int env;
     today := today env |}.

(** As [env], with the given outcome of every PDF extraction. *)
Definition with_pdf (env : Env) (r : Exc (string * PdfMetadata)) : Env :=
  {| store_fault := store_fault env; feed := feed env; pdf_extract := λ _ _, r;
     chat := chat env; json_loads := json_loads env;
     pydantic_int := pydantic_int env; today := today env |}.

Definition short_text : Exc (string * PdfMetadata) :=
  Ok ("  page 1  ", {| page_count := 1; character_count := 10; word_count := 2 |}).

End Scenario.

(** ** Invariants of the store

    The conflict targets of the upserts ([arxiv_id]; [paper_id, field_id,
    level]; [paper_id, field_id]) and the primary keys are unique columns of
    their tables, and an assignment is unique per (field, date). *)

Definition assignment_key (dp : DailyPaper) : UUID * string :=
  (dp_field_id dp, dp_date dp).

Definition summary_row_key (r : SummaryRow) : UUID * UUID * ReadingLevel :=
  (sum_paper_id r, sum_field_id r, sum_level r).

Definition quiz_row_key (r : QuizRow) : UUID * UUID :=
  (quiz_paper_id r, quiz_field_id r).

Definition prereading_row_key (r : PrereadingRow) : UUID * UUID :=
  (pre_paper_id r, pre_field_id r).

Record store_wf (s : Store) : Prop := {
  wf_paper_ids : NoDup (map paper_id (papers s));
  wf_arxiv_ids : NoDup (map paper_arxiv_id (papers s));
  wf_assignments : NoDup (map assignment_key (daily_papers s));
  wf_summaries : NoDup (map summary_row_key (paper_summaries s));
  wf_quizzes : NoDup (map quiz_row_key (paper_quizzes s));
  wf_prereading : NoDup (map prereading_row_key (paper_prereading s));
}.

(** A computation keeps a relation between the store it starts from and the
    store it leaves, whatever it returns or raises. *)
Definition keeps {A} (Q : relation Store) (m : M A) : Prop :=
  ∀ w, Q (store w) (store (m w).2).

(** The uniqueness invariants are handed on. *)
Definition wf_kept : relation Store := λ s s', store_wf s → store_wf s'.

(** Nothing is lost: the catalog is untouched; every paper row keeps its
    place, its id and its arXiv id, and an extracted text is not erased; the
    earlier assignments keep their place; every artifact row is still there
    under its key. *)
Record grows (s s' : Store) : Prop := {
  grows_fields : fields s' = fields s;
  grows_papers :
    ∀ i p, papers s !! i = Some p →
           ∃ p', papers s' !! i = Some p'
                 ∧ paper_id p' = paper_id p
                 ∧ paper_arxiv_id p' = paper_arxiv_id p
                 ∧ (Py.truthy_opt (full_text p) = true →
                    Py.truthy_opt (full_text p') = true);
  grows_assignments : daily_papers s `prefix_of` daily_papers s';
  grows_summaries :
    ∀ r, r ∈ paper_summaries s →
         ∃ r', r' ∈ paper_summaries s' ∧ summary_row_key r' = summary_row_key r;
  grows_quizzes :
    ∀ r, r ∈ paper_quizzes s →
         ∃ r', r' ∈ paper_quizzes s' ∧ quiz_row_key r' = quiz_row_key r;
  grows_prereading :
    ∀ r, r ∈ paper_prereading s →
         ∃ r', r' ∈ paper_prereading s' ∧ prereading_row_key r' = prereading_row_key r;
}.

Definition same_assignments : relation Store :=
  λ s s', daily_papers s' = daily_papers s.

Definition same_summaries : relation Store :=
  λ s s', paper_summaries s' = paper_summaries s.

Definition same_store : relation Store := λ s s', s' = s.

(** On a store with unique keys, the keys stay unique and nothing is lost. *)
Definition wf_grows : relation Store :=
  λ s s', store_wf s → store_wf s' ∧ grows s s'.

(** ** The HTTP trigger ([app/api/routes/papers.py]) *)

Record IngestResultSchema := {
  message : string;
  irs_date : string;
  success_count : Z;
  fail_count : Z;
  results : list FieldIngestResult;
}.

(** The [detail] of an [HTTPException]: a text, or the dict with the keys
    ["error"] and ["details"]. *)
Inductive Detail :=
  | Text (s : string)
  | ErrorDetails (error details : string).

(** What a handler does: it returns its response model or raises an
    [HTTPException]. *)
Inductive Http (A : Type) :=
  | Respond (a : A)
  | HTTPException (status_code : Z) (detail : Detail).
Arguments Respond {A} a.
Arguments HTTPException {A} status_code detail.

(** [settings.cron_secret] and the [X-Cron-Secret] header are both
    [Optional[str]]. *)
Definition verify_cron_secret (cron_secret x_cron_secret : option string) : Http bool :=
  if negb (Py.truthy_opt cron_secret) then Respond true
  else if negb (bool_decide (x_cron_secret = cron_secret))
       then HTTPException 401 (Text "Unauthorized")
       else Respond true.

(** [sum(1 for r in results if r.success)] *)
Definition count_successes (results : list FieldIngestResult) : Z :=
  Z.of_nat (length (filter (λ r, success r = true) results)).

Definition run_daily_ingestion
    (env : Env) (cron_secret : option string)
    (request_date x_cron_secret : option string)
    : World → Http IngestResultSchema * World :=
  λ w,
    match verify_cron_secret cron_secret x_cron_secret with
    | HTTPException status_code detail => (HTTPException status_code detail, w)
    | Respond _ =>
        match ingest_daily_papers env request_date w with
        | (Ok results, w') =>
            let success_count := count_successes results in
            let fail_count := Z.of_nat (length results) - success_count in
            let date :=
              if Py.truthy_opt request_date then default "" request_date
              else today env (clock w') in
            (Respond
               {| message := ("Processed " ++ pretty (Z.of_nat (length results))
                              ++ " fields")%string;
                  irs_date := date;
                  success_count := success_count;
                  fail_count := fail_count;
                  results := results |}, w')
        | (Raise e, w') =>
            (HTTPException 500 (ErrorDetails "Failed to process daily papers" (str e)), w')
        end
    end.

(** ** Text out of a PDF ([app/services/pdf_service.py])

    The sanitisation removes U+FFFD, so here a [str] is the list of its
    code points. *)

Module Unicode.

Definition ustr := list N.

(** [str.isspace] of one character, the test behind [strip] and [split]. *)
Definition is_space (c : N) : bool :=
  ((9 <=? c) && (c <=? 13) || (28 <=? c) && (c <=? 32) || (c =? 133) || (c =? 160)
   || (c =? 5760) || (8192 <=? c) && (c <=? 8202) || (c =? 8232) || (c =? 8233)
   || (c =? 8239) || (c =? 8287) || (c =? 12288))%N.

Fixpoint lstrip (s : ustr) : ustr :=
  match s with
  | [] => []
  | c :: s' => if is_space c then lstrip s' else s
  end.

Definition rstrip (s : ustr) : ustr := reverse (lstrip (reverse s)).

(** [s.strip()] *)
Definition strip (s : ustr) : ustr := rstrip (lstrip s).

(** [s.replace(chr(c), "")] *)
Definition remove (c : N) (s : ustr) : ustr := filter (λ x, x ≠ c) s.

(** [s.split()]: the maximal runs of characters that are not white space;
    [cur] is the run being read. *)
Fixpoint split_go (cur : ustr) (s : ustr) : list ustr :=
  match s with
  | [] => match cur with [] => [] | _ => [cur] end
  | c :: s' =>
      if is_space c
      then match cur with [] => split_go [] s' | _ => cur :: split_go [] s' end
      else split_go (cur ++ [c]) s'
  end.

Definition split (s : ustr) : list ustr := split_go [] s.

(** Truth value of a [str]. *)
Definition truthy (s : ustr) : bool :=
  match s with [] => false | _ => true end.

(** [re.sub(r"\s+", " ", s)]: every maximal run of white space becomes one
    space; [in_run] tells that the character before was white space. *)
Fixpoint sub_spaces (in_run : bool) (s : ustr) : ustr :=
  match s with
  | [] => []
  | c :: s' =>
      if is_space c
      then if in_run then sub_spaces true s' else 32%N :: sub_spaces true s'
      else c :: sub_spaces false s'
  end.

End Unicode.

(** [extract_text_from_pdf], given the texts [page.extract_text()] of the
    pages of the document. *)
Definition extract_text_from_pdf (pages : list Unicode.ustr) : Unicode.ustr * PdfMetadata :=
  let full_text := concat (map (λ page, page ++ [10; 10]%N) pages) in
  let full_text := Unicode.remove 0 full_text in
  let full_text := Unicode.remove 65533 full_text in
  let page_count := Z.of_nat (length pages) in
  let character_count := Z.of_nat (length full_text) in
  let word_count :=
    Z.of_nat (length (filter (λ word, Unicode.truthy (Unicode.strip word) = true)
                             (Unicode.split full_text))) in
  (Unicode.strip full_text,
   {| page_count := page_count; character_count := character_count;
      word_count := word_count |}).

(** ** Reading a feed entry ([ArxivService._parse_atom_entry])

    The normalisations the parser applies to what its regular expressions
    capture. *)

(** [re.sub(r"\s+", " ", text).strip()], applied to the title and to the
    abstract. *)
Definition normalize_space (text : Unicode.ustr) : Unicode.ustr :=
  Unicode.strip (Unicode.sub_spaces false text).

Definition newline : ascii := ascii_of_nat 10.

(** [\d] on the characters below U+0100: the ASCII digits. *)
Definition is_digit (c : ascii) : bool :=
  let n := N_of_ascii c in ((48 <=? n) && (n <=? 57))%N.

Fixpoint drop_chars (n : nat) (s : string) : string :=
  match n, s with
  | S n', String _ s' => drop_chars n' s'
  | _, _ => s
  end.

(** The match of [^.*/abs/] in [s], if there is one: [.*] is greedy and
    does not cross a newline, so the match ends with the last ["/abs/"] of
    the first line; what follows the match is returned. *)
Fixpoint after_last_abs (s : string) : option string :=
  match s with
  | EmptyString => None
  | String c s' =>
      match (if Ascii.eqb c newline then None else after_last_abs s') with
      | Some rest => Some rest
      | None => if String.prefix "/abs/" s then Some (drop_chars 5 s) else None
      end
  end.

(** [re.sub(r"^.*/abs/", "", s)] *)
Definition strip_abs_prefix (s : string) : string :=
  default s (after_last_abs s).

(** [\d*$] at the head of [s]: the digits are consumed, and [$] holds at
    the end of the string and before a newline that ends it; what is left
    is returned. *)
Fixpoint digits_to_end (s : string) : option string :=
  match s with
  | EmptyString => Some EmptyString
  | String c s' =>
      if is_digit c then digits_to_end s'
      else if Ascii.eqb c newline && negb (Py.truthy s') then Some s
      else None
  end.

(** [\d+$] at the head of [s]. *)
Definition version_digits (s : string) : option string :=
  match s with
  | EmptyString => None
  | String c s' => if is_digit c then digits_to_end s' else None
  end.

(** [re.sub(r"v\d+$", "", s)] *)
Fixpoint strip_version (s : string) : string :=
  match s with
  | EmptyString => EmptyString
  | String c s' =>
      if Ascii.eqb c "v"
      then match version_digits s' with
           | Some rest => rest
           | None => String c (strip_version s')
           end
      else String c (strip_version s')
  end.

(** The identifier of the paper whose [<id>] element holds [full_id]. *)
Definition arxiv_id_of (full_id : string) : string :=
  strip_version (strip_abs_prefix full_id).

(** [f"https://arxiv.org/pdf/{arxiv_id}.pdf"] *)
Definition pdf_url_of (arxiv_id : string) : string :=
  ("https://arxiv.org/pdf/" ++ arxiv_id ++ ".pdf")%string.

(** ** The calls a computation issues

    The trace records every round trip to the outside; the calls of one
    kind in a stretch of the trace are counted. *)

Inductive CallKind := FeedCall | PdfCall | ChatCall | StoreCall | Pause.

Global Instance CallKind_eq_dec : EqDecision CallKind.
Proof. solve_decision. Defined.

Definition kind_of (ev : Event) : CallKind :=
  match ev with
  | StoreRead _ | StoreWrite _ => StoreCall
  | FeedFetch _ _ => FeedCall
  | PdfDownload _ => PdfCall
  | ChatCompletion _ => ChatCall
  | Sleep => Pause
  end.

Fixpoint calls (k : CallKind) (evs : list Event) : nat :=
  match evs with
  | [] => 0
  | ev :: evs' => (if decide (kind_of ev = k) then 1 else 0) + calls k evs'
  end.

(** Whatever the world, [m] appends to the trace, and at most [n] calls of
    kind [k]. *)
Definition issues {A} (k : CallKind) (n : nat) (m : M A) : Prop :=
  ∀ w, ∃ evs, trace (m w).2 = trace w ++ evs ∧ (calls k evs ≤ n)%nat.

(** A bound for each kind of call. *)
Definition budget (feed pdf chat db pause : nat) (k : CallKind) : nat :=
  match k with
  | FeedCall => feed
  | PdfCall => pdf
  | ChatCall => chat
  | StoreCall => db
  | Pause => pause
  end.

(** ** What the rows refer to

    Every assignment and every artifact names a paper of the [papers]
    table, and a stored quiz holds validated questions only. *)

Definition has_paper (s : Store) (id : UUID) : Prop :=
  id ∈ map paper_id (papers s).

Definition valid_question (q : QuizQuestion) : Prop :=
  length (options q) = 4%nat ∧ 0 ≤ correct_index q ≤ 3.

Record store_sound (s : Store) : Prop := {
  sound_assignments : ∀ dp, dp ∈ daily_papers s → has_paper s (dp_paper_id dp);
  sound_summaries : ∀ r, r ∈ paper_summaries s → has_paper s (sum_paper_id r);
  sound_quizzes :
    ∀ r, r ∈ paper_quizzes s →
         has_paper s (quiz_paper_id r) ∧ Forall valid_question (questions (quiz_json r));
  sound_prereading : ∀ r, r ∈ paper_prereading s → has_paper s (pre_paper_id r);
}.

(** Unique keys and sound references are handed on ... *)
Definition sound_kept : relation Store :=
  λ s s', store_wf s ∧ store_sound s → store_wf s' ∧ store_sound s'.

(** ... also while the paper [id] is being worked on. *)
Definition sound_with (id : UUID) : relation Store :=
  λ s s', store_wf s ∧ store_sound s ∧ has_paper s id →
          store_wf s' ∧ store_sound s' ∧ has_paper s' id.

(** * Properties *)

(** ** Candidate filtering and selection *)

Section Candidates.
Implicit Types (C papers : list ArxivPaper) (U : list string).

Lemma filter_unused_papers_elem C U (p : ArxivPaper) :
  p ∈ filter_unused_papers C U ↔ p ∈ C ∧ arxiv_id p ∉ U.
Proof.
  unfold filter_unused_papers. rewrite list_elem_of_filter, elem_of_list_to_set.
  tauto.
Qed.

(** C7. [filter_unused_papers C U] keeps exactly the candidates of [C]
    whose identifier is not in [U]: no kept candidate has a used
    identifier, every kept candidate comes from [C], and the result is a
    subsequence of [C], so the order of [C] is preserved. *)
Theorem filter_unused_papers_spec C U :
  Forall (λ p, arxiv_id p ∉ U) (filter_unused_papers C U)
  ∧ Forall (λ p, p ∈ C) (filter_unused_papers C U)
  ∧ filter_unused_papers C U `sublist_of` C.
Proof.
  split_and!.
  - apply Forall_forall. intros p Hp. by apply filter_unused_papers_elem in Hp as [_ ?].
  - apply Forall_forall. intros p Hp. by apply filter_unused_papers_elem in Hp as [? _].
  - unfold filter_unused_papers. apply sublist_filter.
Qed.




End Candidates.

(** ** The effect monad *)

Ltac run :=
  unfold bind, ret, raise, lift, try_except, tick, get_store, put_store; simpl.

Lemma bind_ok_inv {A B} (m : M A) (k : A → M B) w b w' :
  bind m k w = (Ok b, w') → ∃ a w1, m w = (Ok a, w1) ∧ k a w1 = (Ok b, w').
Proof.
  unfold bind. destruct (m w) as [[a|e] w1]; [eauto|discriminate].
Qed.

Lemma bind_ext {A B} (m : M A) (k1 k2 : A → M B) w :
  (∀ a w1, k1 a w1 = k2 a w1) → bind m k1 w = bind m k2 w.
Proof. intros H. unfold bind. destruct (m w) as [[a|e] w1]; auto. Qed.

Lemma bind_ok {A B} (m : M A) (k : A → M B) w a w1 :
  m w = (Ok a, w1) → bind m k w = k a w1.
Proof. intros H. unfold bind. by rewrite H. Qed.

Lemma bind_raise {A B} (m : M A) (k : A → M B) w e w1 :
  m w = (Raise e, w1) → bind m k w = (Raise e, w1).
Proof. intros H. unfold bind. by rewrite H. Qed.

(** ** Quiz validation *)

Section Quiz.
Variable env : Env.

Lemma QuizQuestion_new_ok a b c d question :
  QuizQuestion_new env a b c d = Ok question →
  length (options question) = 4%nat ∧ 0 ≤ correct_index question ≤ 3.
Proof.
  unfold QuizQuestion_new, validation_error.
  destruct (pydantic_str a), (pydantic_str_list b) as [o|],
    (pydantic_int env c) as [i|], (pydantic_str d); try discriminate.
  destruct (bool_decide (length o = 4%nat)) eqn:Hlen; simpl; [|discriminate].
  destruct (0 <=? i) eqn:H0; simpl; [|discriminate].
  destruct (i <=? 3) eqn:H3; [|discriminate].
  intros [= <-]. simpl. apply bool_decide_eq_true in Hlen. lia.
Qed.

(** A list returned by the loop extends the accumulator by one validated
    question per element of the input. *)
Lemma quiz_loop_ok qs : ∀ acc res,
  quiz_loop env qs acc = Ok res →
  ∃ new, res = acc ++ new
         ∧ Forall2 (λ q question, has_four_options q = true
                                  ∧ length (options question) = 4%nat
                                  ∧ 0 ≤ correct_index question ≤ 3) qs new.
Proof.
  induction qs as [|q qs IH]; intros acc res; simpl.
  - intros [= <-]. exists []. by rewrite app_nil_r.
  - unfold exc_bind at 1.
    destruct (getitem q "options") as [opts|] eqn:Hopts; [|discriminate].
    unfold exc_bind at 1.
    destruct (py_len opts) as [n|] eqn:Hlen; [|discriminate].
    destruct (n =? 4) eqn:Hn; simpl; [|discriminate].
    unfold exc_bind at 1. destruct (getitem q "question") as [a|]; [|discriminate].
    unfold exc_bind at 1. destruct (getitem q "correct_index") as [c|]; [|discriminate].
    unfold exc_bind at 1. destruct (getitem q "explanation") as [d|]; [|discriminate].
    unfold exc_bind at 1.
    destruct (QuizQuestion_new env a opts c d) as [question|] eqn:Hq; [|discriminate].
    intros Hres. apply IH in Hres as (new & -> & Hall).
    apply QuizQuestion_new_ok in Hq.
    exists (question :: new). split; [by rewrite <- app_assoc|].
    constructor; [|done]. split; [|exact Hq].
    unfold has_four_options. by rewrite Hopts, Hlen.
Qed.

(** One question without exactly four options makes the loop raise. *)
Lemma quiz_loop_rejects qs acc :
  forallb has_four_options qs = false → is_ok (quiz_loop env qs acc) = false.
Proof.
  intros Hbad. destruct (quiz_loop env qs acc) as [res|] eqn:Hres; [|done].
  apply quiz_loop_ok in Hres as (new & _ & Hall).
  assert (forallb has_four_options qs = true); [|congruence].
  clear Hbad. induction Hall as [|q question qs new' [Hq _] _ IH]; simpl; [done|].
  by rewrite Hq, IH.
Qed.

End Quiz.

(** C4, as the code has it.  Whatever the provider answers,
    [generate_quiz] issues one request and writes nothing.  When it returns
    a quiz, the answer decoded to a dict whose ["questions"] is a list, and
    the quiz holds one validated question per element of that list, each
    with exactly four options: no question is dropped.  When it raises,
    step 7 raises the same exception before any write, so nothing of the
    quiz is persisted.  In particular one question without exactly four
    options rejects the whole quiz.  The number of questions is not
    checked. *)
Theorem generate_quiz_all_or_nothing
    (env : Env) (db_paper : Paper) (field : AcademicField) (w : World) :
  let request := QuizRequest (paper_title db_paper) (paper_abstract db_paper) in
  let result := generate_quiz env (paper_title db_paper) (paper_abstract db_paper) w in
  result.2 = advance (ChatCompletion request) w
  ∧ match result.1 with
    | Ok quiz =>
        ∃ c parsed qs,
          chat env (clock w) request = Ok (Some c)
          ∧ json_loads env c = Ok parsed
          ∧ questions_array parsed = Ok qs
          ∧ Forall2 (λ q question, has_four_options q = true
                                   ∧ length (options question) = 4%nat
                                   ∧ 0 ≤ correct_index question ≤ 3)
                    qs (questions quiz)
    | Raise e =>
        generate_and_store_quiz env db_paper field w
        = (Raise e, advance (ChatCompletion request) w)
    end
  ∧ (∀ c parsed qs,
       chat env (clock w) request = Ok (Some c) →
       json_loads env c = Ok parsed →
       questions_array parsed = Ok qs →
       forallb has_four_options qs = false →
       is_ok result.1 = false).
Proof.
  cbv zeta. unfold generate_and_store_quiz, generate_quiz, chat_completion. run.
  destruct (chat env (clock w) _) as [[c|]|e] eqn:Hchat; simpl; [|by split_and!..].
  destruct (Py.truthy c); simpl; [|by split_and!].
  destruct (json_loads env c) as [parsed|e] eqn:Hloads; simpl; [|by split_and!].
  unfold quiz_of_json.
  destruct (questions_array parsed) as [qs|] eqn:Hqs; simpl; [|by split_and!].
  destruct (quiz_loop env qs []) as [res|] eqn:Hloop; simpl.
  - split_and!; [done| |].
    + apply quiz_loop_ok in Hloop as (new & -> & Hall). simpl.
      by exists c, parsed, qs.
    + intros c' parsed' qs' [= <-]. rewrite Hloads. intros [= <-].
      rewrite Hqs. intros [= <-] Hbad.
      apply (quiz_loop_rejects env qs []) in Hbad. by rewrite Hloop in Hbad.
  - by split_and!.
Qed.

(** The theorem at a quiz whose second question has three options: the
    whole quiz is refused. *)
Lemma generate_quiz_all_or_nothing_witness :
  is_ok (generate_quiz Scenario.env_bad_quiz "Paper A" "Abstract of A"
           (Scenario.world_of Scenario.store_assigned)).1 = false.
Proof.
  pose proof (generate_quiz_all_or_nothing Scenario.env_bad_quiz Scenario.row_A
                Scenario.ml (Scenario.world_of Scenario.store_assigned)) as H.
  cbv zeta in H. destruct H as (_ & _ & H).
  apply (H "generated text"
           (Scenario.quiz_json_of
              [Scenario.question_json Scenario.four;
               Scenario.question_json [JStr "a"; JStr "b"; JStr "c"]])
           [Scenario.question_json Scenario.four;
            Scenario.question_json [JStr "a"; JStr "b"; JStr "c"]]);
    reflexivity.
Defined.

(** C4, as stated, fails on a quiz without questions: an answer whose
    ["questions"] list is empty is accepted, and step 7 stores the empty
    quiz. *)
Lemma generate_quiz_accepts_empty_quiz :
  let w := Scenario.world_of Scenario.store_assigned in
  (generate_quiz Scenario.env_empty_quiz "Paper A" "Abstract of A" w).1
  = Ok {| questions := [] |}
  ∧ paper_quizzes
      (store (generate_and_store_quiz Scenario.env_empty_quiz Scenario.row_A
                Scenario.ml w).2)
    = [ {| quiz_paper_id := 1; quiz_field_id := 7; quiz_json := {| questions := [] |} |} ].
Proof. split; reflexivity. Qed.

(** ** Store operations *)

Section StoreFacts.
Variable env : Env.

Lemma execute_eq ev w :
  execute env ev w
  = (match store_fault env (clock w) with
     | Some msg => Raise (ExternalError msg)
     | None => Ok tt
     end, advance ev w).
Proof. unfold execute. run. by destruct (store_fault env (clock w)). Qed.

(** The existence checks never raise; a failed request reads as "absent". *)
Lemma summaries_exist_eq paper field w :
  summaries_exist env paper field w
  = (Ok (match store_fault env (clock w) with
         | Some _ => false
         | None => 3 <=? count_summaries (store w) paper field
         end), advance (StoreRead (CountSummaries paper field)) w).
Proof.
  unfold summaries_exist, try_except, bind. rewrite execute_eq.
  by destruct (store_fault env (clock w)).
Qed.

Lemma quiz_exists_eq paper field w :
  quiz_exists env paper field w
  = (Ok (match store_fault env (clock w) with
         | Some _ => false
         | None => 0 <? count_quizzes (store w) paper field
         end), advance (StoreRead (CountQuizzes paper field)) w).
Proof.
  unfold quiz_exists, try_except, bind. rewrite execute_eq.
  by destruct (store_fault env (clock w)).
Qed.

Lemma prereading_exists_eq paper field w :
  prereading_exists env paper field w
  = (Ok (match store_fault env (clock w) with
         | Some _ => false
         | None => 0 <? count_prereading (store w) paper field
         end), advance (StoreRead (CountPrereading paper field)) w).
Proof.
  unfold prereading_exists, try_except, bind. rewrite execute_eq.
  by destruct (store_fault env (clock w)).
Qed.

Lemma get_daily_paper_eq field date w :
  get_daily_paper env field date w
  = (match store_fault env (clock w) with
     | Some msg =>
         if contains "PGRST116" msg then Ok None else Raise (ExternalError msg)
     | None =>
         match assignment_rows (store w) field date with
         | [row] => Ok (Some row)
         | _ => Ok None
         end
     end, advance (StoreRead (SelectDailyPaper field date)) w).
Proof.
  unfold get_daily_paper, try_except, bind. rewrite execute_eq.
  destruct (store_fault env (clock w)) as [msg|]; simpl.
  - unfold ret, raise. by destruct (contains "PGRST116" msg).
  - unfold get_store. simpl.
    by destruct (assignment_rows (store w) field date) as [|row [|]].
Qed.

Lemma get_fields_eq w :
  get_fields env w
  = (match store_fault env (clock w) with
     | Some msg => Raise (ExternalError msg)
     | None => Ok (merge_sort name_le (fields (store w)))
     end, advance (StoreRead SelectFields) w).
Proof.
  unfold get_fields, bind. rewrite execute_eq.
  by destruct (store_fault env (clock w)).
Qed.


Lemma store_up_here t n : store_up env t (S n) → store_fault env t = None.
Proof. intros H. rewrite <- (Nat.add_0_r t). apply H. lia. Qed.

Lemma store_up_next t n : store_up env t (S n) → store_up env (S t) n.
Proof.
  intros H k Hk. replace (S t + k)%nat with (t + S k)%nat by lia. apply H. lia.
Qed.

End StoreFacts.

(** ** The idempotency short circuit *)



(** ** Failure isolation *)

Ltac invert_binds :=
  repeat match goal with
         | H : bind _ _ _ = (Ok _, _) |- _ =>
             let a := fresh "a" in
             let w1 := fresh "w" in
             let Hm := fresh "Hm" in
             apply bind_ok_inv in H as (a & w1 & Hm & H)
         end.

Section FieldResults.
Variable env : Env.

Lemma select_newest_paper_nonempty papers :
  Py.nonempty papers = true → is_Some (select_newest_paper papers).
Proof. destruct papers; [discriminate|]. simpl. eauto. Qed.

(** The pool handed to the selection is never empty when the feed listed
    something. *)
Lemma selection_pool_nonempty arxiv_papers used_ids :
  Py.nonempty arxiv_papers = true →
  Py.nonempty (if negb (Py.nonempty (filter_unused_papers arxiv_papers used_ids))
               then arxiv_papers
               else filter_unused_papers arxiv_papers used_ids) = true.
Proof.
  intros H. by destruct (Py.nonempty (filter_unused_papers arxiv_papers used_ids)) eqn:E.
Qed.

Lemma assign_and_generate_ok field date existing db_paper w r w' :
  assign_and_generate env field date existing db_paper w = (Ok r, w') →
  r = succeeded field (paper_id db_paper) (Some (paper_arxiv_id db_paper)).
Proof.
  unfold assign_and_generate. intros H. invert_binds.
  unfold ret in H. by injection H as <- _.
Qed.

Lemma store_and_generate_ok field date existing selected w r w' :
  store_and_generate env field date existing selected w = (Ok r, w') →
  success r = true ∧ field_slug r = slug field.
Proof.
  unfold store_and_generate. intros H. invert_binds.
  apply assign_and_generate_ok in H as ->. done.
Qed.

(** A result returned by steps 1 to 7 without an exception is a success,
    or the no-candidates failure, and that only on an empty feed. *)
Lemma fetch_and_select_ok field date existing w r w' :
  fetch_and_select env field date existing w = (Ok r, w') →
  field_slug r = slug field
  ∧ (success r = true
     ∨ r = failed field "No papers found on arXiv"
       ∧ feed env (clock w) (arxiv_query field) 50 = Ok []).
Proof.
  unfold fetch_and_select. intros H. invert_binds.
  unfold fetch_papers, bind, tick, lift in Hm.
  destruct (feed env (clock w) (arxiv_query field) 50) as [l|] eqn:Hfeed;
    [|discriminate].
  injection Hm as <- <-.
  destruct (Py.nonempty l) eqn:Hne; simpl in H.
  - invert_binds.
    destruct (select_newest_paper_nonempty _ (selection_pool_nonempty l a Hne))
      as [p Hp].
    rewrite Hp in H. apply store_and_generate_ok in H as []. auto.
  - unfold ret in H. injection H as <- _. split; [done|]. right.
    split; [done|]. by destruct l.
Qed.

Lemma check_existing_ok field existing w r w' :
  check_existing env field existing w = (Ok (Some r), w') →
  success r = true ∧ field_slug r = slug field.
Proof.
  unfold check_existing. destruct existing as [dp|]; [|by intros [=]].
  intros H. invert_binds.
  destruct (a && a0 && a1); unfold ret in H; [|discriminate].
  by injection H as <- _.
Qed.

(** The field boundary: an exception of the body becomes the field's
    failure result, carrying the exception's message. *)
Lemma ingest_paper_for_field_eq field date w :
  ingest_paper_for_field env field date w
  = match ingest_body env field date w with
    | (Ok r, w') => (Ok r, w')
    | (Raise e, w') => (Ok (failed field (str e)), w')
    end.
Proof. reflexivity. Qed.

Lemma ingest_paper_for_field_total field date w :
  ∃ r w', ingest_paper_for_field env field date w = (Ok r, w')
          ∧ field_slug r = slug field.
Proof.
  rewrite ingest_paper_for_field_eq.
  destruct (ingest_body env field date w) as [[r|e] w'] eqn:Hbody; [|by eauto].
  exists r, w'. split; [done|].
  unfold ingest_body in Hbody. invert_binds.
  destruct a0 as [r'|].
  - unfold ret in Hbody. injection Hbody as <- _.
    by apply check_existing_ok in Hm0 as [].
  - by apply fetch_and_select_ok in Hbody as [].
Qed.

(** The loop cannot raise: it adds one result per field, in order. *)
Lemma ingest_loop_total date fields : ∀ results w,
  ∃ new w',
    ingest_loop env fields date results w = (Ok (results ++ new), w')
    ∧ Forall2 (λ field result,
                 field_slug result = slug field
                 ∧ ∃ w1 w2, ingest_paper_for_field env field date w1 = (Ok result, w2))
              fields new.
Proof.
  induction fields as [|field rest IH]; intros results w; simpl.
  - exists [], w. by rewrite app_nil_r.
  - destruct (ingest_paper_for_field_total field date w) as (r & w1 & Hr & Hslug).
    rewrite (bind_ok _ _ _ _ _ Hr). unfold bind at 1, tick.
    destruct (IH (results ++ [r]) (advance Sleep w1)) as (new & w' & Hloop & Hall).
    exists (r :: new), w'. split.
    + rewrite Hloop. by rewrite <- app_assoc.
    + constructor; [|done]. split; [done|]. eauto.
Qed.

End FieldResults.

(** C5, as the code has it.  Once the catalog has been read,
    [ingest_daily_papers] cannot raise: it returns one result per field of
    the catalog, in catalog order (by name), each being the outcome of
    [ingest_paper_for_field] for that field and carrying its slug.  And
    [ingest_paper_for_field] never raises: an exception of its body is
    returned as the field's failure result with [str(e)] as message, so the
    loop goes on to the next field. *)
Theorem ingest_daily_papers_complete (env : Env) (date : option string) (w : World) :
  store_fault env (clock w) = None →
  (∃ results w',
     ingest_daily_papers env date w = (Ok results, w')
     ∧ Forall2 (λ field result,
                  field_slug result = slug field
                  ∧ ∃ w1 w2, ingest_paper_for_field env field (run_date env date w) w1
                             = (Ok result, w2))
               (merge_sort name_le (fields (store w))) results)
  ∧ (∀ field d w1,
       ingest_paper_for_field env field d w1
       = match ingest_body env field d w1 with
         | (Ok r, w2) => (Ok r, w2)
         | (Raise e, w2) =>
             (Ok {| field_slug := slug field; success := false; res_paper_id := None;
                    res_arxiv_id := None; error := Some (str e) |}, w2)
         end).
Proof.
  intros Hup. split; [|intros; apply ingest_paper_for_field_eq].
  unfold ingest_daily_papers.
  assert (∀ k : string → M (list FieldIngestResult),
            bind (match date with
                  | Some d => if Py.truthy d then ret d else get_today_date env
                  | None => get_today_date env
                  end) k w = k (run_date env date w) w) as ->.
  { intros k. unfold run_date, bind, get_today_date, ret.
    destruct date as [d|]; [destruct (Py.truthy d)|]; done. }
  unfold bind. rewrite get_fields_eq, Hup.
  destruct (ingest_loop_total env (run_date env date w)
              (merge_sort name_le (fields (store w))) []
              (advance (StoreRead SelectFields) w)) as (new & w' & Hloop & Hall).
  exists new, w'. by rewrite Hloop.
Qed.

(** The theorem on a catalog of two fields and a feed with two candidates. *)
Lemma ingest_daily_papers_complete_witness :
  ∃ results w',
    ingest_daily_papers Scenario.env_two None (Scenario.world_of Scenario.store_fresh)
    = (Ok results, w')
    ∧ Forall2 (λ field result,
                 field_slug result = slug field
                 ∧ ∃ w1 w2, ingest_paper_for_field Scenario.env_two field Scenario.today_is w1
                            = (Ok result, w2))
              [Scenario.ml; Scenario.physics] results.
Proof.
  apply (ingest_daily_papers_complete Scenario.env_two None
           (Scenario.world_of Scenario.store_fresh)).
  reflexivity.
Defined.

(** C5, as stated, fails when the catalog cannot be read: [get_fields]
    re-raises the database error and [ingest_daily_papers] has no handler
    around it, so the run raises and returns no result list. *)
Lemma ingest_daily_papers_raises :
  (ingest_daily_papers (Scenario.with_faults Scenario.env_two [0%nat]) None
     (Scenario.world_of Scenario.store_fresh)).1
  = Raise (ExternalError "connection refused").
Proof. reflexivity. Qed.

(** ** Selection with fallback *)

Lemma filter_unused_papers_empty (C : list ArxivPaper) (U : list string) :
  filter_unused_papers C U = [] ↔ Forall (λ p, arxiv_id p ∈ U) C.
Proof.
  rewrite Forall_forall. split.
  - intros Hnil p Hp. destruct (decide (arxiv_id p ∈ U)) as [|Hfree]; [done|].
    assert (p ∈ filter_unused_papers C U) as Hin
      by by apply filter_unused_papers_elem.
    rewrite Hnil in Hin. by apply elem_of_nil in Hin.
  - intros Hall. destruct (filter_unused_papers C U) as [|p l] eqn:E; [done|].
    assert (p ∈ filter_unused_papers C U) as Hin by (rewrite E; left).
    apply filter_unused_papers_elem in Hin as [Hp Hfree]. by destruct Hfree; auto.
Qed.


(** ** Best-effort PDF extraction *)

Lemma viable_text_threshold (text : string) :
  viable_text text = true ↔ 100 < Py.len (Py.strip text).
Proof.
  unfold viable_text. rewrite andb_true_iff, Z.ltb_lt. split; [tauto|].
  intros H. split; [|done]. destruct text; [|done]. vm_compute in H. discriminate.
Qed.

(** C9. Step 4.5, case by case on the outcome of the extraction.  It
    never raises.  A failed extraction and an extracted text that does not
    pass the minimum-length test have the same effect: the store and
    [db_paper] are left as they were, only the download is recorded, and
    the run goes on with steps 5 to 7.  Full text is written only for a
    text whose stripped length exceeds 100, and even then a failing write
    is absorbed. *)
Theorem pdf_extraction_best_effort
    (env : Env) (field : AcademicField) (date : string)
    (existing : option DailyPaper) (db_paper : Paper) (w : World) :
  let url := paper_pdf_url db_paper in
  let w1 := advance (PdfDownload url) w in
  let w2 := advance (StoreWrite (UpdateFullText (paper_id db_paper))) w1 in
  let abstract_only :=
    pdf_extraction env db_paper w = (Ok db_paper, w1)
    ∧ bind (pdf_extraction env db_paper) (assign_and_generate env field date existing) w
      = assign_and_generate env field date existing db_paper w1 in
  match pdf_extract env (clock w) url with
  | Raise _ => abstract_only
  | Ok (text, _) =>
      if viable_text text
      then 100 < Py.len (Py.strip text)
           ∧ match store_fault env (S (clock w)) with
             | Some _ => pdf_extraction env db_paper w = (Ok db_paper, w2)
             | None =>
                 pdf_extraction env db_paper w
                 = (Ok (with_full_text text db_paper),
                    {| store :=
                         set_papers (store w)
                           (map (λ p, if bool_decide (paper_id p = paper_id db_paper)
                                      then with_full_text text p else p)
                                (papers (store w)));
                       clock := clock w2;
                       trace := trace w2 |})
             end
      else abstract_only
  end.
Proof.
  cbv zeta. unfold bind at 1. unfold pdf_extraction, extract_text_from_url. run.
  destruct (pdf_extract env (clock w) (paper_pdf_url db_paper)) as [[text meta]|e];
    simpl; [|done].
  destruct (viable_text text) eqn:Hviable; [|done].
  split; [by apply viable_text_threshold|].
  unfold update_paper_full_text, bind. rewrite execute_eq. simpl.
  by destruct (store_fault env (S (clock w))).
Qed.

(** ** Summaries: regeneration of the whole set *)

Section Summaries.
Variable env : Env.

Lemma generate_summary_eq title abstract level w :
  generate_summary env title abstract level w
  = (match chat env (clock w) (SummaryRequest level title abstract) with
     | Ok (Some c) =>
         if Py.truthy c then Ok (Py.strip c)
         else Raise (ValueError "Empty response from OpenAI")
     | Ok None => Raise (ValueError "Empty response from OpenAI")
     | Raise e => Raise e
     end, advance (ChatCompletion (SummaryRequest level title abstract)) w).
Proof.
  unfold generate_summary, chat_completion. run.
  destruct (chat env (clock w) _) as [[c|]|e]; simpl; [|done..].
  by destruct (Py.truthy c).
Qed.

Lemma create_paper_summary_ok paper field level text w :
  store_fault env (clock w) = None →
  create_paper_summary env paper field level text w
  = (Ok tt,
     {| store := set_paper_summaries (store w)
                   (put_summary paper field level text (paper_summaries (store w)));
        clock := S (clock w);
        trace := trace w ++ [StoreWrite (UpsertSummary paper field level)] |}).
Proof.
  intros Hup. unfold create_paper_summary, bind. rewrite execute_eq, Hup. done.
Qed.

Lemma existsb_filter_length {A} (k : A → bool) (rows : list A) :
  existsb k rows = true → (1 ≤ length (filter (λ r, k r) rows))%nat.
Proof.
  induction rows as [|r rows IH]; simpl; [discriminate|].
  rewrite filter_cons. destruct (k r) eqn:Hk; simpl; [lia|auto].
Qed.

(** The rows of a (paper, field) are those of its three levels. *)
Lemma summaries_by_level paper field (rows : list SummaryRow) :
  length (filter (λ r, summary_matches paper field r) rows)
  = (length (filter (λ r, summary_key paper field grade5 r) rows)
     + length (filter (λ r, summary_key paper field middle r) rows)
     + length (filter (λ r, summary_key paper field high r) rows))%nat.
Proof.
  induction rows as [|r rows IH]; [done|].
  rewrite !filter_cons.
  destruct (summary_key paper field grade5 r) eqn:K1,
           (summary_key paper field middle r) eqn:K2,
           (summary_key paper field high r) eqn:K3,
           (summary_matches paper field r) eqn:Hm; simpl;
    unfold summary_key in K1, K2, K3; rewrite Hm in K1, K2, K3;
    destruct (sum_level r); simpl in *; try discriminate; rewrite IH; lia.
Qed.

Lemma put_summary_has paper field level text rows :
  existsb (summary_key paper field level) (put_summary paper field level text rows) = true.
Proof.
  unfold put_summary, upsert_row.
  set (row := {| sum_paper_id := paper |}).
  assert (summary_key paper field level row = true) as Hrow.
  { unfold summary_key, summary_matches. simpl. by rewrite !bool_decide_eq_true_2. }
  destruct (existsb (summary_key paper field level) rows) eqn:Hex.
  - apply existsb_exists in Hex as (r & Hr & Hk). apply existsb_exists.
    exists row. split; [|done]. apply in_map_iff. exists r. by rewrite Hk.
  - rewrite existsb_app. simpl. rewrite Hrow. by rewrite orb_true_r.
Qed.

Lemma put_summary_keeps paper field level level' text rows :
  existsb (summary_key paper field level') rows = true →
  existsb (summary_key paper field level') (put_summary paper field level text rows)
  = true.
Proof.
  intros Hex. destruct (decide (level = level')) as [->|Hne];
    [apply put_summary_has|].
  unfold put_summary, upsert_row.
  destruct (existsb (summary_key paper field level) rows).
  - apply existsb_exists in Hex as (r & Hr & Hk). apply existsb_exists.
    exists r. split; [|done]. apply in_map_iff. exists r. split; [|done].
    destruct (summary_key paper field level r) eqn:Hk'; [|done].
    unfold summary_key in Hk, Hk'.
    apply andb_true_iff in Hk as [_ Hl%bool_decide_eq_true].
    apply andb_true_iff in Hk' as [_ Hl'%bool_decide_eq_true]. congruence.
  - rewrite existsb_app, Hex. done.
Qed.

(** After the three upserts the set is complete. *)
Lemma three_upserts_complete paper field g m h rows :
  (3 ≤ length (filter (λ r, summary_matches paper field r)
                 (put_summary paper field high h
                    (put_summary paper field middle m
                       (put_summary paper field grade5 g rows)))))%nat.
Proof.
  rewrite summaries_by_level.
  pose proof (existsb_filter_length _ _
    (put_summary_keeps paper field high grade5 h _
       (put_summary_keeps paper field middle grade5 m _
          (put_summary_has paper field grade5 g rows)))).
  pose proof (existsb_filter_length _ _
    (put_summary_keeps paper field high middle h _
       (put_summary_has paper field middle m
          (put_summary paper field grade5 g rows)))).
  pose proof (existsb_filter_length _ _
    (put_summary_has paper field high h
       (put_summary paper field middle m
          (put_summary paper field grade5 g rows)))).
  lia.
Qed.

End Summaries.

(** C2, as the code has it.  When the check of step 6 reports the summary
    set of the paper at hand incomplete, and the provider answers the three
    requests and the database takes the three writes, then all three levels
    are requested and all three are upserted, one write per level, in the
    order grade5, middle, high: a level already present is overwritten with
    the new text.  Afterwards the set is complete. *)
Theorem summaries_regenerated_together
    (env : Env) (db_paper : Paper) (field : AcademicField) (w : World)
    (c1 c2 c3 : string) :
  let paper := paper_id db_paper in
  let f := field_id field in
  let request := λ level,
    SummaryRequest level (paper_title db_paper) (paper_abstract db_paper) in
  let rows' :=
    put_summary paper f high (Py.strip c3)
      (put_summary paper f middle (Py.strip c2)
         (put_summary paper f grade5 (Py.strip c1) (paper_summaries (store w)))) in
  (summaries_exist env paper f w).1 = Ok false →
  chat env (1 + clock w) (request grade5) = Ok (Some c1) → Py.truthy c1 = true →
  chat env (2 + clock w) (request middle) = Ok (Some c2) → Py.truthy c2 = true →
  chat env (3 + clock w) (request high) = Ok (Some c3) → Py.truthy c3 = true →
  store_up env (4 + clock w) 3 →
  summaries_step env db_paper field w
  = (Ok tt,
     {| store := set_paper_summaries (store w) rows';
        clock := 7 + clock w;
        trace := trace w
                 ++ [StoreRead (CountSummaries paper f);
                     ChatCompletion (request grade5);
                     ChatCompletion (request middle);
                     ChatCompletion (request high);
                     StoreWrite (UpsertSummary paper f grade5);
                     StoreWrite (UpsertSummary paper f middle);
                     StoreWrite (UpsertSummary paper f high)] |})
  ∧ 3 ≤ count_summaries (set_paper_summaries (store w) rows') paper f.
Proof.
  cbv zeta. intros Hcheck H1 T1 H2 T2 H3 T3 Hup.
  pose proof (store_up_here _ _ _ Hup) as U1. apply store_up_next in Hup.
  pose proof (store_up_here _ _ _ Hup) as U2. apply store_up_next in Hup.
  pose proof (store_up_here _ _ _ Hup) as U3.
  simpl in H1, H2, H3, U1, U2, U3.
  split.
  - unfold summaries_step, bind.
    destruct (summaries_exist env (paper_id db_paper) (field_id field) w)
      as [r w1] eqn:Hex.
    rewrite summaries_exist_eq in Hex. simpl in Hcheck. subst r.
    injection Hex as Hb <-. clear Hb. simpl.
    unfold generate_and_store_summaries, generate_all_summaries, bind.
    rewrite generate_summary_eq. simpl. rewrite H1, T1.
    rewrite generate_summary_eq. simpl. rewrite H2, T2.
    rewrite generate_summary_eq. simpl. rewrite H3, T3.
    unfold ret at 1. unfold levels, for_each, bind.
    rewrite create_paper_summary_ok by exact U1.
    rewrite create_paper_summary_ok by exact U2.
    rewrite create_paper_summary_ok by exact U3.
    unfold ret. simpl. by rewrite <- !app_assoc.
  - unfold count_summaries. simpl.
    pose proof (three_upserts_complete (paper_id db_paper) (field_id field)
                  (Py.strip c1) (Py.strip c2) (Py.strip c3)
                  (paper_summaries (store w))).
    lia.
Qed.

(** The theorem on the store left by a crash after the first summary. *)
Lemma summaries_regenerated_together_witness :
  summaries_step Scenario.env_one Scenario.row_A Scenario.ml
    (Scenario.world_of Scenario.store_partial)
  = (Ok tt,
     {| store :=
          set_paper_summaries Scenario.store_partial
            [Scenario.summary_A grade5 "generated text";
             Scenario.summary_A middle "generated text";
             Scenario.summary_A high "generated text"];
        clock := 7;
        trace :=
          [StoreRead (CountSummaries 1 7);
           ChatCompletion (SummaryRequest grade5 "Paper A" "Abstract of A");
           ChatCompletion (SummaryRequest middle "Paper A" "Abstract of A");
           ChatCompletion (SummaryRequest high "Paper A" "Abstract of A");
           StoreWrite (UpsertSummary 1 7 grade5);
           StoreWrite (UpsertSummary 1 7 middle);
           StoreWrite (UpsertSummary 1 7 high)] |})
  ∧ 3 ≤ count_summaries
          (set_paper_summaries Scenario.store_partial
             [Scenario.summary_A grade5 "generated text";
              Scenario.summary_A middle "generated text";
              Scenario.summary_A high "generated text"]) 1 7.
Proof.
  apply (summaries_regenerated_together Scenario.env_one Scenario.row_A Scenario.ml
           (Scenario.world_of Scenario.store_partial)
           "generated text" "generated text" "generated text");
    try reflexivity.
  intros k _. reflexivity.
Defined.

(** C2, as stated, fails: resuming on a store that already holds the
    grade-5 summary of the assigned paper, the run asks the provider for
    the grade-5 summary again and writes it again, replacing the text that
    was there. *)
Lemma resume_regenerates_persisted_level :
  let w := Scenario.world_of Scenario.store_partial in
  let run := ingest_paper_for_field Scenario.env_one Scenario.ml Scenario.today_is w in
  paper_summaries (store w) = [Scenario.summary_A grade5 "old grade5 text"]
  ∧ run.1 = Ok (succeeded Scenario.ml 1 (Some "2501.00001"))
  ∧ In (ChatCompletion (SummaryRequest grade5 "Paper A" "Abstract of A")) (trace run.2)
  ∧ In (StoreWrite (UpsertSummary 1 7 grade5)) (trace run.2)
  ∧ paper_summaries (store run.2)
    = [Scenario.summary_A grade5 "generated text";
       Scenario.summary_A middle "generated text";
       Scenario.summary_A high "generated text"].
Proof. cbv zeta. split_and!; [reflexivity..| | |reflexivity]; vm_compute; tauto. Qed.

(** ** Store errors during the idempotency checks *)

(** C10. When the database request of an existence check fails, the check
    returns [False] without raising, for each of the three artifact kinds.
    The orchestrator then does what it does for an absent artifact: step 6
    generates and stores the summaries, step 7 generates and stores the
    quiz, step 5.5 generates and stores the pre-reading materials (which it
    does for an absent artifact when the paper has full text), and the
    check on an existing assignment does not short-circuit.  No check ever
    makes the run fail. *)
Theorem existence_checks_absorb_faults
    (env : Env) (db_paper : Paper) (field : AcademicField) (dp : DailyPaper)
    (w : World) (msg : string) :
  let paper := paper_id db_paper in
  let f := field_id field in
  store_fault env (clock w) = Some msg →
  (summaries_exist env paper f w
   = (Ok false, advance (StoreRead (CountSummaries paper f)) w)
   ∧ quiz_exists env paper f w
     = (Ok false, advance (StoreRead (CountQuizzes paper f)) w)
   ∧ prereading_exists env paper f w
     = (Ok false, advance (StoreRead (CountPrereading paper f)) w))
  ∧ (summaries_step env db_paper field w
     = generate_and_store_summaries env db_paper field
         (advance (StoreRead (CountSummaries paper f)) w)
     ∧ quiz_step env db_paper field w
       = generate_and_store_quiz env db_paper field
           (advance (StoreRead (CountQuizzes paper f)) w)
     ∧ prereading_step env db_paper field w
       = if Py.truthy_opt (full_text db_paper)
         then generate_and_store_prereading env db_paper field
                (advance (StoreRead (CountPrereading paper f)) w)
         else (Ok tt, advance (StoreRead (CountPrereading paper f)) w))
  ∧ (check_existing env field (Some dp) w).1 = Ok None
  ∧ is_ok (summaries_exist env paper f w).1
    && is_ok (quiz_exists env paper f w).1
    && is_ok (prereading_exists env paper f w).1 = true.
Proof.
  cbv zeta. intros Hfault.
  assert (∀ b : bool, match store_fault env (clock w) with
                      | Some _ => false
                      | None => b
                      end = false) as Hno by (intros; by rewrite Hfault).
  split_and!.
  - by rewrite summaries_exist_eq, Hno.
  - by rewrite quiz_exists_eq, Hno.
  - by rewrite prereading_exists_eq, Hno.
  - unfold summaries_step, bind. by rewrite summaries_exist_eq, Hno.
  - unfold quiz_step, bind. by rewrite quiz_exists_eq, Hno.
  - unfold prereading_step, bind. rewrite prereading_exists_eq, Hno. simpl.
    by destruct (Py.truthy_opt (full_text db_paper)).
  - unfold check_existing, bind. rewrite summaries_exist_eq, Hno.
    rewrite quiz_exists_eq, prereading_exists_eq. done.
  - by rewrite summaries_exist_eq, quiz_exists_eq, prereading_exists_eq.
Qed.

(** The theorem on the fully populated store, with the database down at
    the time of the check. *)
Lemma existence_checks_absorb_faults_witness :
  let env := Scenario.with_faults Scenario.env_one [0%nat] in
  let w := Scenario.world_of Scenario.store_complete in
  summaries_exist env 1 7 w = (Ok false, advance (StoreRead (CountSummaries 1 7)) w)
  ∧ summaries_step env Scenario.row_A Scenario.ml w
    = generate_and_store_summaries env Scenario.row_A Scenario.ml
        (advance (StoreRead (CountSummaries 1 7)) w)
  ∧ (check_existing env Scenario.ml (Some Scenario.assignment_A) w).1 = Ok None.
Proof.
  cbv zeta.
  pose proof (existence_checks_absorb_faults
                (Scenario.with_faults Scenario.env_one [0%nat])
                Scenario.row_A Scenario.ml Scenario.assignment_A
                (Scenario.world_of Scenario.store_complete) "connection refused") as H.
  cbv zeta in H. specialize (H eq_refl).
  destruct H as ((H1 & _ & _) & (H2 & _ & _) & H3 & _).
  split_and!; [exact H1|exact H2|exact H3].
Defined.

(** On that store the three summaries, though present, are written again. *)
Lemma faulty_check_rewrites_summaries :
  let env := Scenario.with_faults Scenario.env_one [0%nat] in
  let w := Scenario.world_of Scenario.store_complete in
  paper_summaries (store (summaries_step env Scenario.row_A Scenario.ml w).2)
  = [Scenario.summary_A grade5 "generated text";
     Scenario.summary_A middle "generated text";
     Scenario.summary_A high "generated text"].
Proof. reflexivity. Qed.

(** ** Resuming on an existing assignment *)

(** With an assignment whose content is incomplete, the run goes through
    steps 1 to 7 again, starting with a request to the feed. *)
Lemma resume_refetches
    (env : Env) (field : AcademicField) (date : string) (w : World) (dp : DailyPaper) :
  store_fault env (clock w) = None →
  assignment_rows (store w) (field_id field) date = [dp] →
  (check_existing env field (Some dp)
     (advance (StoreRead (SelectDailyPaper (field_id field) date)) w)).1 = Ok None →
  ∃ w4, ingest_body env field date w = fetch_and_select env field date (Some dp) w4.
Proof.
  intros Hup Hrow Hcheck. unfold ingest_body, bind at 1.
  rewrite get_daily_paper_eq, Hup, Hrow. unfold bind.
  destruct (check_existing env field (Some dp) _) as [r w4].
  simpl in Hcheck. subst r. eauto.
Qed.

(** C1 on the code: paper A (row 1) is assigned to the field for today and
    nothing has been generated.  The run requests the feed, filters A out
    as used, selects B, adds a row for B and generates the summaries and
    the quiz of B.  The assignment still binds row 1, which still has no
    summary and no quiz. *)
Lemma resume_selects_another_paper :
  let w := Scenario.world_of Scenario.store_assigned in
  let run := ingest_paper_for_field Scenario.env_two Scenario.ml Scenario.today_is w in
  assignment_rows (store w) 7 Scenario.today_is = [Scenario.assignment_A]
  ∧ run.1 = Ok (succeeded Scenario.ml 2 (Some "2501.00003"))
  ∧ In (FeedFetch "cat:cs.LG" 50) (trace run.2)
  ∧ map paper_arxiv_id (papers (store run.2)) = ["2501.00001"; "2501.00003"]
  ∧ daily_papers (store run.2) = [Scenario.assignment_A]
  ∧ count_summaries (store run.2) 1 7 = 0
  ∧ count_quizzes (store run.2) 1 7 = 0
  ∧ count_summaries (store run.2) 2 7 = 3
  ∧ count_quizzes (store run.2) 2 7 = 1.
Proof.
  cbv zeta. split_and!; try reflexivity. vm_compute. tauto.
Qed.

(** * Further properties of the pipeline and its services *)

(** ** Relations kept by the computations *)

Section Keeps.
Context (Q : relation Store) `{!PreOrder Q}.

Lemma keeps_ret {A} (a : A) : keeps Q (ret a).
Proof. intros w. simpl. reflexivity. Qed.

Lemma keeps_raise {A} (e : exn) : keeps Q (@raise A e).
Proof. intros w. simpl. reflexivity. Qed.

Lemma keeps_lift {A} (x : Exc A) : keeps Q (lift x).
Proof. intros w. simpl. reflexivity. Qed.

Lemma keeps_tick ev : keeps Q (tick ev).
Proof. intros w. simpl. reflexivity. Qed.

Lemma keeps_get_store : keeps Q get_store.
Proof. intros w. simpl. reflexivity. Qed.

Lemma keeps_bind {A B} (m : M A) (k : A → M B) :
  keeps Q m → (∀ a, keeps Q (k a)) → keeps Q (bind m k).
Proof.
  intros Hm Hk w. unfold bind. specialize (Hm w).
  destruct (m w) as [[a|e] w1]; simpl in *; [|done].
  etrans; [exact Hm|]. apply Hk.
Qed.

Lemma keeps_try_except {A} (m : M A) (h : exn → M A) :
  keeps Q m → (∀ e, keeps Q (h e)) → keeps Q (try_except m h).
Proof.
  intros Hm Hh w. unfold try_except. specialize (Hm w).
  destruct (m w) as [[a|e] w1]; simpl in *; [done|].
  etrans; [exact Hm|]. apply Hh.
Qed.

Lemma keeps_for_each {A} (l : list A) (body : A → M unit) :
  (∀ x, keeps Q (body x)) → keeps Q (for_each l body).
Proof.
  intros Hbody. induction l as [|x l IH]; simpl; [apply keeps_ret|].
  apply keeps_bind; [apply Hbody|]. intros _. exact IH.
Qed.

Lemma keeps_same_store {A} (m : M A) : keeps same_store m → keeps Q m.
Proof. intros Hm w. rewrite (Hm w). reflexivity. Qed.

End Keeps.

Global Instance same_store_preorder : PreOrder same_store.
Proof. split; [by intros s|]. intros s1 s2 s3 H1 H2. unfold same_store in *. congruence. Qed.

Global Instance same_assignments_preorder : PreOrder same_assignments.
Proof.
  split; [by intros s|]. intros s1 s2 s3 H1 H2. unfold same_assignments in *. congruence.
Qed.

Global Instance same_summaries_preorder : PreOrder same_summaries.
Proof.
  split; [by intros s|]. intros s1 s2 s3 H1 H2. unfold same_summaries in *. congruence.
Qed.

Global Instance wf_kept_preorder : PreOrder wf_kept.
Proof.
  split; [intros s H; exact H|]. intros s1 s2 s3 H1 H2. unfold wf_kept in *. auto.
Qed.

(** Decomposition of a computation into the steps that keep a relation. *)
Ltac keeps_steps :=
  repeat first
    [ apply keeps_ret; apply _ | apply keeps_raise; apply _
    | apply keeps_lift; apply _ | apply keeps_tick; apply _
    | apply keeps_get_store; apply _
    | apply keeps_bind; [apply _| |intros ?]
    | apply keeps_try_except; [apply _| |intros ?]
    | apply keeps_for_each; [apply _|intros ?]
    | match goal with
      | |- keeps _ (match ?x with _ => _ end) => destruct x
      | |- keeps _ (let (_, _) := ?x in _) => destruct x
      end ].

(** *** Computations that only read *)

Section ReadOnly.
Variable env : Env.

Lemma execute_reads ev : keeps same_store (execute env ev).
Proof. unfold execute. cbv zeta. keeps_steps. Qed.

Lemma get_fields_reads : keeps same_store (get_fields env).
Proof. unfold get_fields. cbv zeta. keeps_steps. Qed.

Lemma get_daily_paper_reads field date : keeps same_store (get_daily_paper env field date).
Proof. unfold get_daily_paper. cbv zeta. keeps_steps. Qed.

Lemma get_used_paper_arxiv_ids_reads field :
  keeps same_store (get_used_paper_arxiv_ids env field).
Proof. unfold get_used_paper_arxiv_ids. cbv zeta. keeps_steps. Qed.

Lemma summaries_exist_reads paper field : keeps same_store (summaries_exist env paper field).
Proof. unfold summaries_exist. cbv zeta. keeps_steps. Qed.

Lemma quiz_exists_reads paper field : keeps same_store (quiz_exists env paper field).
Proof. unfold quiz_exists. cbv zeta. keeps_steps. Qed.

Lemma prereading_exists_reads paper field :
  keeps same_store (prereading_exists env paper field).
Proof. unfold prereading_exists. cbv zeta. keeps_steps. Qed.

Lemma fetch_papers_reads query n : keeps same_store (fetch_papers env query n).
Proof. unfold fetch_papers. cbv zeta. keeps_steps. Qed.

Lemma extract_text_from_url_reads url : keeps same_store (extract_text_from_url env url).
Proof. unfold extract_text_from_url. cbv zeta. keeps_steps. Qed.

Lemma chat_completion_reads request : keeps same_store (chat_completion env request).
Proof. unfold chat_completion. cbv zeta. keeps_steps. Qed.

Lemma generate_summary_reads title abstract level :
  keeps same_store (generate_summary env title abstract level).
Proof. unfold generate_summary. cbv zeta. keeps_steps. Qed.

Lemma generate_all_summaries_reads title abstract :
  keeps same_store (generate_all_summaries env title abstract).
Proof. unfold generate_all_summaries. cbv zeta. keeps_steps. Qed.

Lemma generate_quiz_reads title abstract :
  keeps same_store (generate_quiz env title abstract).
Proof. unfold generate_quiz. cbv zeta. keeps_steps. Qed.

Lemma generate_prereading_reads title abstract text field_name :
  keeps same_store (generate_prereading env title abstract text field_name).
Proof. unfold generate_prereading. cbv zeta. keeps_steps. Qed.

Lemma check_existing_reads field existing :
  keeps same_store (check_existing env field existing).
Proof. unfold check_existing. cbv zeta. keeps_steps. Qed.

End ReadOnly.

(** *** Upserts and unique keys *)

Section Upsert.
Context {A K : Type} (key : A → K) (same : A → bool) (row : A).
Hypothesis same_key : ∀ r, same r = true ↔ key r = key row.

Lemma upsert_row_keys rows :
  map key (upsert_row same row rows)
  = if existsb same rows then map key rows else map key rows ++ [key row].
Proof.
  unfold upsert_row. destruct (existsb same rows); [|by rewrite map_app].
  rewrite map_map. apply map_ext. intros r.
  destruct (same r) eqn:Hr; [|done]. symmetry. by apply same_key.
Qed.

Lemma existsb_false_key rows : existsb same rows = false → key row ∉ map key rows.
Proof.
  intros Hex Hin. apply list_elem_of_In, in_map_iff in Hin as (r & Hk & Hr).
  assert (existsb same rows = true); [|congruence].
  apply existsb_exists. exists r. split; [done|]. by apply same_key.
Qed.

Lemma upsert_row_NoDup rows :
  NoDup (map key rows) → NoDup (map key (upsert_row same row rows)).
Proof.
  intros Hnd. rewrite upsert_row_keys.
  destruct (existsb same rows) eqn:Hex; [done|].
  apply NoDup_app. split_and!; [done| |apply NoDup_singleton].
  intros k Hk ->%list_elem_of_singleton. by apply existsb_false_key in Hex.
Qed.

Lemma upsert_row_has rows : existsb same (upsert_row same row rows) = true.
Proof.
  assert (same row = true) as Hrow by by apply same_key.
  unfold upsert_row. destruct (existsb same rows) eqn:Hex.
  - apply existsb_exists in Hex as (r & Hr & Hs). apply existsb_exists.
    exists row. split; [|done]. apply in_map_iff. exists r. by rewrite Hs.
  - rewrite existsb_app. simpl. by rewrite Hrow, orb_true_r.
Qed.

End Upsert.

Lemma NoDup_map_inj {A K} (f : A → K) (l : list A) (x y : A) :
  NoDup (map f l) → x ∈ l → y ∈ l → f x = f y → x = y.
Proof.
  induction l as [|a l IH]; simpl; [by intros _ ?%elem_of_nil|].
  intros [Hnotin Hnd]%NoDup_cons Hx Hy Hf.
  apply elem_of_cons in Hx as [->|Hx], Hy as [->|Hy]; [done| | |by apply IH].
  - destruct Hnotin. rewrite Hf. apply list_elem_of_In, in_map, list_elem_of_In, Hy.
  - destruct Hnotin. rewrite <- Hf. apply list_elem_of_In, in_map, list_elem_of_In, Hx.
Qed.

Lemma find_existsb {A} (f : A → bool) (l : list A) :
  match find f l with
  | Some x => x ∈ l ∧ f x = true ∧ existsb f l = true
  | None => existsb f l = false
  end.
Proof.
  induction l as [|a l IH]; simpl; [done|].
  destruct (f a) eqn:Ha; simpl.
  - split_and!; [left|done..].
  - destruct (find f l); [|done]. destruct IH as (? & ? & ?). split_and!; [by right|done..].
Qed.

Lemma fresh_paper_id_new (s : Store) : fresh_paper_id s ∉ map paper_id (papers s).
Proof.
  unfold fresh_paper_id. intros Hin.
  assert (∀ (l : list nat) n, n ∈ l → (n ≤ max_list l)%nat) as Hmax.
  { induction l as [|a l IH]; intros n; [by intros ?%elem_of_nil|].
    simpl. intros [->|Hn]%elem_of_cons; [lia|]. specialize (IH n Hn). lia. }
  apply Hmax in Hin. lia.
Qed.

(** The row written by [upsert_paper]. *)
Lemma upsert_paper_eq env (pd : PaperData) (w : World) :
  let s := store w in
  let same := λ p, bool_decide (paper_arxiv_id p = pd_arxiv_id pd) in
  ∃ row,
    paper_arxiv_id row = pd_arxiv_id pd
    ∧ match find same (papers s) with
      | Some old => paper_id row = paper_id old ∧ full_text row = full_text old
      | None => paper_id row = fresh_paper_id s ∧ full_text row = None
      end
    ∧ upsert_paper env pd w
      = match store_fault env (clock w) with
        | Some msg =>
            (Raise (ExternalError msg), advance (StoreWrite (UpsertPaper (pd_arxiv_id pd))) w)
        | None =>
            (Ok row,
             {| store := set_papers s (upsert_row same row (papers s));
                clock := S (clock w);
                trace := trace w ++ [StoreWrite (UpsertPaper (pd_arxiv_id pd))] |})
        end.
Proof.
  cbv zeta. unfold upsert_paper, bind. rewrite execute_eq. simpl.
  destruct (find _ (papers (store w))) as [old|] eqn:Hfind.
  - eexists. split_and!; [| | |by destruct (store_fault env (clock w))]; done.
  - eexists. split_and!; [| | |by destruct (store_fault env (clock w))]; done.
Qed.

Create HintDb reads discriminated.
Global Hint Resolve execute_reads get_fields_reads get_daily_paper_reads
  get_used_paper_arxiv_ids_reads summaries_exist_reads quiz_exists_reads
  prereading_exists_reads fetch_papers_reads extract_text_from_url_reads
  chat_completion_reads generate_summary_reads generate_all_summaries_reads
  generate_quiz_reads generate_prereading_reads check_existing_reads : reads.

(** Decomposition of the pipeline: a store operation is handled by its
    own lemma (given by [ops]), a computation that only reads keeps every
    preorder. *)
Ltac keeps_pipeline ops :=
  repeat first
    [ ops
    | apply keeps_same_store; [apply _|solve [auto with reads nocore]]
    | apply keeps_ret; apply _ | apply keeps_raise; apply _
    | apply keeps_lift; apply _ | apply keeps_tick; apply _
    | apply keeps_bind; [apply _| |intros ?]
    | apply keeps_try_except; [apply _| |intros ?]
    | apply keeps_for_each; [apply _|intros ?]
    | match goal with
      | |- keeps _ (match ?x with _ => _ end) => destruct x
      | |- keeps _ (let (_, _) := ?x in _) => destruct x
      end ].

(** *** The uniqueness invariants *)

Section Uniqueness.
Variable env : Env.

Lemma upsert_paper_wf pd : keeps wf_kept (upsert_paper env pd).
Proof.
  intros w Hwf. destruct (upsert_paper_eq env pd w) as (row & Harx & Hfind & ->).
  destruct (store_fault env (clock w)); simpl; [done|].
  destruct Hwf as [Hids Harxs Hass Hsum Hquiz Hpre].
  constructor; simpl; try done.
  - set (same := λ p, bool_decide (paper_arxiv_id p = pd_arxiv_id pd)) in *.
    pose proof (find_existsb same (papers (store w))) as Hfe.
    unfold upsert_row. destruct (find same (papers (store w))) as [old|].
    + destruct Hfe as (Hold & Hsame & ->). destruct Hfind as [Hid _].
      rewrite map_map. erewrite map_ext_in; [exact Hids|].
      intros r Hr%list_elem_of_In. simpl. destruct (same r) eqn:Hsr; [|done].
      rewrite Hid. f_equal. unfold same in Hsr, Hsame.
      apply bool_decide_eq_true in Hsr, Hsame.
      apply (NoDup_map_inj paper_arxiv_id (papers (store w))); [done..|congruence].
    + rewrite Hfe, map_app. destruct Hfind as [Hid _]. simpl. rewrite Hid.
      apply NoDup_app. split_and!; [done| |apply NoDup_singleton].
      intros k Hk ->%list_elem_of_singleton. by apply fresh_paper_id_new in Hk.
  - apply (upsert_row_NoDup paper_arxiv_id); [|done].
    intros r. rewrite bool_decide_eq_true. by rewrite Harx.
Qed.

Lemma update_paper_full_text_wf paper text :
  keeps wf_kept (update_paper_full_text env paper text).
Proof.
  intros w Hwf. unfold update_paper_full_text, bind. rewrite execute_eq.
  destruct (store_fault env (clock w)); simpl; [done|].
  destruct Hwf as [Hids Harxs Hass Hsum Hquiz Hpre].
  constructor; simpl; try done.
  - rewrite map_map. erewrite map_ext; [exact Hids|].
    intros p. simpl. by destruct (bool_decide _).
  - rewrite map_map. erewrite map_ext; [exact Harxs|].
    intros p. simpl. by destruct (bool_decide _).
Qed.

Lemma create_daily_paper_wf date field paper :
  keeps wf_kept (create_daily_paper env date field paper).
Proof.
  intros w Hwf. unfold create_daily_paper, bind. rewrite execute_eq.
  destruct (store_fault env (clock w)); simpl; [done|].
  destruct (existsb _ (daily_papers (store w))) eqn:Hex; simpl; [done|].
  destruct Hwf as [Hids Harxs Hass Hsum Hquiz Hpre].
  constructor; simpl; try done.
  rewrite map_app. apply NoDup_app. split_and!; [done| |apply NoDup_singleton].
  intros k Hk ->%list_elem_of_singleton. simpl in Hk.
  apply list_elem_of_In, in_map_iff in Hk as (dp & Hkey & Hdp).
  assert (existsb (daily_paper_matches field date) (daily_papers (store w)) = true);
    [|congruence].
  apply existsb_exists. exists dp. split; [done|].
  unfold assignment_key in Hkey. injection Hkey as Hf Hd.
  unfold daily_paper_matches. by rewrite !bool_decide_eq_true_2.
Qed.

Lemma create_paper_summary_wf paper field level text :
  keeps wf_kept (create_paper_summary env paper field level text).
Proof.
  intros w Hwf. unfold create_paper_summary, bind. rewrite execute_eq.
  destruct (store_fault env (clock w)); simpl; [done|].
  destruct Hwf as [Hids Harxs Hass Hsum Hquiz Hpre].
  constructor; simpl; try done.
  apply (upsert_row_NoDup summary_row_key); [|done].
  intros r. unfold summary_key, summary_matches, summary_row_key. simpl.
  rewrite !andb_true_iff, !bool_decide_eq_true. split; [by intros [[-> ->] ->]|].
  by intros [= -> -> ->].
Qed.

Lemma create_paper_quiz_wf paper field quiz :
  keeps wf_kept (create_paper_quiz env paper field quiz).
Proof.
  intros w Hwf. unfold create_paper_quiz, bind. rewrite execute_eq.
  destruct (store_fault env (clock w)); simpl; [done|].
  destruct Hwf as [Hids Harxs Hass Hsum Hquiz Hpre].
  constructor; simpl; try done.
  apply (upsert_row_NoDup quiz_row_key); [|done].
  intros r. unfold quiz_matches, quiz_row_key. simpl.
  rewrite !andb_true_iff, !bool_decide_eq_true. split; [by intros [-> ->]|].
  by intros [= -> ->].
Qed.

Lemma create_paper_prereading_wf paper field j p d t k :
  keeps wf_kept (create_paper_prereading env paper field j p d t k).
Proof.
  intros w Hwf. unfold create_paper_prereading, bind. rewrite execute_eq.
  destruct (store_fault env (clock w)); simpl; [done|].
  destruct Hwf as [Hids Harxs Hass Hsum Hquiz Hpre].
  constructor; simpl; try done.
  apply (upsert_row_NoDup prereading_row_key); [|done].
  intros r. unfold prereading_matches, prereading_row_key. simpl.
  rewrite !andb_true_iff, !bool_decide_eq_true. split; [by intros [-> ->]|].
  by intros [= -> ->].
Qed.

Lemma ingest_paper_for_field_wf field date :
  keeps wf_kept (ingest_paper_for_field env field date).
Proof.
  unfold ingest_paper_for_field, ingest_body, fetch_and_select, store_and_generate,
    assign_and_generate, pdf_extraction, prereading_step, summaries_step, quiz_step,
    generate_and_store_prereading, generate_and_store_summaries, generate_and_store_quiz.
  cbv zeta.
  keeps_pipeline
    ltac:(first [ apply upsert_paper_wf | apply update_paper_full_text_wf
                | apply create_daily_paper_wf | apply create_paper_summary_wf
                | apply create_paper_quiz_wf | apply create_paper_prereading_wf ]).
Qed.

End Uniqueness.

(** *** Nothing is lost *)

Global Instance grows_preorder : PreOrder grows.
Proof.
  split.
  - intros s. constructor; eauto.
  - intros s1 s2 s3 [F1 P1 A1 S1 Z1 R1] [F2 P2 A2 S2 Z2 R2]. constructor.
    + congruence.
    + intros i p Hp. destruct (P1 i p Hp) as (p' & Hp' & ? & ? & ?).
      destruct (P2 i p' Hp') as (p'' & Hp'' & ? & ? & ?).
      exists p''. split_and!; [done|congruence..|auto].
    + by etrans.
    + intros r Hr. destruct (S1 r Hr) as (r' & Hr' & ?).
      destruct (S2 r' Hr') as (r'' & ? & ?). exists r''. split; [done|congruence].
    + intros r Hr. destruct (Z1 r Hr) as (r' & Hr' & ?).
      destruct (Z2 r' Hr') as (r'' & ? & ?). exists r''. split; [done|congruence].
    + intros r Hr. destruct (R1 r Hr) as (r' & Hr' & ?).
      destruct (R2 r' Hr') as (r'' & ? & ?). exists r''. split; [done|congruence].
Qed.

Lemma upsert_row_keeps {A K} (key : A → K) (same : A → bool) (row : A) (rows : list A) :
  (∀ r, same r = true → key r = key row) →
  ∀ r, r ∈ rows → ∃ r', r' ∈ upsert_row same row rows ∧ key r' = key r.
Proof.
  intros Hsame r Hr. unfold upsert_row. destruct (existsb same rows).
  - exists (if same r then row else r). split.
    + apply list_elem_of_In, in_map_iff. exists r. by rewrite <- list_elem_of_In.
    + destruct (same r) eqn:Hs; [|done]. symmetry. by apply Hsame.
  - exists r. split; [|done]. apply elem_of_app. by left.
Qed.

Global Instance wf_grows_preorder : PreOrder wf_grows.
Proof.
  split.
  - intros s Hwf. split; [done|reflexivity].
  - intros s1 s2 s3 H12 H23 Hwf. destruct (H12 Hwf) as [Hwf2 G12].
    destruct (H23 Hwf2) as [Hwf3 G23]. split; [done|]. by etrans.
Qed.

Lemma keeps_wf_grows {A} (m : M A) :
  keeps wf_kept m →
  (∀ w, store_wf (store w) → grows (store w) (store (m w).2)) →
  keeps wf_grows m.
Proof. intros Hwf Hg w H. split; [by apply Hwf|by apply Hg]. Qed.

Section NothingLost.
Variable env : Env.

Lemma upsert_paper_grows pd : keeps wf_grows (upsert_paper env pd).
Proof.
  apply keeps_wf_grows; [apply upsert_paper_wf|]. intros w Hwf.
  destruct (upsert_paper_eq env pd w) as (row & Harx & Hfind & ->).
  destruct (store_fault env (clock w)); simpl; [reflexivity|].
  constructor; simpl; eauto.
  intros i p Hp.
  set (same := λ p, bool_decide (paper_arxiv_id p = pd_arxiv_id pd)) in *.
  pose proof (find_existsb same (papers (store w))) as Hfe.
  unfold upsert_row. destruct (find same (papers (store w))) as [old|].
  - destruct Hfe as (Hold & Hsame & ->). destruct Hfind as [Hid Hft].
    rewrite list_lookup_fmap, Hp. simpl. destruct (same p) eqn:Hsp; [|by eauto].
    eexists. split; [done|].
    unfold same in Hsp, Hsame. apply bool_decide_eq_true in Hsp, Hsame.
    assert (p = old) as ->.
    { apply (NoDup_map_inj paper_arxiv_id (papers (store w)));
        [apply Hwf|by eapply list_elem_of_lookup_2|done|congruence]. }
    split_and!; [done|congruence|by rewrite Hft].
  - rewrite Hfe. exists p. split_and!; [|done..]. by apply lookup_app_l_Some.
Qed.

Lemma update_paper_full_text_grows paper text :
  Py.truthy text = true → keeps wf_grows (update_paper_full_text env paper text).
Proof.
  intros Htext. apply keeps_wf_grows; [apply update_paper_full_text_wf|]. intros w _.
  unfold update_paper_full_text, bind. rewrite execute_eq.
  destruct (store_fault env (clock w)); simpl; [reflexivity|].
  constructor; simpl; eauto.
  intros i p Hp. rewrite list_lookup_fmap, Hp. simpl. eexists. split; [done|].
  by destruct (bool_decide (paper_id p = paper)).
Qed.

Lemma create_daily_paper_grows date field paper :
  keeps wf_grows (create_daily_paper env date field paper).
Proof.
  apply keeps_wf_grows; [apply create_daily_paper_wf|]. intros w _.
  unfold create_daily_paper, bind. rewrite execute_eq.
  destruct (store_fault env (clock w)); simpl; [reflexivity|].
  destruct (existsb _ (daily_papers (store w))); simpl; [reflexivity|].
  constructor; simpl; eauto. by apply prefix_app_r.
Qed.

Lemma create_paper_summary_grows paper field level text :
  keeps wf_grows (create_paper_summary env paper field level text).
Proof.
  apply keeps_wf_grows; [apply create_paper_summary_wf|]. intros w _.
  unfold create_paper_summary, bind. rewrite execute_eq.
  destruct (store_fault env (clock w)); simpl; [reflexivity|].
  constructor; simpl; eauto.
  apply upsert_row_keeps. intros r.
  unfold summary_key, summary_matches, summary_row_key. simpl.
  rewrite !andb_true_iff, !bool_decide_eq_true. by intros [[-> ->] ->].
Qed.

Lemma create_paper_quiz_grows paper field quiz :
  keeps wf_grows (create_paper_quiz env paper field quiz).
Proof.
  apply keeps_wf_grows; [apply create_paper_quiz_wf|]. intros w _.
  unfold create_paper_quiz, bind. rewrite execute_eq.
  destruct (store_fault env (clock w)); simpl; [reflexivity|].
  constructor; simpl; eauto.
  apply upsert_row_keeps. intros r. unfold quiz_matches, quiz_row_key. simpl.
  rewrite !andb_true_iff, !bool_decide_eq_true. by intros [-> ->].
Qed.

Lemma create_paper_prereading_grows paper field j p d t k :
  keeps wf_grows (create_paper_prereading env paper field j p d t k).
Proof.
  apply keeps_wf_grows; [apply create_paper_prereading_wf|]. intros w _.
  unfold create_paper_prereading, bind. rewrite execute_eq.
  destruct (store_fault env (clock w)); simpl; [reflexivity|].
  constructor; simpl; eauto.
  apply upsert_row_keeps. intros r. unfold prereading_matches, prereading_row_key. simpl.
  rewrite !andb_true_iff, !bool_decide_eq_true. by intros [-> ->].
Qed.

Lemma pdf_extraction_grows db_paper : keeps wf_grows (pdf_extraction env db_paper).
Proof.
  unfold pdf_extraction. apply keeps_try_except; [apply _| |intros; apply keeps_ret; apply _].
  apply keeps_bind; [apply _|apply keeps_same_store; [apply _|auto with reads]|].
  intros [text meta]. destruct (viable_text text) eqn:Hv; [|apply keeps_ret; apply _].
  apply keeps_bind; [apply _| |intros; apply keeps_ret; apply _].
  apply update_paper_full_text_grows. unfold viable_text in Hv.
  by apply andb_true_iff in Hv as [? _].
Qed.

Lemma ingest_paper_for_field_grows field date :
  keeps wf_grows (ingest_paper_for_field env field date).
Proof.
  unfold ingest_paper_for_field, ingest_body, fetch_and_select, store_and_generate,
    assign_and_generate, prereading_step, summaries_step, quiz_step,
    generate_and_store_prereading, generate_and_store_summaries, generate_and_store_quiz.
  cbv zeta.
  keeps_pipeline
    ltac:(first [ apply upsert_paper_grows | apply pdf_extraction_grows
                | apply create_daily_paper_grows | apply create_paper_summary_grows
                | apply create_paper_quiz_grows | apply create_paper_prereading_grows ]).
Qed.

Lemma ingest_loop_grows date fields :
  ∀ results, keeps wf_grows (ingest_loop env fields date results).
Proof.
  induction fields as [|field rest IH]; intros results; simpl.
  - apply keeps_ret; apply _.
  - apply keeps_bind; [apply _|apply ingest_paper_for_field_grows|]. intros r.
    apply keeps_bind; [apply _|apply keeps_tick; apply _|]. intros _. apply IH.
Qed.

Lemma ingest_daily_papers_grows date : keeps wf_grows (ingest_daily_papers env date).
Proof.
  unfold ingest_daily_papers.
  apply keeps_bind; [apply _| |intros d].
  - destruct date as [d|]; [destruct (Py.truthy d)|];
      first [apply keeps_ret; apply _ | intros w; simpl; reflexivity].
  - apply keeps_bind; [apply _|apply keeps_same_store; [apply _|auto with reads]|].
    intros fs. apply ingest_loop_grows.
Qed.

End NothingLost.

(** *** The assignments are touched by step 5 only *)

Section Assignments.
Variable env : Env.

Lemma upsert_paper_same_assignments pd : keeps same_assignments (upsert_paper env pd).
Proof.
  intros w. destruct (upsert_paper_eq env pd w) as (row & _ & _ & ->).
  by destruct (store_fault env (clock w)).
Qed.

Lemma update_paper_full_text_same_assignments paper text :
  keeps same_assignments (update_paper_full_text env paper text).
Proof.
  intros w. unfold update_paper_full_text, bind. rewrite execute_eq.
  by destruct (store_fault env (clock w)).
Qed.

Lemma create_paper_summary_same_assignments paper field level text :
  keeps same_assignments (create_paper_summary env paper field level text).
Proof.
  intros w. unfold create_paper_summary, bind. rewrite execute_eq.
  by destruct (store_fault env (clock w)).
Qed.

Lemma create_paper_quiz_same_assignments paper field quiz :
  keeps same_assignments (create_paper_quiz env paper field quiz).
Proof.
  intros w. unfold create_paper_quiz, bind. rewrite execute_eq.
  by destruct (store_fault env (clock w)).
Qed.

Lemma create_paper_prereading_same_assignments paper field j p d t k :
  keeps same_assignments (create_paper_prereading env paper field j p d t k).
Proof.
  intros w. unfold create_paper_prereading, bind. rewrite execute_eq.
  by destruct (store_fault env (clock w)).
Qed.

Ltac assignment_ops :=
  first [ apply upsert_paper_same_assignments
        | apply update_paper_full_text_same_assignments
        | apply create_paper_summary_same_assignments
        | apply create_paper_quiz_same_assignments
        | apply create_paper_prereading_same_assignments ].

Lemma pdf_extraction_same_assignments db_paper :
  keeps same_assignments (pdf_extraction env db_paper).
Proof. unfold pdf_extraction. keeps_pipeline assignment_ops. Qed.

Lemma prereading_step_same_assignments db_paper field :
  keeps same_assignments (prereading_step env db_paper field).
Proof.
  unfold prereading_step, generate_and_store_prereading.
  keeps_pipeline assignment_ops.
Qed.

Lemma summaries_step_same_assignments db_paper field :
  keeps same_assignments (summaries_step env db_paper field).
Proof.
  unfold summaries_step, generate_and_store_summaries.
  keeps_pipeline assignment_ops.
Qed.

Lemma quiz_step_same_assignments db_paper field :
  keeps same_assignments (quiz_step env db_paper field).
Proof.
  unfold quiz_step, generate_and_store_quiz. keeps_pipeline assignment_ops.
Qed.

End Assignments.

(** *** What the steps leave behind *)

(** From a run of [m] to the relation it keeps. *)
Lemma keeps_run {A} (Q : relation Store) (m : M A) w r w' :
  keeps Q m → m w = (r, w') → Q (store w) (store w').
Proof. intros Hk Hm. specialize (Hk w). by rewrite Hm in Hk. Qed.

Section Postconditions.
Variable env : Env.

Lemma create_paper_summary_inv paper field level text w w' :
  create_paper_summary env paper field level text w = (Ok tt, w') →
  store w' = set_paper_summaries (store w)
               (put_summary paper field level text (paper_summaries (store w))).
Proof.
  unfold create_paper_summary, bind. rewrite execute_eq.
  destruct (store_fault env (clock w)); simpl; [discriminate|]. by intros [= <-].
Qed.

Lemma create_paper_quiz_inv paper field quiz w w' :
  create_paper_quiz env paper field quiz w = (Ok tt, w') →
  store w' = set_paper_quizzes (store w)
               (upsert_row (quiz_matches paper field)
                  {| quiz_paper_id := paper; quiz_field_id := field; quiz_json := quiz |}
                  (paper_quizzes (store w))).
Proof.
  unfold create_paper_quiz, bind. rewrite execute_eq.
  destruct (store_fault env (clock w)); simpl; [discriminate|]. by intros [= <-].
Qed.

Lemma create_daily_paper_inv date field paper w row w' :
  create_daily_paper env date field paper w = (Ok row, w') →
  assignment_rows (store w') field date = [row] ∧ dp_paper_id row = paper.
Proof.
  unfold create_daily_paper, bind. rewrite execute_eq.
  destruct (store_fault env (clock w)); simpl; [discriminate|].
  destruct (existsb _ (daily_papers (store w))) eqn:Hex; simpl; [discriminate|].
  intros [= <- <-]. split; [|done]. unfold assignment_rows. simpl.
  rewrite filter_app.
  assert (filter (λ dp, daily_paper_matches field date dp) (daily_papers (store w)) = [])
    as ->.
  { induction (daily_papers (store w)) as [|dp l IH]; [done|]. simpl in Hex.
    apply orb_false_iff in Hex as [Hdp Hl]. rewrite filter_cons, Hdp. simpl. auto. }
  simpl.
  assert (daily_paper_matches field date
            {| dp_date := date; dp_field_id := field; dp_paper_id := paper |} = true)
    as Hrow by (unfold daily_paper_matches; simpl; by rewrite !bool_decide_eq_true_2).
  rewrite filter_cons, filter_nil. by rewrite Hrow.
Qed.

Lemma summaries_step_complete db_paper field w u w' :
  summaries_step env db_paper field w = (Ok u, w') →
  3 ≤ count_summaries (store w') (paper_id db_paper) (field_id field).
Proof.
  unfold summaries_step. intros H. invert_binds.
  rewrite summaries_exist_eq in Hm. injection Hm as Ha <-.
  destruct a; simpl in H.
  - unfold ret in H. injection H as _ <-. simpl.
    destruct (store_fault env (clock w)); [discriminate|]. by apply Z.leb_le.
  - unfold generate_and_store_summaries in H. invert_binds.
    apply (keeps_run same_store _ _ _ _ (generate_all_summaries_reads env _ _)) in Hm.
    unfold levels, for_each in H. invert_binds.
    destruct a0, a1, a2.
    apply create_paper_summary_inv in Hm0, Hm1, Hm2.
    unfold ret in H. injection H as _ <-. unfold same_store in Hm.
    unfold count_summaries. rewrite Hm2, Hm1, Hm0, Hm. simpl.
    pose proof (three_upserts_complete (paper_id db_paper) (field_id field)
                  (getattr a grade5) (getattr a middle) (getattr a high)
                  (paper_summaries (store w))) as Hc.
    simpl in Hc. lia.
Qed.

Lemma quiz_step_present db_paper field w u w' :
  quiz_step env db_paper field w = (Ok u, w') →
  0 < count_quizzes (store w') (paper_id db_paper) (field_id field)
  ∧ paper_summaries (store w') = paper_summaries (store w).
Proof.
  unfold quiz_step. intros H. invert_binds.
  rewrite quiz_exists_eq in Hm. injection Hm as Ha <-.
  destruct a; simpl in H.
  - unfold ret in H. injection H as _ <-. simpl.
    destruct (store_fault env (clock w)); [discriminate|]. by rewrite <- Z.ltb_lt.
  - unfold generate_and_store_quiz in H. invert_binds.
    apply (keeps_run same_store _ _ _ _ (generate_quiz_reads env _ _)) in Hm.
    unfold same_store in Hm.
    destruct u. apply create_paper_quiz_inv in H. rewrite H, Hm. simpl. split; [|done].
    unfold count_quizzes. simpl.
    match goal with
    | |- 0 < Z.of_nat (length ?l) => assert (1 ≤ length l)%nat; [|lia]
    end.
    apply (existsb_filter_length (quiz_matches (paper_id db_paper) (field_id field))).
    apply (upsert_row_has quiz_row_key). intros r.
    unfold quiz_matches, quiz_row_key. simpl.
    rewrite !andb_true_iff, !bool_decide_eq_true.
    split; [by intros [-> ->]|by intros [= -> ->]].
Qed.

End Postconditions.

(** *** A reported success *)

Section Success.
Variable env : Env.

Lemma check_existing_some field existing w r w' :
  check_existing env field existing w = (Ok (Some r), w') →
  ∃ dp, existing = Some dp
        ∧ r = succeeded field (dp_paper_id dp) None
        ∧ store w' = store w
        ∧ 3 ≤ count_summaries (store w) (dp_paper_id dp) (field_id field)
        ∧ 0 < count_quizzes (store w) (dp_paper_id dp) (field_id field)
        ∧ 0 < count_prereading (store w) (dp_paper_id dp) (field_id field).
Proof.
  unfold check_existing. destruct existing as [dp|]; [|by intros [=]].
  unfold bind. rewrite summaries_exist_eq. simpl.
  rewrite quiz_exists_eq. simpl. rewrite prereading_exists_eq. simpl.
  destruct (store_fault env (clock w)); [by intros [=]|].
  destruct (store_fault env (S (clock w))); [rewrite andb_false_r; by intros [=]|].
  destruct (store_fault env (S (S (clock w)))); [rewrite andb_false_r; by intros [=]|].
  destruct (3 <=? _) eqn:Hs; [|by intros [=]].
  destruct (0 <? count_quizzes _ _ _) eqn:Hq; [|by intros [=]].
  destruct (0 <? count_prereading _ _ _) eqn:Hp; [|by intros [=]].
  simpl. intros [= <- <-]. exists dp. apply Z.leb_le in Hs. apply Z.ltb_lt in Hq, Hp.
  by split_and!.
Qed.

Lemma get_daily_paper_some field date w dp w' :
  get_daily_paper env field date w = (Ok (Some dp), w') →
  assignment_rows (store w) field date = [dp].
Proof.
  rewrite get_daily_paper_eq. destruct (store_fault env (clock w)) as [msg|].
  - destruct (contains "PGRST116" msg); by intros [=].
  - destruct (assignment_rows (store w) field date) as [|row [|]]; try by intros [=].
    by intros [= -> _].
Qed.

Lemma pdf_extraction_id db_paper w p w' :
  pdf_extraction env db_paper w = (Ok p, w') →
  paper_id p = paper_id db_paper ∧ paper_arxiv_id p = paper_arxiv_id db_paper.
Proof.
  unfold pdf_extraction, try_except, bind.
  destruct (extract_text_from_url env (paper_pdf_url db_paper) w) as [[[text meta]|e] w1];
    [|by intros [= <- _]].
  destruct (viable_text text); [|by intros [= <- _]].
  destruct (update_paper_full_text env (paper_id db_paper) text w1) as [[u|e] w2];
    by intros [= <- _].
Qed.

Lemma assign_and_generate_post field date existing db_paper w r w' :
  assign_and_generate env field date existing db_paper w = (Ok r, w') →
  3 ≤ count_summaries (store w') (paper_id db_paper) (field_id field)
  ∧ 0 < count_quizzes (store w') (paper_id db_paper) (field_id field)
  ∧ match existing with
    | None => ∃ dp, assignment_rows (store w') (field_id field) date = [dp]
                    ∧ dp_paper_id dp = paper_id db_paper
    | Some _ => daily_papers (store w') = daily_papers (store w)
    end.
Proof.
  unfold assign_and_generate. intros H. invert_binds.
  unfold ret in H. injection H as _ <-.
  pose proof (keeps_run _ _ _ _ _ (prereading_step_same_assignments env _ _) Hm0) as A1.
  pose proof (keeps_run _ _ _ _ _ (summaries_step_same_assignments env _ _) Hm1) as A2.
  pose proof (keeps_run _ _ _ _ _ (quiz_step_same_assignments env _ _) Hm2) as A3.
  unfold same_assignments in A1, A2, A3.
  apply summaries_step_complete in Hm1. apply quiz_step_present in Hm2 as [Hq Hs].
  split_and!; [|done|].
  - unfold count_summaries in *. by rewrite Hs.
  - destruct existing as [dp|].
    + unfold ret in Hm. injection Hm as _ <-. congruence.
    + invert_binds. unfold ret in Hm. injection Hm as _ <-.
      apply create_daily_paper_inv in Hm2 as [Hrow Hid]. eexists. split; [|exact Hid].
      unfold assignment_rows in *. by rewrite A3, A2, A1.
Qed.

End Success.

(** What every step before step 5 does to the assignments: nothing. *)
Lemma reads_same_assignments {A} (m : M A) w r w' :
  keeps same_store m → m w = (r, w') → daily_papers (store w') = daily_papers (store w).
Proof. intros Hk Hm. apply (keeps_run _ _ _ _ _ Hk) in Hm. by rewrite Hm. Qed.

(** X1. A field is reported successful only with its content in place:
    when [ingest_paper_for_field] returns success, the result names a
    paper, the store holds at least three summaries and a quiz for that
    paper and the field, and exactly one assignment for the field and the
    date.  This holds whatever the feed, the extractor, the provider and
    the database answered on the way. *)
Theorem success_leaves_content
    (env : Env) (field : AcademicField) (date : string) (w w' : World)
    (r : FieldIngestResult) :
  ingest_paper_for_field env field date w = (Ok r, w') →
  success r = true →
  ∃ paper,
    res_paper_id r = Some paper
    ∧ 3 ≤ count_summaries (store w') paper (field_id field)
    ∧ 0 < count_quizzes (store w') paper (field_id field)
    ∧ ∃ dp, assignment_rows (store w') (field_id field) date = [dp].
Proof.
  rewrite ingest_paper_for_field_eq.
  destruct (ingest_body env field date w) as [[r0|e] w0] eqn:Hbody;
    intros [= <- <-] Hsuccess; [|discriminate].
  unfold ingest_body in Hbody.
  apply bind_ok_inv in Hbody as (existing & w1 & Hget & Hbody).
  apply bind_ok_inv in Hbody as (early & w2 & Hcheck & Hbody).
  pose proof (reads_same_assignments _ _ _ _ (get_daily_paper_reads env _ _) Hget) as D1.
  pose proof (reads_same_assignments _ _ _ _ (check_existing_reads env _ _) Hcheck) as D2.
  destruct early as [r'|].
  - unfold ret in Hbody. injection Hbody as <- <-.
    apply check_existing_some in Hcheck as (dp & -> & -> & Hst & Hs & Hq & _).
    apply get_daily_paper_some in Hget.
    exists (dp_paper_id dp). rewrite Hst. split_and!; [done..|].
    exists dp. unfold assignment_rows in *. by rewrite D1.
  - unfold fetch_and_select in Hbody.
    apply bind_ok_inv in Hbody as (arxiv_papers & w3 & Hfetch & Hbody).
    pose proof (reads_same_assignments _ _ _ _ (fetch_papers_reads env _ _) Hfetch) as D3.
    destruct (Py.nonempty arxiv_papers); simpl in Hbody;
      [|unfold ret in Hbody; injection Hbody as <- _; discriminate].
    apply bind_ok_inv in Hbody as (used_ids & w4 & Hused & Hbody).
    pose proof (reads_same_assignments _ _ _ _
                  (get_used_paper_arxiv_ids_reads env _) Hused) as D4.
    destruct (select_newest_paper _) as [selected|];
      [|unfold ret in Hbody; injection Hbody as <- _; discriminate].
    unfold store_and_generate in Hbody.
    apply bind_ok_inv in Hbody as (db_paper & w5 & Hupsert & Hbody).
    apply bind_ok_inv in Hbody as (db_paper' & w6 & Hpdf & Hbody).
    pose proof (keeps_run _ _ _ _ _ (upsert_paper_same_assignments env _) Hupsert) as D5.
    pose proof (keeps_run _ _ _ _ _ (pdf_extraction_same_assignments env _) Hpdf) as D6.
    unfold same_assignments in D5, D6.
    pose proof (assign_and_generate_ok _ _ _ _ _ _ _ _ Hbody) as ->.
    apply assign_and_generate_post in Hbody as (Hs & Hq & Hassign).
    exists (paper_id db_paper'). split_and!; [done..|].
    destruct existing as [dp|].
    + apply get_daily_paper_some in Hget. exists dp.
      unfold assignment_rows in *. by rewrite Hassign, D6, D5, D4, D3, D2, D1.
    + destruct Hassign as (dp & Hdp & _). by exists dp.
Qed.

(** The theorem on the run of the resume scenario. *)
Lemma success_leaves_content_witness :
  ∃ paper,
    Some 2%nat = Some paper
    ∧ 3 ≤ count_summaries
            (store (ingest_paper_for_field Scenario.env_two Scenario.ml Scenario.today_is
                      (Scenario.world_of Scenario.store_assigned)).2) paper 7
    ∧ 0 < count_quizzes
            (store (ingest_paper_for_field Scenario.env_two Scenario.ml Scenario.today_is
                      (Scenario.world_of Scenario.store_assigned)).2) paper 7
    ∧ ∃ dp, assignment_rows
              (store (ingest_paper_for_field Scenario.env_two Scenario.ml Scenario.today_is
                        (Scenario.world_of Scenario.store_assigned)).2) 7 Scenario.today_is
            = [dp].
Proof.
  apply (success_leaves_content Scenario.env_two Scenario.ml Scenario.today_is
           (Scenario.world_of Scenario.store_assigned)
           (ingest_paper_for_field Scenario.env_two Scenario.ml Scenario.today_is
              (Scenario.world_of Scenario.store_assigned)).2
           (succeeded Scenario.ml 2 (Some "2501.00003")));
    [vm_compute; reflexivity|reflexivity].
Defined.

(** X2. The unique keys stay unique.  On a store in which paper ids, arXiv
    ids, the (field, date) of the assignments and the conflict keys of the
    summaries, quizzes and pre-reading rows are unique, they are still
    unique after a run for one field and after a daily run over the whole
    catalog, whatever fails on the way: re-ingestion never duplicates a
    paper, an assignment or an artifact. *)
Theorem ingestion_keeps_keys_unique
    (env : Env) (field : AcademicField) (date : string) (day : option string)
    (w : World) :
  store_wf (store w) →
  store_wf (store (ingest_paper_for_field env field date w).2)
  ∧ store_wf (store (ingest_daily_papers env day w).2).
Proof.
  intros Hwf. split.
  - by apply ingest_paper_for_field_wf.
  - by apply ingest_daily_papers_grows.
Qed.

(** The theorem on the catalog of two fields with nothing ingested. *)
Lemma ingestion_keeps_keys_unique_witness :
  store_wf (store (ingest_paper_for_field Scenario.env_two Scenario.ml Scenario.today_is
                     (Scenario.world_of Scenario.store_fresh)).2)
  ∧ store_wf (store (ingest_daily_papers Scenario.env_two None
                       (Scenario.world_of Scenario.store_fresh)).2).
Proof.
  apply (ingestion_keeps_keys_unique Scenario.env_two Scenario.ml Scenario.today_is None
           (Scenario.world_of Scenario.store_fresh)).
  constructor; simpl; apply NoDup_nil_2.
Defined.

(** X3. Nothing is lost.  On a store with unique keys, a run for one field
    and a daily run leave the catalog untouched, keep every paper row at
    its place with its id and arXiv id and never erase an extracted text,
    keep the earlier assignments at their place, and keep a row under
    every artifact key that had one: the pipeline adds and overwrites, it
    never deletes. *)
Theorem ingestion_loses_nothing
    (env : Env) (field : AcademicField) (date : string) (day : option string)
    (w : World) :
  store_wf (store w) →
  grows (store w) (store (ingest_paper_for_field env field date w).2)
  ∧ grows (store w) (store (ingest_daily_papers env day w).2).
Proof.
  intros Hwf. split.
  - by apply ingest_paper_for_field_grows.
  - by apply ingest_daily_papers_grows.
Qed.

(** The theorem on the store of the resume scenario. *)
Lemma ingestion_loses_nothing_witness :
  grows Scenario.store_assigned
    (store (ingest_paper_for_field Scenario.env_two Scenario.ml Scenario.today_is
              (Scenario.world_of Scenario.store_assigned)).2)
  ∧ grows Scenario.store_assigned
      (store (ingest_daily_papers Scenario.env_two None
                (Scenario.world_of Scenario.store_assigned)).2).
Proof.
  apply (ingestion_loses_nothing Scenario.env_two Scenario.ml Scenario.today_is None
           (Scenario.world_of Scenario.store_assigned)).
  constructor; simpl; repeat constructor; set_solver.
Defined.

(** ** Selection among unused candidates *)




(** ** Pre-reading is best effort *)

(** X6. Step 5.5 cannot fail the field: whatever the database and the
    provider answer, and whether or not the answer passes validation,
    [prereading_step] returns normally; and it leaves papers, assignments,
    summaries and quizzes as they were. *)
Theorem prereading_step_never_raises
    (env : Env) (db_paper : Paper) (field : AcademicField) (w : World) :
  let w' := (prereading_step env db_paper field w).2 in
  (prereading_step env db_paper field w).1 = Ok tt
  ∧ papers (store w') = papers (store w)
  ∧ daily_papers (store w') = daily_papers (store w)
  ∧ paper_summaries (store w') = paper_summaries (store w)
  ∧ paper_quizzes (store w') = paper_quizzes (store w).
Proof.
  cbv zeta. unfold prereading_step, bind. rewrite prereading_exists_eq.
  set (w1 := advance _ w).
  assert (∀ w0 : World,
            let w' := (generate_and_store_prereading env db_paper field w0).2 in
            (generate_and_store_prereading env db_paper field w0).1 = Ok tt
            ∧ papers (store w') = papers (store w0)
            ∧ daily_papers (store w') = daily_papers (store w0)
            ∧ paper_summaries (store w') = paper_summaries (store w0)
            ∧ paper_quizzes (store w') = paper_quizzes (store w0)) as Hgen.
  { intros w0. cbv zeta. unfold generate_and_store_prereading, try_except, bind.
    destruct (generate_prereading env _ _ _ _ w0) as [[r|e] w2] eqn:Hg;
      apply (keeps_run same_store _ _ _ _ (generate_prereading_reads env _ _ _ _)) in Hg;
      unfold same_store in Hg; simpl; [|by rewrite Hg].
    unfold create_paper_prereading, bind. rewrite execute_eq.
    destruct (store_fault env (clock w2)); simpl; by rewrite Hg. }
  destruct (negb _ && _); [exact (Hgen w1)|done].
Qed.

(** ** A day without candidates *)

Section EmptyFeed.
Variable env : Env.
Hypothesis db_up : ∀ t, store_fault env t = None.
Hypothesis feed_empty : ∀ t query n, feed env t query n = Ok [].

Lemma empty_feed_field field date w :
  daily_papers (store w) = [] →
  ingest_paper_for_field env field date w
  = (Ok (failed field "No papers found on arXiv"),
     advance (FeedFetch (arxiv_query field) 50)
       (advance (StoreRead (SelectDailyPaper (field_id field) date)) w)).
Proof.
  intros Hnone. unfold ingest_paper_for_field, ingest_body, try_except, bind.
  rewrite get_daily_paper_eq, db_up. unfold assignment_rows. rewrite Hnone. simpl.
  unfold fetch_and_select, fetch_papers. run. by rewrite feed_empty.
Qed.

Lemma empty_feed_loop date fields : ∀ results w,
  daily_papers (store w) = [] →
  ∃ w', ingest_loop env fields date results w
        = (Ok (results ++ map (λ f, failed f "No papers found on arXiv") fields), w')
        ∧ store w' = store w.
Proof.
  induction fields as [|field rest IH]; intros results w Hnone; simpl.
  - exists w. by rewrite app_nil_r.
  - unfold bind at 1. rewrite empty_feed_field by done.
    unfold bind at 1, tick.
    edestruct (IH (results ++ [failed field "No papers found on arXiv"])) as (w' & -> & Hst);
      [|exists w'; split; [by rewrite <- app_assoc|exact Hst]].
    done.
Qed.

End EmptyFeed.

(** X5. A day on which the feed lists nothing: with the database
    answering and no assignment in the store, the daily run reports, for
    every field of the catalog in order, the failure "No papers found on
    arXiv", and leaves the store exactly as it was: no paper and no
    assignment is created. *)
Theorem empty_feed_day (env : Env) (date : option string) (w : World) :
  (∀ t, store_fault env t = None) →
  (∀ t query n, feed env t query n = Ok []) →
  daily_papers (store w) = [] →
  ∃ w', ingest_daily_papers env date w
        = (Ok (map (λ f, failed f "No papers found on arXiv")
                 (merge_sort name_le (fields (store w)))), w')
        ∧ store w' = store w.
Proof.
  intros Hup Hfeed Hnone. unfold ingest_daily_papers.
  assert (∀ k : string → M (list FieldIngestResult),
            bind (match date with
                  | Some d => if Py.truthy d then ret d else get_today_date env
                  | None => get_today_date env
                  end) k w = k (run_date env date w) w) as ->.
  { intros k. unfold run_date, bind, get_today_date, ret.
    destruct date as [d|]; [destruct (Py.truthy d)|]; done. }
  unfold bind. rewrite get_fields_eq, Hup.
  destruct (empty_feed_loop env Hup Hfeed (run_date env date w)
              (merge_sort name_le (fields (store w))) []
              (advance (StoreRead SelectFields) w) Hnone) as (w' & Hloop & Hst).
  exists w'. by rewrite Hloop.
Qed.

(** The theorem on the fresh catalog with an empty feed. *)
Lemma empty_feed_day_witness :
  ∃ w', ingest_daily_papers
          (Scenario.env_with [] "generated text" (Scenario.quiz_json_of [])) None
          (Scenario.world_of Scenario.store_fresh)
        = (Ok [failed Scenario.ml "No papers found on arXiv";
               failed Scenario.physics "No papers found on arXiv"], w')
        ∧ store w' = Scenario.store_fresh.
Proof.
  apply (empty_feed_day (Scenario.env_with [] "generated text" (Scenario.quiz_json_of []))
           None (Scenario.world_of Scenario.store_fresh)); reflexivity.
Defined.

(** ** Generation requests *)

Lemma take_split (n : N) (s : string) :
  ∃ rest, s = (Py.take n s ++ rest)%string
          ∧ Py.len (Py.take n s) = Z.min (Z.of_N n) (Py.len s).
Proof.
  revert n. induction s as [|c s IH]; intros n; simpl.
  - exists "". split; [done|]. unfold Py.len. simpl. lia.
  - destruct (n =? 0)%N eqn:Hn.
    + apply N.eqb_eq in Hn as ->. exists (String c s). split; [done|].
      unfold Py.len. simpl. lia.
    + apply N.eqb_neq in Hn. destruct (IH (N.pred n)) as (rest & Hs & Hlen).
      exists rest. split; [exact (f_equal (String c) Hs)|].
      unfold Py.len in *. simpl. lia.
Qed.

Lemma len_app (s t : string) : Py.len (s ++ t) = Py.len s + Py.len t.
Proof.
  unfold Py.len. induction s as [|c s IH]; [done|].
  change (String c s ++ t)%string with (String c (s ++ t)%string). simpl. lia.
Qed.

(** X7. The full text sent for pre-reading is bounded.  [generate_prereading]
    issues exactly one request; the text it carries is the full text itself
    when that has at most 120000 characters, and otherwise the first 120000
    characters of the full text followed by three dots.  In every case it
    has at most 120003 characters. *)
Theorem prereading_text_is_bounded
    (env : Env) (title abstract full_text field_name : string) (w : World) :
  ∃ sent,
    (generate_prereading env title abstract full_text field_name w).2
    = advance (ChatCompletion (PrereadingRequest field_name title abstract sent)) w
    ∧ Py.len sent ≤ 120003
    ∧ (Py.len full_text ≤ 120000 ∧ sent = full_text
       ∨ 120000 < Py.len full_text
         ∧ ∃ head rest, full_text = (head ++ rest)%string
                        ∧ Py.len head = 120000
                        ∧ sent = (head ++ "...")%string).
Proof.
  destruct (take_split 120000 full_text) as (rest & Hsplit & Hlen).
  set (ellipsis := if 120000 <? Py.len full_text then "..." else "").
  exists (Py.take 120000 full_text ++ ellipsis)%string. subst ellipsis.
  split_and!.
  - unfold generate_prereading, chat_completion. run.
    destruct (chat env (clock w) _) as [[c|]|e]; simpl; [|done..].
    by destruct (Py.truthy c).
  - rewrite len_app, Hlen. destruct (120000 <? Py.len full_text); unfold Py.len; simpl; lia.
  - destruct (120000 <? Py.len full_text) eqn:Hcmp.
    + apply Z.ltb_lt in Hcmp. right. split; [done|].
      exists (Py.take 120000 full_text), rest. split_and!; [done|lia|done].
    + apply Z.ltb_ge in Hcmp. left. split; [done|].
      assert (rest = "") as ->.
      { apply (f_equal Py.len) in Hsplit. rewrite len_app, Hlen in Hsplit.
        destruct rest; [done|]. unfold Py.len in *. simpl in Hsplit. lia. }
      clear Hlen. revert Hsplit. generalize (Py.take 120000 full_text). by intros t ->.
Qed.

Lemma exc_map_length {A B} (f : A → Exc B) (l : list A) (l' : list B) :
  exc_map f l = Ok l' → length l' = length l.
Proof.
  revert l'. induction l as [|x l IH]; intros l'; simpl; [by intros [= <-]|].
  unfold exc_bind. destruct (f x); [|discriminate].
  destruct (exc_map f l) as [ys|]; [|discriminate].
  intros [= <-]. simpl. f_equal. by apply IH.
Qed.

Lemma pydantic_difficulty_known (v : json) (lvl : DifficultyLevel) :
  pydantic_difficulty v = Some lvl →
  ∃ d, v = JStr d ∧ In d ["beginner"; "intermediate"; "advanced"; "expert"].
Proof.
  destruct v as [| | | |d| |]; try discriminate. simpl. intros H. exists d. split; [done|].
  destruct (String.eqb d "beginner") eqn:E1; [apply String.eqb_eq in E1; auto|].
  destruct (String.eqb d "intermediate") eqn:E2; [apply String.eqb_eq in E2; auto|].
  destruct (String.eqb d "advanced") eqn:E3; [apply String.eqb_eq in E3; auto|].
  destruct (String.eqb d "expert") eqn:E4; [apply String.eqb_eq in E4; auto 6|].
  discriminate.
Qed.

(** A result of the conversion comes from a dict with a known difficulty
    level and as many jargon and prerequisite entries as it lists. *)
Lemma prereading_of_json_ok env (parsed : json) (r : PrereadingResult) :
  prereading_of_json env parsed = Ok r →
  ∃ members d js ps,
    parsed = JObj members
    ∧ getitem parsed "difficulty_level" = Ok (JStr d)
    ∧ In d ["beginner"; "intermediate"; "advanced"; "expert"]
    ∧ pydantic_difficulty (JStr d) = Some (difficulty_level r)
    ∧ exc_bind (getitem parsed "jargon") py_iter = Ok js
    ∧ length (jargon r) = length js
    ∧ exc_bind (getitem parsed "prerequisites") py_iter = Ok ps
    ∧ length (prerequisites r) = length ps.
Proof.
  unfold prereading_of_json. destruct parsed as [| | | | | |members]; try discriminate.
  destruct (getitem (JObj members) "jargon") as [jv|] eqn:Hj; [|discriminate].
  unfold exc_bind at 1. destruct (py_iter jv) as [js|] eqn:Hjs; [|discriminate].
  unfold exc_bind at 1.
  destruct (exc_map (JargonEntry_new) js) as [jg|] eqn:Hjg; [|discriminate].
  unfold exc_bind at 1.
  destruct (getitem (JObj members) "prerequisites") as [pv|] eqn:Hp; [|discriminate].
  unfold exc_bind at 1. destruct (py_iter pv) as [ps|] eqn:Hps; [|discriminate].
  unfold exc_bind at 1.
  destruct (exc_map (PrerequisiteEntry_new) ps) as [pr|] eqn:Hpr; [|discriminate].
  unfold exc_bind at 1.
  destruct (getitem (JObj members) "difficulty_level") as [dv|] eqn:Hd; [|discriminate].
  unfold exc_bind at 1.
  destruct (getitem (JObj members) "estimated_read_time_minutes") as [tv|]; [|discriminate].
  unfold exc_bind at 1.
  destruct (getitem (JObj members) "key_concepts") as [kv|]; [|discriminate].
  unfold exc_bind at 1, PrereadingResult_new, validation_error.
  destruct (pydantic_difficulty dv) as [lvl|] eqn:Hlvl; [|discriminate].
  destruct (pydantic_int env tv), (pydantic_str_list kv); try discriminate.
  intros [= <-]. simpl.
  destruct (pydantic_difficulty_known dv lvl Hlvl) as (d & -> & Hin).
  exists members, d, js, ps. unfold exc_bind. rewrite Hjs, Hps.
  apply exc_map_length in Hjg, Hpr. by split_and!.
Qed.

(** X8. Pre-reading materials are validated before they are stored, and a
    rejected answer costs nothing but the materials.  When
    [generate_prereading] returns a result, the provider's answer decoded
    to a dict whose difficulty level is one of the four known names, and
    the result has one jargon entry and one prerequisite entry per item
    listed.  When it raises (the call failed, the answer was empty or
    undecodable, a key was missing, or a value was of the wrong shape, an
    unknown difficulty level among them) step 5.5 stores nothing and
    returns normally. *)
Theorem prereading_is_validated
    (env : Env) (db_paper : Paper) (field : AcademicField) (w : World) :
  let run :=
    generate_prereading env (paper_title db_paper) (paper_abstract db_paper)
      (default "" (full_text db_paper)) (name field) w in
  match run.1 with
  | Ok r =>
      ∃ request c parsed d js ps,
        chat env (clock w) request = Ok (Some c)
        ∧ json_loads env c = Ok parsed
        ∧ getitem parsed "difficulty_level" = Ok (JStr d)
        ∧ In d ["beginner"; "intermediate"; "advanced"; "expert"]
        ∧ pydantic_difficulty (JStr d) = Some (difficulty_level r)
        ∧ exc_bind (getitem parsed "jargon") py_iter = Ok js
        ∧ length (jargon r) = length js
        ∧ exc_bind (getitem parsed "prerequisites") py_iter = Ok ps
        ∧ length (prerequisites r) = length ps
  | Raise _ =>
      generate_and_store_prereading env db_paper field w = (Ok tt, run.2)
      ∧ store run.2 = store w
  end.
Proof.
  cbv zeta. unfold generate_and_store_prereading, try_except, bind.
  unfold generate_prereading, chat_completion. run.
  destruct (chat env (clock w) _) as [[c|]|e] eqn:Hchat; simpl; [|done..].
  destruct (Py.truthy c); simpl; [|done].
  destruct (json_loads env c) as [parsed|e] eqn:Hloads; simpl; [|done].
  destruct (prereading_of_json env parsed) as [r|e] eqn:Hr; simpl; [|done].
  apply prereading_of_json_ok in Hr as (members & d & js & ps & _ & ? & ? & ? & ? & ? & ? & ?).
  eexists _, c, parsed, d, js, ps. by split_and!.
Qed.


(** ** Store operations *)

(** X10. Insert, then look up.  With no assignment for (field, date) and
    the database answering, [get_daily_paper] returns [None]; after
    [create_daily_paper] it returns the row created, which binds the given
    paper to the field for the date. *)
Theorem assignment_round_trip
    (env : Env) (date : string) (field paper : UUID) (w : World) :
  assignment_rows (store w) field date = [] →
  store_up env (clock w) 2 →
  (get_daily_paper env field date w).1 = Ok None
  ∧ ∃ row w1,
      create_daily_paper env date field paper w = (Ok row, w1)
      ∧ row = {| dp_date := date; dp_field_id := field; dp_paper_id := paper |}
      ∧ (get_daily_paper env field date w1).1 = Ok (Some row).
Proof.
  intros Hnone Hup.
  pose proof (store_up_here _ _ _ Hup) as H0. apply store_up_next in Hup.
  pose proof (store_up_here _ _ _ Hup) as H1.
  split.
  - by rewrite get_daily_paper_eq, H0, Hnone.
  - destruct (create_daily_paper env date field paper w) as [[row|e] w1] eqn:Hcreate.
    + pose proof Hcreate as Hrun.
      apply create_daily_paper_inv in Hcreate as [Hrows _].
      exists row, w1. split; [done|].
      revert Hrun. unfold create_daily_paper, bind. rewrite execute_eq, H0. simpl.
      destruct (existsb _ _); simpl; [discriminate|]. intros [= <- <-]. split; [done|].
      rewrite get_daily_paper_eq. simpl. rewrite H1. simpl in Hrows. by rewrite Hrows.
    + exfalso. revert Hcreate. unfold create_daily_paper, bind.
      rewrite execute_eq, H0. simpl.
      assert (existsb (daily_paper_matches field date) (daily_papers (store w)) = false)
        as ->; [|discriminate].
      unfold assignment_rows in Hnone.
      induction (daily_papers (store w)) as [|dp l IH]; [done|]. simpl.
      rewrite filter_cons in Hnone.
      destruct (daily_paper_matches field date dp); simpl in *; [discriminate|auto].
Qed.

(** The theorem on the fresh catalog. *)
Lemma assignment_round_trip_witness :
  let w := Scenario.world_of Scenario.store_fresh in
  (get_daily_paper Scenario.env_two 7 Scenario.today_is w).1 = Ok None
  ∧ ∃ row w1,
      create_daily_paper Scenario.env_two Scenario.today_is 7 1 w = (Ok row, w1)
      ∧ row = Scenario.assignment_A
      ∧ (get_daily_paper Scenario.env_two 7 Scenario.today_is w1).1 = Ok (Some row).
Proof.
  apply (assignment_round_trip Scenario.env_two Scenario.today_is 7 1
           (Scenario.world_of Scenario.store_fresh)).
  - reflexivity.
  - intros k _. reflexivity.
Defined.

Lemma upsert_row_twice {A} (same : A → bool) (row : A) (rows : list A) :
  same row = true →
  find same (upsert_row same row rows) = Some row
  ∧ upsert_row same row (upsert_row same row rows) = upsert_row same row rows.
Proof.
  intros Hrow. unfold upsert_row at 1 3 4. destruct (existsb same rows) eqn:Hex.
  - split.
    + clear -Hex Hrow. induction rows as [|r rows IH]; [discriminate|]. simpl in *.
      destruct (same r) eqn:Hr; simpl; [by rewrite Hrow|].
      rewrite Hr. by apply IH.
    + unfold upsert_row.
      assert (existsb same (map (λ r, if same r then row else r) rows) = true) as ->.
      { apply existsb_exists in Hex as (r & Hr & Hs). apply existsb_exists.
        exists row. split; [|done]. apply in_map_iff. exists r. by rewrite Hs. }
      rewrite map_map. apply map_ext. intros r.
      destruct (same r) eqn:Hr; [by rewrite Hrow|by rewrite Hr].
  - assert (∀ r, In r rows → same r = false) as Hnone.
    { intros r Hr. destruct (same r) eqn:Hs; [|done].
      assert (existsb same rows = true); [|congruence]. apply existsb_exists. eauto. }
    split.
    + clear Hex. induction rows as [|r rows IH]; simpl; [by rewrite Hrow|].
      rewrite (Hnone r) by by left. apply IH. intros r' Hr'. apply Hnone. by right.
    + unfold upsert_row.
      assert (existsb same (rows ++ [row]) = true) as ->.
      { rewrite existsb_app. simpl. by rewrite Hrow, orb_true_r. }
      rewrite map_app. simpl. rewrite Hrow. f_equal.
      rewrite <- (map_id rows) at 2. apply map_ext_in. intros r Hr.
      by rewrite (Hnone r Hr).
Qed.

(** The columns of the row returned by [upsert_paper] that come from
    [paper_data]. *)
Lemma upsert_paper_columns env (pd : PaperData) (w w1 : World) (row : Paper) :
  upsert_paper env pd w = (Ok row, w1) →
  paper_arxiv_id row = pd_arxiv_id pd
  ∧ paper_title row = pd_title pd
  ∧ paper_abstract row = pd_abstract pd
  ∧ authors_json row = pd_authors_json pd
  ∧ paper_categories row = pd_categories pd
  ∧ paper_pdf_url row = pd_pdf_url pd
  ∧ paper_published_at row = pd_published_at pd.
Proof.
  unfold upsert_paper, bind. rewrite execute_eq.
  destruct (store_fault env (clock w)); simpl; [discriminate|].
  destruct (find _ (papers (store w))); by intros [= <- _].
Qed.

(** X11. [upsert_paper] is idempotent and keyed by the arXiv id.  With the
    database answering, the call returns a row carrying the given arXiv id,
    which is in the table afterwards; the table has one more row exactly
    when the arXiv id was new; and repeating the call returns the same row
    and leaves the table unchanged. *)
Theorem upsert_paper_idempotent (env : Env) (pd : PaperData) (w : World) :
  store_up env (clock w) 2 →
  ∃ row w1 w2,
    upsert_paper env pd w = (Ok row, w1)
    ∧ paper_arxiv_id row = pd_arxiv_id pd
    ∧ In row (papers (store w1))
    ∧ length (papers (store w1))
      = (if existsb (λ p, bool_decide (paper_arxiv_id p = pd_arxiv_id pd))
              (papers (store w))
         then length (papers (store w))
         else S (length (papers (store w))))
    ∧ upsert_paper env pd w1 = (Ok row, w2)
    ∧ store w2 = store w1.
Proof.
  intros Hup.
  pose proof (store_up_here _ _ _ Hup) as H0. apply store_up_next in Hup.
  pose proof (store_up_here _ _ _ Hup) as H1.
  destruct (upsert_paper_eq env pd w) as (row & Harx & Hfind & Hrun).
  rewrite H0 in Hrun. cbv zeta in *.
  set (same := λ p, bool_decide (paper_arxiv_id p = pd_arxiv_id pd)) in *.
  assert (same row = true) as Hrow by (unfold same; by rewrite bool_decide_eq_true_2).
  destruct (upsert_row_twice same row (papers (store w)) Hrow) as [Hfirst Htwice].
  match type of Hrun with _ = (_, ?x) => set (w1 := x) in * end.
  destruct (upsert_paper_eq env pd w1) as (row' & Harx' & Hfind' & Hrun').
  cbv zeta in *. fold same in Hfind', Hrun'. simpl in Hfind', Hrun'.
  rewrite H1 in Hrun'. rewrite Hfirst in Hfind'. destruct Hfind' as [Hid' Hft'].
  assert (row' = row) as ->.
  { apply upsert_paper_columns in Hrun as (? & ? & ? & ? & ? & ? & ?).
    apply upsert_paper_columns in Hrun' as (? & ? & ? & ? & ? & ? & ?).
    destruct row, row'. simpl in *. congruence. }
  exists row, w1. eexists. split_and!; [exact Hrun|exact Harx| | |exact Hrun'|].
  - simpl. pose proof (find_existsb same (upsert_row same row (papers (store w)))) as Hf.
    rewrite Hfirst in Hf. destruct Hf as (Hin & _). by apply list_elem_of_In.
  - simpl. unfold upsert_row. destruct (existsb same (papers (store w))).
    + by rewrite length_map.
    + rewrite length_app. simpl. lia.
  - simpl. by rewrite Htwice.
Qed.

(** The theorem on the paper already stored. *)
Lemma upsert_paper_idempotent_witness :
  let w := Scenario.world_of Scenario.store_assigned in
  ∃ row w1 w2,
    upsert_paper Scenario.env_two (paper_data_of Scenario.paper_A) w = (Ok row, w1)
    ∧ paper_arxiv_id row = "2501.00001"
    ∧ In row (papers (store w1))
    ∧ length (papers (store w1)) = 1%nat
    ∧ upsert_paper Scenario.env_two (paper_data_of Scenario.paper_A) w1 = (Ok row, w2)
    ∧ store w2 = store w1.
Proof.
  apply (upsert_paper_idempotent Scenario.env_two (paper_data_of Scenario.paper_A)
           (Scenario.world_of Scenario.store_assigned)).
  intros k _. reflexivity.
Defined.

(** ** An assigned paper is a used paper *)

Lemma find_paper_unique (s : Store) (p : Paper) :
  NoDup (map paper_id (papers s)) → p ∈ papers s → find_paper s (paper_id p) = Some p.
Proof.
  unfold find_paper. intros Hnd Hp.
  pose proof (find_existsb (λ q, bool_decide (paper_id q = paper_id p)) (papers s)) as Hf.
  destruct (find _ (papers s)) as [q|].
  - destruct Hf as (Hq & Hid%bool_decide_eq_true & _). f_equal.
    by apply (NoDup_map_inj paper_id (papers s)).
  - assert (existsb (λ q, bool_decide (paper_id q = paper_id p)) (papers s) = true);
      [|congruence].
    apply existsb_exists. exists p. split; [by apply list_elem_of_In|].
    by apply bool_decide_eq_true_2.
Qed.

Section Used.
Variable env : Env.

Lemma assign_and_generate_grows field date existing db_paper :
  keeps wf_grows (assign_and_generate env field date existing db_paper).
Proof.
  unfold assign_and_generate, prereading_step, summaries_step, quiz_step,
    generate_and_store_prereading, generate_and_store_summaries, generate_and_store_quiz.
  keeps_pipeline
    ltac:(first [ apply create_daily_paper_grows | apply create_paper_summary_grows
                | apply create_paper_quiz_grows | apply create_paper_prereading_grows ]).
Qed.

Lemma upsert_paper_row_stored pd w row w1 :
  upsert_paper env pd w = (Ok row, w1) → row ∈ papers (store w1).
Proof.
  intros Hrun. destruct (upsert_paper_eq env pd w) as (row' & Harx & _ & Heq).
  rewrite Heq in Hrun. destruct (store_fault env (clock w)); [discriminate|].
  injection Hrun as -> <-. simpl.
  set (same := λ p, bool_decide (paper_arxiv_id p = pd_arxiv_id pd)).
  assert (same row = true) as Hrow by (unfold same; by rewrite bool_decide_eq_true_2).
  destruct (upsert_row_twice same row (papers (store w)) Hrow) as [Hfirst _].
  pose proof (find_existsb same (upsert_row same row (papers (store w)))) as Hf.
  rewrite Hfirst in Hf. by destruct Hf.
Qed.

End Used.

(** X12. A paper assigned by a run counts as used from then on.  On a
    store with unique keys and without an assignment for the field and the
    date, a successful run reports the arXiv id of its paper, and that id
    is among the identifiers [get_used_paper_arxiv_ids] finds for the field
    afterwards, so the filter of step 2 will set it aside in later runs. *)
Theorem assigned_paper_becomes_used
    (env : Env) (field : AcademicField) (date : string) (w w' : World)
    (r : FieldIngestResult) :
  store_wf (store w) →
  (get_daily_paper env (field_id field) date w).1 = Ok None →
  ingest_paper_for_field env field date w = (Ok r, w') →
  success r = true →
  ∃ a, res_arxiv_id r = Some a ∧ a ∈ used_arxiv_ids (store w') (field_id field).
Proof.
  intros Hwf Hnone. rewrite ingest_paper_for_field_eq.
  destruct (ingest_body env field date w) as [[r0|e] w0] eqn:Hbody;
    intros [= <- <-] Hsuccess; [|discriminate].
  unfold ingest_body in Hbody.
  apply bind_ok_inv in Hbody as (existing & w1 & Hget & Hbody).
  rewrite Hget in Hnone. injection Hnone as ->.
  apply bind_ok_inv in Hbody as (early & w2 & Hcheck & Hbody).
  unfold check_existing, ret in Hcheck. injection Hcheck as <- <-.
  pose proof (keeps_run same_store _ _ _ _ (get_daily_paper_reads env _ _) Hget) as S1.
  unfold fetch_and_select in Hbody.
  apply bind_ok_inv in Hbody as (arxiv_papers & w3 & Hfetch & Hbody).
  pose proof (keeps_run same_store _ _ _ _ (fetch_papers_reads env _ _) Hfetch) as S3.
  destruct (Py.nonempty arxiv_papers); simpl in Hbody;
    [|unfold ret in Hbody; injection Hbody as <- _; discriminate].
  apply bind_ok_inv in Hbody as (used_ids & w4 & Hused & Hbody).
  pose proof (keeps_run same_store _ _ _ _
                (get_used_paper_arxiv_ids_reads env _) Hused) as S4.
  destruct (select_newest_paper _) as [selected|];
    [|unfold ret in Hbody; injection Hbody as <- _; discriminate].
  unfold store_and_generate in Hbody.
  apply bind_ok_inv in Hbody as (db_paper & w5 & Hupsert & Hbody).
  apply bind_ok_inv in Hbody as (db_paper' & w6 & Hpdf & Hbody).
  unfold same_store in S1, S3, S4.
  assert (store_wf (store w4)) as Hwf4 by (rewrite S4, S3, S1; exact Hwf).
  pose proof (keeps_run _ _ _ _ _ (upsert_paper_wf env _) Hupsert Hwf4) as Hwf5.
  destruct (keeps_run _ _ _ _ _ (pdf_extraction_grows env _) Hpdf Hwf5) as [Hwf6 G6].
  destruct (keeps_run _ _ _ _ _ (assign_and_generate_grows env _ _ _ _) Hbody Hwf6)
    as [Hwf' G'].
  pose proof (assign_and_generate_ok _ _ _ _ _ _ _ _ Hbody) as ->.
  apply assign_and_generate_post in Hbody as (_ & _ & dp & Hdp & Hid).
  apply pdf_extraction_id in Hpdf as [Hid6 Harx6].
  exists (paper_arxiv_id db_paper'). split; [done|].
  (* the row written by step 4 is still there, under its id and arXiv id *)
  apply upsert_paper_row_stored in Hupsert.
  apply list_elem_of_lookup in Hupsert as [i Hi].
  destruct (grows_papers _ _ G6 i db_paper Hi) as (p6 & Hi6 & Hp6id & Hp6arx & _).
  destruct (grows_papers _ _ G' i p6 Hi6) as (p' & Hi' & Hp'id & Hp'arx & _).
  assert (find_paper (store w0) (paper_id db_paper') = Some p') as Hfind.
  { replace (paper_id db_paper') with (paper_id p') by congruence.
    apply find_paper_unique; [apply Hwf'|]. by eapply list_elem_of_lookup_2. }
  (* and the assignment created by step 5 points to it *)
  unfold used_arxiv_ids. apply list_elem_of_omap. exists dp. split.
  - assert (dp ∈ assignment_rows (store w0) (field_id field) date) as Hin
      by (rewrite Hdp; left).
    unfold assignment_rows in Hin. apply list_elem_of_filter in Hin as [Hm Hin].
    apply list_elem_of_filter. split; [|done].
    unfold daily_paper_matches in Hm. apply Is_true_true, andb_true_iff in Hm as [Hf _].
    by apply bool_decide_eq_true in Hf.
  - rewrite Hid, Hfind. simpl. f_equal. congruence.
Qed.

(** The theorem on a first run over the feed of two candidates. *)
Lemma assigned_paper_becomes_used_witness :
  let run :=
    ingest_paper_for_field Scenario.env_two Scenario.ml Scenario.today_is
      (Scenario.world_of Scenario.store_fresh) in
  ∃ a, Some "2501.00003" = Some a ∧ a ∈ used_arxiv_ids (store run.2) 7.
Proof.
  apply (assigned_paper_becomes_used Scenario.env_two Scenario.ml Scenario.today_is
           (Scenario.world_of Scenario.store_fresh)
           (ingest_paper_for_field Scenario.env_two Scenario.ml Scenario.today_is
              (Scenario.world_of Scenario.store_fresh)).2
           (succeeded Scenario.ml 1 (Some "2501.00003"))).
  - constructor; simpl; apply NoDup_nil_2.
  - reflexivity.
  - vm_compute. reflexivity.
  - reflexivity.
Defined.

(** ** The HTTP trigger *)

Lemma count_successes_bounds results :
  0 ≤ count_successes results ≤ Z.of_nat (length results).
Proof.
  unfold count_successes. pose proof (length_filter (λ r, success r = true) results). lia.
Qed.

(** X13.  The cron secret guards the daily endpoint, and fails open.
    When a non-empty secret is configured and the [X-Cron-Secret] header is
    absent or different, [run_daily_ingestion] answers 401 "Unauthorized"
    and nothing has happened: no database call, no feed request, no provider
    request.  In every other case (the header equals the secret, or no
    secret or an empty one is configured, whatever the header) the daily
    run is executed and the answer is never a 401. *)
Theorem cron_secret_gate
    (env : Env) (cron_secret request_date x_cron_secret : option string) (w : World) :
  let out := run_daily_ingestion env cron_secret request_date x_cron_secret w in
  if Py.truthy_opt cron_secret && negb (bool_decide (x_cron_secret = cron_secret))
  then out = (HTTPException 401 (Text "Unauthorized"), w)
  else out.2 = (ingest_daily_papers env request_date w).2
       ∧ ∀ detail, out.1 ≠ HTTPException 401 detail.
Proof.
  unfold run_daily_ingestion, verify_cron_secret.
  destruct (Py.truthy_opt cron_secret); simpl;
    [destruct (bool_decide (x_cron_secret = cron_secret)); simpl|];
    try reflexivity;
    (destruct (ingest_daily_papers env request_date w) as [[results|e] w'];
     simpl; (split; [done|intros detail; discriminate])).
Qed.

(** X14.  What an authorised call of the daily endpoint answers.  The
    answer is 500 with the details [str(e)] exactly when the catalog cannot
    be read, and then no table has changed; otherwise the handler responds,
    with one result per field of the catalog, in catalog order,
    [success_count] the number of results with [success] set,
    [success_count + fail_count] the number of fields, both counts
    non-negative, and the date of the request when one was given. *)
Theorem daily_endpoint_answer
    (env : Env) (cron_secret request_date x_cron_secret : option string) (w : World) :
  verify_cron_secret cron_secret x_cron_secret = Respond true →
  let out := run_daily_ingestion env cron_secret request_date x_cron_secret w in
  match store_fault env (clock w) with
  | Some msg =>
      out.1 = HTTPException 500 (ErrorDetails "Failed to process daily papers" msg)
      ∧ store out.2 = store w
  | None =>
      ∃ r, out.1 = Respond r
        ∧ map field_slug (results r) = map slug (merge_sort name_le (fields (store w)))
        ∧ success_count r = Z.of_nat (length (filter (λ x, success x = true) (results r)))
        ∧ success_count r + fail_count r = Z.of_nat (length (fields (store w)))
        ∧ 0 ≤ success_count r ∧ 0 ≤ fail_count r
        ∧ (∀ d, request_date = Some d → Py.truthy d = true → irs_date r = d)
  end.
Proof.
  intros Hauth. unfold run_daily_ingestion. rewrite Hauth.
  unfold ingest_daily_papers.
  assert (∀ k : string → M (list FieldIngestResult),
            bind (match request_date with
                  | Some d => if Py.truthy d then ret d else get_today_date env
                  | None => get_today_date env
                  end) k w = k (run_date env request_date w) w) as ->.
  { intros k. unfold run_date, bind, get_today_date, ret.
    destruct request_date as [d|]; [destruct (Py.truthy d)|]; done. }
  unfold bind. rewrite get_fields_eq.
  destruct (store_fault env (clock w)) as [msg|]; [done|].
  destruct (ingest_loop_total env (run_date env request_date w)
              (merge_sort name_le (fields (store w))) []
              (advance (StoreRead SelectFields) w)) as (new & w' & -> & Hall).
  simpl. eexists. split; [done|]. simpl.
  pose proof (count_successes_bounds new) as Hb.
  assert (length new = length (fields (store w))) as Hlen.
  { rewrite <- (Forall2_length _ _ _ Hall). apply Permutation_length, merge_sort_Permutation. }
  split_and!.
  - clear Hlen Hb. induction Hall as [|f r fs rs [Hs _] _ IH]; simpl; [done|].
    by rewrite Hs, IH.
  - done.
  - rewrite <- Hlen. lia.
  - lia.
  - lia.
  - intros d -> Hd. simpl. by rewrite Hd.
Qed.

Lemma daily_endpoint_answer_witness :
  let out := run_daily_ingestion Scenario.env_two (Some "s3cret") None (Some "s3cret")
               (Scenario.world_of Scenario.store_fresh) in
  ∃ r, out.1 = Respond r
    ∧ map field_slug (results r)
      = map slug (merge_sort name_le (fields Scenario.store_fresh))
    ∧ success_count r = Z.of_nat (length (filter (λ x, success x = true) (results r)))
    ∧ success_count r + fail_count r = Z.of_nat (length (fields Scenario.store_fresh))
    ∧ 0 ≤ success_count r ∧ 0 ≤ fail_count r
    ∧ (∀ d, None = Some d → Py.truthy d = true → irs_date r = d).
Proof.
  apply (daily_endpoint_answer Scenario.env_two (Some "s3cret") None (Some "s3cret")
           (Scenario.world_of Scenario.store_fresh)).
  reflexivity.
Defined.

(** ** Text out of a PDF *)

Section UnicodeText.

Import Unicode.

Local Abbreviation blank := (λ c : N, is_space c = true).
Local Abbreviation solid := (λ c : N, is_space c = false).

Lemma lstrip_split s :
  ∃ pre, s = pre ++ lstrip s ∧ Forall blank pre
         ∧ ∀ c, head (lstrip s) = Some c → is_space c = false.
Proof.
  induction s as [|c s (pre & Hs & Hpre & Hhd)]; simpl.
  - exists []. by split_and!.
  - destruct (is_space c) eqn:Hc.
    + exists (c :: pre). split_and!; [by rewrite Hs at 1|by constructor|done].
    + exists []. split_and!; [done|constructor|]. simpl. by intros ? [= <-].
Qed.

Lemma lstrip_blank s : Forall blank s → lstrip s = [].
Proof. induction 1 as [|c s Hc _ IH]; simpl; [done|by rewrite Hc]. Qed.

Lemma lstrip_nil_blank s : lstrip s = [] → Forall blank s.
Proof.
  induction s as [|c s IH]; simpl; [constructor|].
  destruct (is_space c) eqn:Hc; [|done]. intros H. constructor; auto.
Qed.

Lemma lstrip_solid c s : is_space c = false → lstrip (c :: s) = c :: s.
Proof. intros Hc. simpl. by rewrite Hc. Qed.

Lemma lstrip_app s t : lstrip s ≠ [] → lstrip (s ++ t) = lstrip s ++ t.
Proof.
  induction s as [|c s IH]; simpl; [done|].
  destruct (is_space c); [exact IH|done].
Qed.

Lemma lstrip_blank_app s t : Forall blank s → lstrip (s ++ t) = lstrip t.
Proof. induction 1 as [|c s Hc _ IH]; simpl; [done|by rewrite Hc]. Qed.

Lemma rstrip_split s :
  ∃ post, s = rstrip s ++ post ∧ Forall blank post
          ∧ ∀ c, last (rstrip s) = Some c → is_space c = false.
Proof.
  unfold rstrip. destruct (lstrip_split (reverse s)) as (pre & Hs & Hpre & Hhd).
  exists (reverse pre). split_and!.
  - rewrite <- reverse_app, <- Hs. by rewrite reverse_involutive.
  - by apply Forall_reverse.
  - intros c. rewrite <- head_reverse, reverse_involutive. apply Hhd.
Qed.

Lemma rstrip_blank_app s t : Forall blank t → rstrip (s ++ t) = rstrip s.
Proof.
  intros Ht. unfold rstrip. rewrite reverse_app.
  by rewrite lstrip_blank_app by by apply Forall_reverse.
Qed.

Lemma rstrip_id s : (∀ c, last s = Some c → is_space c = false) → rstrip s = s.
Proof.
  intros Hlast. unfold rstrip.
  destruct (reverse s) as [|c r] eqn:Hr.
  - simpl. by rewrite <- (reverse_involutive s), Hr.
  - rewrite lstrip_solid; [by rewrite <- Hr, reverse_involutive|].
    apply Hlast. by rewrite <- head_reverse, Hr.
Qed.

Lemma strip_split s :
  ∃ pre post, s = pre ++ strip s ++ post ∧ Forall blank pre ∧ Forall blank post
              ∧ (∀ c, head (strip s) = Some c → is_space c = false)
              ∧ (∀ c, last (strip s) = Some c → is_space c = false).
Proof.
  unfold strip.
  destruct (lstrip_split s) as (pre & Hs & Hpre & Hhd).
  destruct (rstrip_split (lstrip s)) as (post & Hl & Hpost & Hlast).
  exists pre, post. split_and!; [by rewrite <- Hl|done|done| |done].
  intros c Hc. apply Hhd. rewrite Hl.
  destruct (rstrip (lstrip s)); [done|exact Hc].
Qed.

Lemma strip_id s :
  (∀ c, head s = Some c → is_space c = false) →
  (∀ c, last s = Some c → is_space c = false) →
  strip s = s.
Proof.
  intros Hhd Hlast. unfold strip.
  assert (lstrip s = s) as ->; [|by apply rstrip_id].
  destruct s as [|c s]; [done|]. apply lstrip_solid. by apply Hhd.
Qed.

Lemma strip_blank s : Forall blank s → strip s = [].
Proof. intros H. unfold strip. by rewrite lstrip_blank. Qed.

Lemma strip_nil_blank s : strip s = [] → Forall blank s.
Proof.
  intros H. destruct (strip_split s) as (pre & post & Hs & Hpre & Hpost & _).
  rewrite H in Hs. rewrite Hs. simpl. by apply Forall_app.
Qed.

Lemma strip_newlines s : strip (s ++ [10; 10]%N) = strip s.
Proof.
  unfold strip. destruct (lstrip s) as [|c r] eqn:Hl.
  - rewrite lstrip_blank; [done|].
    apply Forall_app. split; [by apply lstrip_nil_blank|by repeat constructor].
  - rewrite lstrip_app by by rewrite Hl. rewrite Hl.
    apply rstrip_blank_app. by repeat constructor.
Qed.

Lemma remove_app c s t : remove c (s ++ t) = remove c s ++ remove c t.
Proof. apply filter_app. Qed.

Lemma remove_gone c s : c ∉ remove c s.
Proof. unfold remove. rewrite list_elem_of_filter. by intros [? _]. Qed.

Lemma remove_sub c x s : x ∈ remove c s → x ∈ s.
Proof. unfold remove. rewrite list_elem_of_filter. by intros [_ ?]. Qed.

(** The words [split] returns *)

Lemma split_go_words s : ∀ cur,
  Forall solid cur →
  Forall (λ word, word ≠ [] ∧ Forall solid word) (split_go cur s).
Proof.
  induction s as [|c s IH]; intros cur Hcur; simpl.
  - destruct cur; [constructor|]. constructor; [by split|constructor].
  - destruct (is_space c) eqn:Hc.
    + destruct cur; [by apply IH|]. constructor; [by split|]. by apply IH.
    + apply IH. apply Forall_app. split; [done|]. constructor; [done|constructor].
Qed.

Lemma split_go_blank s : Forall blank s → split_go [] s = [].
Proof. induction 1 as [|c s Hc _ IH]; simpl; [done|by rewrite Hc]. Qed.

Lemma split_go_lead pre s : Forall blank pre → split_go [] (pre ++ s) = split_go [] s.
Proof. induction 1 as [|c p Hc _ IH]; simpl; [done|by rewrite Hc]. Qed.

Lemma split_go_trail post : Forall blank post → ∀ s cur,
  split_go cur (s ++ post) = split_go cur s.
Proof.
  intros Hpost. induction s as [|c s IH]; intros cur; simpl.
  - destruct Hpost as [|c post Hc Hpost]; simpl; [done|].
    rewrite Hc, split_go_blank by done. by destruct cur.
  - destruct (is_space c); [destruct cur|]; by rewrite IH.
Qed.

Lemma split_strip s : split (strip s) = split s.
Proof.
  destruct (strip_split s) as (pre & post & Hs & Hpre & Hpost & _).
  unfold split. rewrite Hs at 2.
  by rewrite split_go_lead, split_go_trail.
Qed.

Lemma split_go_length s : ∀ cur,
  (length (split_go cur s) ≤ (if truthy cur then 1 else 0) + length s)%nat.
Proof.
  induction s as [|c s IH]; intros cur; simpl.
  - destruct cur; simpl; lia.
  - destruct (is_space c).
    + destruct cur; simpl; specialize (IH []); simpl in IH; lia.
    + specialize (IH (cur ++ [c])). destruct cur; simpl in *; lia.
Qed.

Lemma split_go_solid c s cur : is_space c = false → split_go cur (c :: s) ≠ [].
Proof.
  intros Hc. simpl. rewrite Hc.
  assert (∀ s cur, cur ≠ [] → split_go cur s ≠ []) as Hgo.
  { clear. induction s as [|c s IH]; intros cur Hcur; simpl.
    - by destruct cur.
    - destruct (is_space c); [by destruct cur|].
      apply IH. by destruct cur. }
  apply Hgo. by destruct cur.
Qed.

Lemma split_nil s : split s = [] ↔ Forall blank s.
Proof.
  unfold split. split; [|apply split_go_blank].
  induction s as [|c s IH]; [constructor|].
  destruct (is_space c) eqn:Hc.
  - simpl. rewrite Hc. intros H. constructor; auto.
  - intros H. by apply split_go_solid in H.
Qed.

Lemma words_kept l :
  Forall (λ word, word ≠ [] ∧ Forall solid word) l →
  filter (λ word, truthy (strip word) = true) l = l.
Proof.
  induction 1 as [|word l [Hne Hword] _ IH]; [done|].
  rewrite filter_cons, strip_id.
  - destruct word; [done|]. simpl. f_equal. exact IH.
  - intros c Hc. destruct word as [|x word]; [done|].
    simpl in Hc. injection Hc as <-. by inversion Hword.
  - intros c Hc. apply last_Some in Hc as [l' ->].
    apply Forall_app in Hword as [_ Hc]. by inversion Hc.
Qed.

(** One space for every run of white space *)

Lemma sub_spaces_runs s : ∀ b,
  let l := sub_spaces b s in
  (b = true → ∀ c, head l = Some c → is_space c = false)
  ∧ (∀ c, c ∈ l → is_space c = true → c = 32%N)
  ∧ (∀ i x y, l !! i = Some x → l !! S i = Some y → is_space x = true →
              is_space y = false).
Proof.
  induction s as [|c s IH]; intros b; simpl.
  - split_and!; [done|by intros c ?%elem_of_nil|done].
  - destruct (is_space c) eqn:Hc; [destruct b|].
    + apply IH.
    + destruct (IH true) as (Hhd & Hsp & Hadj). split_and!; [done| |].
      * intros x [->|Hx]%elem_of_cons; auto.
      * intros [|i] x y Hx Hy Hsx; simpl in *; [|exact (Hadj i x y Hx Hy Hsx)].
        apply Hhd; [done|]. by rewrite <- head_lookup in Hy.
    + destruct (IH false) as (_ & Hsp & Hadj). split_and!.
      * simpl. by intros _ ? [= <-].
      * intros x [->|Hx]%elem_of_cons; [congruence|auto].
      * intros [|i] x y Hx Hy Hsx; simpl in *; [congruence|exact (Hadj i x y Hx Hy Hsx)].
Qed.

Lemma sub_spaces_id l : ∀ b,
  (b = true → ∀ c, head l = Some c → is_space c = false) →
  (∀ c, c ∈ l → is_space c = true → c = 32%N) →
  (∀ i x y, l !! i = Some x → l !! S i = Some y → is_space x = true →
            is_space y = false) →
  sub_spaces b l = l.
Proof.
  induction l as [|c l IH]; intros b Hhd Hsp Hadj; simpl; [done|].
  assert (∀ x, x ∈ l → is_space x = true → x = 32%N) as Hsp'.
  { intros x Hx. apply Hsp. by right. }
  assert (∀ i x y, l !! i = Some x → l !! S i = Some y → is_space x = true →
                   is_space y = false) as Hadj'.
  { intros i x y. apply (Hadj (S i)). }
  destruct (is_space c) eqn:Hc.
  - destruct b; [by rewrite Hhd in Hc|].
    rewrite (Hsp c) by (done || by left). f_equal.
    apply IH; [|done|done]. intros _ y Hy.
    apply (Hadj 0%nat c y); [done| |done]. simpl. by rewrite <- head_lookup.
  - f_equal. apply IH; done.
Qed.

Lemma split_go_sub_spaces s : ∀ cur b,
  (b = true → cur = []) →
  split_go cur (sub_spaces b s) = split_go cur s.
Proof.
  induction s as [|c s IH]; intros cur b Hb; simpl; [done|].
  destruct (is_space c) eqn:Hc.
  - destruct b.
    + rewrite Hb by done. by apply IH.
    + simpl. destruct cur; by rewrite IH.
  - simpl. rewrite Hc. by apply IH.
Qed.

End UnicodeText.

Lemma pages_text_end pages :
  pages ≠ [] →
  ∃ body, concat (map (λ page, page ++ [10; 10]%N) pages) = body ++ [10; 10]%N.
Proof.
  destruct pages as [|page pages _] using rev_ind; [done|]. intros _.
  rewrite map_app, concat_app. simpl. rewrite app_nil_r, app_assoc. by eexists.
Qed.

(** X15.  The text [extract_text_from_pdf] returns is the text of the
    pages, each followed by two newlines, without the characters U+0000 and
    U+FFFD and without the white space around it: it contains neither
    character, it is the sanitised text between a white prefix and a white
    suffix, it neither starts nor ends with white space, so stripping it
    again (as the pipeline does before measuring it) changes nothing. *)
Theorem pdf_text_sanitised (pages : list Unicode.ustr) :
  let text := (extract_text_from_pdf pages).1 in
  let raw := concat (map (λ page, page ++ [10; 10]%N) pages) in
  ((0%N ∉ text) ∧ (65533%N ∉ text) ∧ ∀ c, c ∈ text → c ∈ raw)
  ∧ (∃ pre post,
       Unicode.remove 65533 (Unicode.remove 0 raw) = pre ++ text ++ post
       ∧ Forall (λ c, Unicode.is_space c = true) pre
       ∧ Forall (λ c, Unicode.is_space c = true) post)
  ∧ (∀ c, head text = Some c ∨ last text = Some c → Unicode.is_space c = false)
  ∧ Unicode.strip text = text.
Proof.
  unfold extract_text_from_pdf. simpl.
  set (raw := concat _). set (clean := Unicode.remove 65533 (Unicode.remove 0 raw)).
  destruct (strip_split clean) as (pre & post & Hs & Hpre & Hpost & Hhd & Hlast).
  assert (∀ c, c ∈ Unicode.strip clean → c ∈ clean) as Hsub.
  { intros c Hc. rewrite Hs. set_solver. }
  split_and!.
  - intros H%Hsub. apply remove_sub in H. by apply remove_gone in H.
  - intros H%Hsub. by apply remove_gone in H.
  - intros c H%Hsub. by do 2 apply remove_sub in H.
  - by exists pre, post.
  - intros c [H|H]; auto.
  - by apply strip_id.
Qed.

(** X16.  The metadata of [extract_text_from_pdf].  [page_count] is the
    number of pages; [word_count] is the number of words of the returned
    text (the test [if word.strip()] of the comprehension removes nothing),
    it is zero exactly when the returned text is empty, and it is at most
    [character_count]; [character_count] is taken before the final strip:
    it is at least the length of the returned text, and at least two more
    as soon as the document has a page. *)
Theorem pdf_metadata_counts (pages : list Unicode.ustr) :
  let text := (extract_text_from_pdf pages).1 in
  let meta := (extract_text_from_pdf pages).2 in
  page_count meta = Z.of_nat (length pages)
  ∧ word_count meta = Z.of_nat (length (Unicode.split text))
  ∧ (word_count meta = 0 ↔ text = [])
  ∧ word_count meta ≤ character_count meta
  ∧ Z.of_nat (length text) ≤ character_count meta
  ∧ (pages ≠ [] → Z.of_nat (length text) + 2 ≤ character_count meta).
Proof.
  unfold extract_text_from_pdf. simpl.
  set (raw := concat _). set (clean := Unicode.remove 65533 (Unicode.remove 0 raw)).
  rewrite words_kept by apply (split_go_words clean []), Forall_nil_2.
  destruct (strip_split clean) as (pre & post & Hs & _).
  assert (length (Unicode.strip clean) ≤ length clean)%nat as Hlen.
  { rewrite Hs at 2. rewrite !length_app. lia. }
  split_and!.
  - done.
  - by rewrite split_strip.
  - split.
    + intros H. apply strip_blank, split_nil.
      destruct (Unicode.split clean); [done|simpl in H; lia].
    + intros H%strip_nil_blank%split_nil. by rewrite H.
  - pose proof (split_go_length clean []) as H. simpl in H. unfold Unicode.split. lia.
  - lia.
  - intros [body Hraw]%pages_text_end. fold raw in Hraw.
    unfold clean. rewrite Hraw, !remove_app.
    change (Unicode.remove 65533 (Unicode.remove 0 [10; 10]%N)) with [10; 10]%N.
    rewrite strip_newlines.
    set (b := Unicode.remove 65533 (Unicode.remove 0 body)).
    destruct (strip_split b) as (pre' & post' & Hb & _).
    rewrite Hb at 2. rewrite !length_app. simpl. lia.
Qed.

(** ** Reading a feed entry *)

(** X17.  The title and the abstract of a feed entry are stored with
    single spaces.  For every captured text, the normalised text has the
    words of the captured one ([str.split]), its only white space
    character is the space, no two white space characters are adjacent, it
    neither starts nor ends with white space, and normalising it again
    changes nothing. *)
Theorem normalize_space_spec (text : Unicode.ustr) :
  let t := normalize_space text in
  Unicode.split t = Unicode.split text
  ∧ (∀ c, c ∈ t → Unicode.is_space c = true → c = 32%N)
  ∧ (∀ i x y, t !! i = Some x → t !! S i = Some y →
              Unicode.is_space x = true → Unicode.is_space y = false)
  ∧ (∀ c, head t = Some c ∨ last t = Some c → Unicode.is_space c = false)
  ∧ normalize_space t = t.
Proof.
  unfold normalize_space. simpl.
  set (l := Unicode.sub_spaces false text).
  destruct (sub_spaces_runs text false) as (_ & Hsp & Hadj). fold l in Hsp, Hadj.
  destruct (strip_split l) as (pre & post & Hl & Hpre & Hpost & Hhd & Hlast).
  set (t := Unicode.strip l) in *.
  assert (∀ i x, t !! i = Some x → l !! (length pre + i)%nat = Some x) as Hat.
  { intros i x Hx. rewrite Hl. change Unicode.ustr with (list N) in *.
    rewrite lookup_app_r by lia.
    replace (length pre + i - length pre)%nat with i by lia.
    by apply lookup_app_l_Some. }
  assert (∀ c, c ∈ t → Unicode.is_space c = true → c = 32%N) as Hsp'.
  { intros c Hc. apply Hsp. rewrite Hl. set_solver. }
  assert (∀ i x y, t !! i = Some x → t !! S i = Some y →
                   Unicode.is_space x = true → Unicode.is_space y = false) as Hadj'.
  { intros i x y Hx%Hat Hy%Hat. apply (Hadj _ _ _ Hx).
    by replace (S (length pre + i)) with (length pre + S i)%nat by lia. }
  split_and!.
  - unfold t. rewrite split_strip. unfold l, Unicode.split.
    by apply split_go_sub_spaces.
  - done.
  - done.
  - intros c [H|H]; auto.
  - rewrite sub_spaces_id by done. by apply strip_id.
Qed.

Section ArxivId.

Local Abbreviation chars := list_ascii_of_string.

Lemma append_cons c (s t : string) : (String c s ++ t)%string = String c (s ++ t)%string.
Proof. reflexivity. Qed.

Lemma append_nil (t : string) : (EmptyString ++ t)%string = t.
Proof. reflexivity. Qed.

Lemma chars_append (s t : string) : chars (s ++ t)%string = chars s ++ chars t.
Proof.
  induction s as [|c s IH]; [done|]. rewrite append_cons. simpl. by rewrite IH.
Qed.

Lemma prefix_cons a s1 c s2 :
  String.prefix (String a s1) (String c s2)
  = if ascii_dec a c then String.prefix s1 s2 else false.
Proof. reflexivity. Qed.

Lemma prefix_nil s : String.prefix EmptyString s = true.
Proof. by destruct s. Qed.

Lemma after_last_abs_cons c s :
  after_last_abs (String c s)
  = match (if Ascii.eqb c newline then None else after_last_abs s) with
    | Some rest => Some rest
    | None =>
        if ascii_dec "/" c
        then if String.prefix "abs/" s then Some (drop_chars 4 s) else None
        else None
    end.
Proof.
  change (after_last_abs (String c s))
    with (match (if Ascii.eqb c newline then None else after_last_abs s) with
          | Some rest => Some rest
          | None => if String.prefix "/abs/" (String c s)
                    then Some (drop_chars 5 (String c s)) else None
          end).
  rewrite prefix_cons. by destruct (ascii_dec "/" c).
Qed.

Lemma after_last_abs_none s : "/"%char ∉ chars s → after_last_abs s = None.
Proof.
  induction s as [|c s IH]; [done|].
  change (chars (String c s)) with (c :: chars s).
  intros [Hc Hs]%not_elem_of_cons.
  rewrite after_last_abs_cons, (IH Hs).
  destruct (ascii_dec "/" c); [done|]. by destruct (Ascii.eqb c newline).
Qed.

Lemma prefix_abs s : "/"%char ∉ chars s → String.prefix "abs/" s = false.
Proof.
  intros Hs.
  destruct s as [|c1 s]; [done|]. rewrite prefix_cons. destruct (ascii_dec _ _); [|done].
  destruct s as [|c2 s]; [done|]. rewrite prefix_cons. destruct (ascii_dec _ _); [|done].
  destruct s as [|c3 s]; [done|]. rewrite prefix_cons. destruct (ascii_dec _ _); [|done].
  destruct s as [|c4 s]; [done|]. rewrite prefix_cons. destruct (ascii_dec _ _); [|done].
  subst. contradict Hs.
  change (chars (String "a" (String "b" (String "s" (String "/" s)))))
    with ("a"%char :: "b"%char :: "s"%char :: "/"%char :: chars s).
  set_solver.
Qed.

Lemma after_last_abs_here s :
  "/"%char ∉ chars s → after_last_abs ("/abs/" ++ s)%string = Some s.
Proof.
  intros Hs. rewrite !append_cons, append_nil, !after_last_abs_cons.
  rewrite (after_last_abs_none s Hs), (prefix_abs s Hs), !prefix_cons, prefix_nil.
  reflexivity.
Qed.

Lemma after_last_abs_found prefix s :
  newline ∉ chars prefix → "/"%char ∉ chars s →
  after_last_abs (prefix ++ "/abs/" ++ s)%string = Some s.
Proof.
  intros Hp Hs. induction prefix as [|c prefix IH].
  - rewrite append_nil. by apply after_last_abs_here.
  - simpl chars in Hp. apply not_elem_of_cons in Hp as [Hc Hp].
    rewrite append_cons, after_last_abs_cons, (IH Hp).
    destruct (Ascii.eqb_spec c newline); [by subst|done].
Qed.

Lemma digits_to_end_digits ds :
  Forall (λ c, is_digit c = true) (chars ds) → digits_to_end ds = Some EmptyString.
Proof.
  induction ds as [|d ds IH]; [done|]. simpl. intros [Hd Hds]%Forall_cons.
  rewrite Hd. by apply IH.
Qed.

Lemma digits_to_end_version x y : digits_to_end (x ++ "v" ++ y)%string = None.
Proof.
  induction x as [|c x IH]; [done|].
  rewrite append_cons. simpl. destruct (is_digit c); [exact IH|].
  destruct (Ascii.eqb c newline); [|done].
  by destruct x.
Qed.

Lemma version_digits_version x y : version_digits (x ++ "v" ++ y)%string = None.
Proof.
  destruct x as [|c x]; [done|].
  rewrite append_cons. simpl. destruct (is_digit c); [|done].
  apply digits_to_end_version.
Qed.

Lemma strip_version_revision base ds :
  ds ≠ EmptyString → Forall (λ c, is_digit c = true) (chars ds) →
  strip_version (base ++ "v" ++ ds)%string = base.
Proof.
  intros Hne Hds. induction base as [|c base IH].
  - rewrite append_nil, append_cons, append_nil. simpl.
    destruct ds as [|d ds]; [done|]. simpl in *.
    apply Forall_cons in Hds as [-> Hds]. by rewrite digits_to_end_digits.
  - rewrite append_cons. simpl. rewrite version_digits_version, IH.
    by destruct (Ascii.eqb c "v").
Qed.

Lemma strip_version_plain base : "v"%char ∉ chars base → strip_version base = base.
Proof.
  induction base as [|c base IH]; [done|]. simpl chars.
  intros [Hc Hb]%not_elem_of_cons. simpl. rewrite (IH Hb).
  destruct (Ascii.eqb_spec c "v"); [by subst|done].
Qed.

End ArxivId.

(** X18.  All revisions of a paper get one identifier.  For an [<id>]
    element holding [prefix/abs/base] followed by [v] and a revision
    number, where the prefix is on one line, [base] has no slash and the
    revision number is a non-empty run of digits, the identifier is
    [base], whatever the revision; the link without revision gives the same
    identifier when [base] has no [v]. *)
Theorem arxiv_id_of_revision (prefix base digits : string) :
  newline ∉ list_ascii_of_string prefix →
  "/"%char ∉ list_ascii_of_string base →
  digits ≠ EmptyString →
  Forall (λ c, is_digit c = true) (list_ascii_of_string digits) →
  arxiv_id_of (prefix ++ "/abs/" ++ base ++ "v" ++ digits)%string = base
  ∧ ("v"%char ∉ list_ascii_of_string base →
     arxiv_id_of (prefix ++ "/abs/" ++ base)%string = base).
Proof.
  intros Hp Hb Hne Hds. unfold arxiv_id_of, strip_abs_prefix. split.
  - rewrite after_last_abs_found; [by apply strip_version_revision|done|].
    rewrite !chars_append. rewrite !elem_of_app. intros [H|[H|H]]; [done| |].
    + by apply list_elem_of_singleton in H.
    + rewrite Forall_forall in Hds. apply Hds in H. vm_compute in H. discriminate.
  - intros Hv. rewrite after_last_abs_found by done. by apply strip_version_plain.
Qed.

Lemma arxiv_id_of_revision_witness :
  arxiv_id_of ("http://arxiv.org" ++ "/abs/" ++ "2401.12345" ++ "v" ++ "12")%string
  = "2401.12345"
  ∧ ("v"%char ∉ list_ascii_of_string "2401.12345" →
     arxiv_id_of ("http://arxiv.org" ++ "/abs/" ++ "2401.12345")%string = "2401.12345").
Proof.
  apply (arxiv_id_of_revision "http://arxiv.org" "2401.12345" "12").
  - compute_done.
  - compute_done.
  - discriminate.
  - repeat constructor.
Defined.

(** ** Running a field twice *)

Lemma complete_assignment_returns
    (env : Env) (field : AcademicField) (date : string) (w : World) (dp : DailyPaper) :
  store_up env (clock w) 4 →
  assignment_rows (store w) (field_id field) date = [dp] →
  3 ≤ count_summaries (store w) (dp_paper_id dp) (field_id field) →
  0 < count_quizzes (store w) (dp_paper_id dp) (field_id field) →
  0 < count_prereading (store w) (dp_paper_id dp) (field_id field) →
  ingest_paper_for_field env field date w
  = (Ok (succeeded field (dp_paper_id dp) None),
     {| store := store w;
        clock := 4 + clock w;
        trace := trace w
                 ++ [StoreRead (SelectDailyPaper (field_id field) date);
                     StoreRead (CountSummaries (dp_paper_id dp) (field_id field));
                     StoreRead (CountQuizzes (dp_paper_id dp) (field_id field));
                     StoreRead (CountPrereading (dp_paper_id dp) (field_id field))] |}).
Proof.
  intros Hup Hrow Hsum Hquiz Hpre.
  pose proof (store_up_here _ _ _ Hup) as H0. apply store_up_next in Hup.
  pose proof (store_up_here _ _ _ Hup) as H1. apply store_up_next in Hup.
  pose proof (store_up_here _ _ _ Hup) as H2. apply store_up_next in Hup.
  pose proof (store_up_here _ _ _ Hup) as H3.
  unfold ingest_paper_for_field, ingest_body, try_except, bind.
  rewrite get_daily_paper_eq, H0, Hrow.
  unfold check_existing, bind.
  rewrite summaries_exist_eq. simpl. rewrite H1.
  rewrite quiz_exists_eq. simpl. rewrite H2.
  rewrite prereading_exists_eq. simpl. rewrite H3.
  apply Z.leb_le in Hsum. apply Z.ltb_lt in Hquiz, Hpre.
  rewrite Hsum, Hquiz, Hpre. simpl. unfold ret, advance. simpl.
  by rewrite <- !app_assoc.
Qed.

(** X19.  Running a field again after a complete success is a no-op.
    When a run that found no assignment for the field and the date returned
    success for a paper, and pre-reading materials exist for that paper and
    the field afterwards, then a later run for the same field and date, on
    the store as the first run left it and with the database answering,
    returns success for the same paper (without the arXiv id), leaves the
    store as it is and issues only the four reads of the idempotency check:
    no feed request, no PDF download, no provider request, no write. *)
Theorem rerun_changes_nothing
    (env : Env) (field : AcademicField) (date : string) (w w1 w2 : World)
    (r : FieldIngestResult) (paper : UUID) :
  (get_daily_paper env (field_id field) date w).1 = Ok None →
  ingest_paper_for_field env field date w = (Ok r, w1) →
  success r = true →
  res_paper_id r = Some paper →
  0 < count_prereading (store w1) paper (field_id field) →
  store w2 = store w1 →
  store_up env (clock w2) 4 →
  ingest_paper_for_field env field date w2
  = (Ok (succeeded field paper None),
     {| store := store w2;
        clock := 4 + clock w2;
        trace := trace w2
                 ++ [StoreRead (SelectDailyPaper (field_id field) date);
                     StoreRead (CountSummaries paper (field_id field));
                     StoreRead (CountQuizzes paper (field_id field));
                     StoreRead (CountPrereading paper (field_id field))] |}).
Proof.
  intros Hnone. rewrite ingest_paper_for_field_eq.
  destruct (ingest_body env field date w) as [[r0|e] w0] eqn:Hbody;
    intros [= <- <-] Hsuccess Hpaper Hpre Hstore Hup; [|discriminate].
  unfold ingest_body in Hbody.
  apply bind_ok_inv in Hbody as (existing & w3 & Hget & Hbody).
  rewrite Hget in Hnone. injection Hnone as ->.
  apply bind_ok_inv in Hbody as (early & w4 & Hcheck & Hbody).
  unfold check_existing, ret in Hcheck. injection Hcheck as <- <-.
  unfold fetch_and_select in Hbody.
  apply bind_ok_inv in Hbody as (arxiv_papers & w5 & Hfetch & Hbody).
  destruct (Py.nonempty arxiv_papers); simpl in Hbody;
    [|unfold ret in Hbody; injection Hbody as <- _; discriminate].
  apply bind_ok_inv in Hbody as (used_ids & w6 & Hused & Hbody).
  destruct (select_newest_paper _) as [selected|];
    [|unfold ret in Hbody; injection Hbody as <- _; discriminate].
  unfold store_and_generate in Hbody.
  apply bind_ok_inv in Hbody as (db_paper & w7 & Hupsert & Hbody).
  apply bind_ok_inv in Hbody as (db_paper' & w8 & Hpdf & Hbody).
  pose proof (assign_and_generate_ok _ _ _ _ _ _ _ _ Hbody) as ->.
  simpl in Hpaper. injection Hpaper as <-.
  apply assign_and_generate_post in Hbody as (Hsum & Hquiz & dp & Hdp & Hid).
  rewrite <- Hid in *. rewrite <- Hstore in *.
  by apply complete_assignment_returns.
Qed.

Lemma rerun_changes_nothing_witness :
  let s :=
    {| fields := [Scenario.ml]; papers := [Scenario.row_A]; daily_papers := [];
       paper_summaries := []; paper_quizzes := [];
       paper_prereading := [ {| pre_paper_id := 1; pre_field_id := 7;
                                pre_content := Scenario.a_prereading |} ] |} in
  let w1 :=
    (ingest_paper_for_field Scenario.env_one Scenario.ml Scenario.today_is
       (Scenario.world_of s)).2 in
  ingest_paper_for_field Scenario.env_one Scenario.ml Scenario.today_is w1
  = (Ok (succeeded Scenario.ml 1 None),
     {| store := store w1;
        clock := 4 + clock w1;
        trace := trace w1
                 ++ [StoreRead (SelectDailyPaper 7 Scenario.today_is);
                     StoreRead (CountSummaries 1 7);
                     StoreRead (CountQuizzes 1 7);
                     StoreRead (CountPrereading 1 7)] |}).
Proof.
  intros s w1.
  apply (rerun_changes_nothing Scenario.env_one Scenario.ml Scenario.today_is
           (Scenario.world_of s) w1 w1
           (succeeded Scenario.ml 1 (Some "2501.00001")) 1%nat).
  - reflexivity.
  - vm_compute. reflexivity.
  - reflexivity.
  - reflexivity.
  - vm_compute. reflexivity.
  - reflexivity.
  - intros k _. reflexivity.
Defined.

(** ** The calls of a run *)

Lemma calls_app k evs1 evs2 : calls k (evs1 ++ evs2) = (calls k evs1 + calls k evs2)%nat.
Proof. induction evs1 as [|ev evs1 IH]; simpl; [done|]. rewrite IH. lia. Qed.

Section Issues.
Context (k : CallKind).

Lemma issues_silent {A} (m : M A) : (∀ w, trace (m w).2 = trace w) → issues k 0 m.
Proof. intros H w. exists []. by rewrite H, app_nil_r. Qed.

Lemma issues_ret {A} (a : A) : issues k 0 (ret a).
Proof. by apply issues_silent. Qed.

Lemma issues_raise {A} (e : exn) : issues k 0 (@raise A e).
Proof. by apply issues_silent. Qed.

Lemma issues_lift {A} (x : Exc A) : issues k 0 (lift x).
Proof. by apply issues_silent. Qed.

Lemma issues_get_store : issues k 0 get_store.
Proof. by apply issues_silent. Qed.

Lemma issues_put_store s : issues k 0 (put_store s).
Proof. by apply issues_silent. Qed.

Lemma issues_get_today_date env : issues k 0 (get_today_date env).
Proof. by apply issues_silent. Qed.

Lemma issues_tick ev : issues k (calls k [ev]) (tick ev).
Proof. intros w. by exists [ev]. Qed.

Lemma issues_weaken {A} n n' (m : M A) : issues k n m → (n ≤ n')%nat → issues k n' m.
Proof. intros Hm Hn w. destruct (Hm w) as (evs & Ht & Hc). exists evs. split; [done|lia]. Qed.

Lemma issues_max_l {A} n1 n2 (m : M A) : issues k n1 m → issues k (Nat.max n1 n2) m.
Proof. intros Hm. apply (issues_weaken n1); [done|lia]. Qed.

Lemma issues_max_r {A} n1 n2 (m : M A) : issues k n2 m → issues k (Nat.max n1 n2) m.
Proof. intros Hm. apply (issues_weaken n2); [done|lia]. Qed.

Lemma issues_bind {A B} n1 n2 (m : M A) (f : A → M B) :
  issues k n1 m → (∀ a, issues k n2 (f a)) → issues k (n1 + n2) (bind m f).
Proof.
  intros Hm Hf w. unfold bind. destruct (Hm w) as (evs1 & Ht1 & Hc1).
  destruct (m w) as [[a|e] w1]; simpl in *.
  - destruct (Hf a w1) as (evs2 & Ht2 & Hc2). exists (evs1 ++ evs2).
    rewrite Ht2, Ht1, app_assoc, calls_app. split; [done|lia].
  - exists evs1. split; [done|lia].
Qed.

Lemma issues_try_except {A} n1 n2 (m : M A) (h : exn → M A) :
  issues k n1 m → (∀ e, issues k n2 (h e)) → issues k (n1 + n2) (try_except m h).
Proof.
  intros Hm Hh w. unfold try_except. destruct (Hm w) as (evs1 & Ht1 & Hc1).
  destruct (m w) as [[a|e] w1]; simpl in *.
  - exists evs1. split; [done|lia].
  - destruct (Hh e w1) as (evs2 & Ht2 & Hc2). exists (evs1 ++ evs2).
    rewrite Ht2, Ht1, app_assoc, calls_app. split; [done|lia].
Qed.

Lemma issues_for_each {A} n (l : list A) (body : A → M unit) :
  (∀ x, issues k n (body x)) → issues k (length l * n) (for_each l body).
Proof.
  intros Hbody. induction l as [|x l IH]; simpl; [apply issues_ret|].
  by apply issues_bind.
Qed.

End Issues.

Section Execute.
Variable env : Env.

Lemma execute_issues k ev : issues k (calls k [ev]) (execute env ev).
Proof.
  unfold execute. eapply issues_weaken.
  - eapply issues_bind; [apply issues_tick|]. intros t.
    destruct (store_fault env t); [apply issues_raise|apply issues_ret].
  - lia.
Qed.

End Execute.

Create HintDb calls discriminated.

Global Hint Resolve issues_tick execute_issues : calls.

(** Decomposition of a computation into the calls it issues.  A function
    with a known bound contributes that bound, evaluated; the bound of a
    branching is the greater of the bounds of its branches. *)
Ltac issues_known :=
  match goal with
  | |- issues ?k ?n ?m =>
      is_evar n;
      let H := fresh in
      eassert (H : issues k _ m) by (eauto 1 with calls nocore);
      match type of H with
      | issues _ ?b _ => let v := eval compute in b in unify n v; exact H
      end
  end.

Ltac issues_cases x :=
  match goal with
  | |- issues _ ?n _ =>
      is_evar n;
      let a := open_constr:(_ : nat) in
      let b := open_constr:(_ : nat) in
      unify n (Nat.max a b);
      destruct x; [apply issues_max_l | apply issues_max_r]
  end.

Ltac issues_branch :=
  match goal with
  | |- issues _ _ (match ?x with _ => _ end) => first [issues_cases x | destruct x]
  end.

Ltac issues_steps :=
  repeat first
    [ issues_known
    | apply issues_ret | apply issues_raise | apply issues_lift
    | apply issues_get_store | apply issues_put_store | apply issues_get_today_date
    | eapply issues_bind; [|intros ?]
    | eapply issues_try_except; [|intros ?]
    | eapply issues_for_each; intros ?
    | issues_branch ].

(** A bound for every kind of call, checked kind by kind. *)
Ltac issues_by_kind :=
  intros;
  match goal with |- issues ?k _ _ => destruct k end;
  (eapply issues_weaken; [cbv zeta; issues_steps|simpl; lia]).

Section CallsOfARun.
Variable env : Env.

Lemma get_fields_issues k : issues k (budget 0 0 0 1 0 k) (get_fields env).
Proof. unfold get_fields. issues_by_kind. Qed.

Lemma get_daily_paper_issues k field date :
  issues k (budget 0 0 0 1 0 k) (get_daily_paper env field date).
Proof. unfold get_daily_paper. issues_by_kind. Qed.

Lemma create_daily_paper_issues k date field paper :
  issues k (budget 0 0 0 1 0 k) (create_daily_paper env date field paper).
Proof. unfold create_daily_paper. issues_by_kind. Qed.

Lemma get_used_paper_arxiv_ids_issues k field :
  issues k (budget 0 0 0 1 0 k) (get_used_paper_arxiv_ids env field).
Proof. unfold get_used_paper_arxiv_ids. issues_by_kind. Qed.

Lemma upsert_paper_issues k paper_data :
  issues k (budget 0 0 0 1 0 k) (upsert_paper env paper_data).
Proof. unfold upsert_paper. issues_by_kind. Qed.

Lemma update_paper_full_text_issues k paper text :
  issues k (budget 0 0 0 1 0 k) (update_paper_full_text env paper text).
Proof. unfold update_paper_full_text. issues_by_kind. Qed.

Lemma summaries_exist_issues k paper field :
  issues k (budget 0 0 0 1 0 k) (summaries_exist env paper field).
Proof. unfold summaries_exist. issues_by_kind. Qed.

Lemma create_paper_summary_issues k paper field level text :
  issues k (budget 0 0 0 1 0 k) (create_paper_summary env paper field level text).
Proof. unfold create_paper_summary. issues_by_kind. Qed.

Lemma quiz_exists_issues k paper field :
  issues k (budget 0 0 0 1 0 k) (quiz_exists env paper field).
Proof. unfold quiz_exists. issues_by_kind. Qed.

Lemma create_paper_quiz_issues k paper field quiz :
  issues k (budget 0 0 0 1 0 k) (create_paper_quiz env paper field quiz).
Proof. unfold create_paper_quiz. issues_by_kind. Qed.

Lemma prereading_exists_issues k paper field :
  issues k (budget 0 0 0 1 0 k) (prereading_exists env paper field).
Proof. unfold prereading_exists. issues_by_kind. Qed.

Lemma create_paper_prereading_issues k paper field j p d t c :
  issues k (budget 0 0 0 1 0 k) (create_paper_prereading env paper field j p d t c).
Proof. unfold create_paper_prereading. issues_by_kind. Qed.

Lemma fetch_papers_issues k query n :
  issues k (budget 1 0 0 0 0 k) (fetch_papers env query n).
Proof. unfold fetch_papers. issues_by_kind. Qed.

Lemma extract_text_from_url_issues k url :
  issues k (budget 0 1 0 0 0 k) (extract_text_from_url env url).
Proof. unfold extract_text_from_url. issues_by_kind. Qed.

Lemma chat_completion_issues k request :
  issues k (budget 0 0 1 0 0 k) (chat_completion env request).
Proof. unfold chat_completion. issues_by_kind. Qed.

#[local] Hint Resolve get_fields_issues get_daily_paper_issues create_daily_paper_issues
  get_used_paper_arxiv_ids_issues upsert_paper_issues update_paper_full_text_issues
  summaries_exist_issues create_paper_summary_issues quiz_exists_issues
  create_paper_quiz_issues prereading_exists_issues create_paper_prereading_issues
  fetch_papers_issues extract_text_from_url_issues chat_completion_issues : calls.

Lemma generate_summary_issues k title abstract level :
  issues k (budget 0 0 1 0 0 k) (generate_summary env title abstract level).
Proof. unfold generate_summary. issues_by_kind. Qed.

#[local] Hint Resolve generate_summary_issues : calls.

Lemma generate_all_summaries_issues k title abstract :
  issues k (budget 0 0 3 0 0 k) (generate_all_summaries env title abstract).
Proof. unfold generate_all_summaries. issues_by_kind. Qed.

Lemma generate_quiz_issues k title abstract :
  issues k (budget 0 0 1 0 0 k) (generate_quiz env title abstract).
Proof. unfold generate_quiz. issues_by_kind. Qed.

Lemma generate_prereading_issues k title abstract text field_name :
  issues k (budget 0 0 1 0 0 k) (generate_prereading env title abstract text field_name).
Proof. unfold generate_prereading. issues_by_kind. Qed.

#[local] Hint Resolve generate_all_summaries_issues generate_quiz_issues
  generate_prereading_issues : calls.

Lemma check_existing_issues k field existing :
  issues k (budget 0 0 0 (if existing is Some _ then 3 else 0) 0 k)
    (check_existing env field existing).
Proof. unfold check_existing. destruct existing; issues_by_kind. Qed.

Lemma pdf_extraction_issues k db_paper :
  issues k (budget 0 1 0 1 0 k) (pdf_extraction env db_paper).
Proof. unfold pdf_extraction. issues_by_kind. Qed.

Lemma generate_and_store_prereading_issues k db_paper field :
  issues k (budget 0 0 1 1 0 k) (generate_and_store_prereading env db_paper field).
Proof. unfold generate_and_store_prereading. issues_by_kind. Qed.

#[local] Hint Resolve check_existing_issues pdf_extraction_issues
  generate_and_store_prereading_issues : calls.

Lemma prereading_step_issues k db_paper field :
  issues k (budget 0 0 1 2 0 k) (prereading_step env db_paper field).
Proof. unfold prereading_step. issues_by_kind. Qed.

Lemma generate_and_store_summaries_issues k db_paper field :
  issues k (budget 0 0 3 3 0 k) (generate_and_store_summaries env db_paper field).
Proof. unfold generate_and_store_summaries, levels. issues_by_kind. Qed.

#[local] Hint Resolve prereading_step_issues generate_and_store_summaries_issues : calls.

Lemma summaries_step_issues k db_paper field :
  issues k (budget 0 0 3 4 0 k) (summaries_step env db_paper field).
Proof. unfold summaries_step. issues_by_kind. Qed.

Lemma generate_and_store_quiz_issues k db_paper field :
  issues k (budget 0 0 1 1 0 k) (generate_and_store_quiz env db_paper field).
Proof. unfold generate_and_store_quiz. issues_by_kind. Qed.

#[local] Hint Resolve summaries_step_issues generate_and_store_quiz_issues : calls.

Lemma quiz_step_issues k db_paper field :
  issues k (budget 0 0 1 2 0 k) (quiz_step env db_paper field).
Proof. unfold quiz_step. issues_by_kind. Qed.

#[local] Hint Resolve quiz_step_issues : calls.

Lemma assign_and_generate_issues k field date existing db_paper :
  issues k (budget 0 0 5 (if existing is Some _ then 8 else 9) 0 k)
    (assign_and_generate env field date existing db_paper).
Proof. unfold assign_and_generate. destruct existing; issues_by_kind. Qed.

#[local] Hint Resolve assign_and_generate_issues : calls.

Lemma store_and_generate_issues k field date existing selected :
  issues k (budget 0 1 5 (if existing is Some _ then 10 else 11) 0 k)
    (store_and_generate env field date existing selected).
Proof. unfold store_and_generate. destruct existing; issues_by_kind. Qed.

#[local] Hint Resolve store_and_generate_issues : calls.

Lemma fetch_and_select_issues k field date existing :
  issues k (budget 1 1 5 (if existing is Some _ then 11 else 12) 0 k)
    (fetch_and_select env field date existing).
Proof. unfold fetch_and_select. destruct existing; issues_by_kind. Qed.

#[local] Hint Resolve fetch_and_select_issues : calls.

Lemma ingest_body_issues k field date :
  issues k (budget 1 1 5 15 0 k) (ingest_body env field date).
Proof.
  unfold ingest_body. intros.
  destruct k;
    (eapply issues_weaken;
     [eapply issues_bind; [issues_known|]; intros existing;
      issues_cases existing; issues_steps
     |simpl; lia]).
Qed.

#[local] Hint Resolve ingest_body_issues : calls.

Lemma ingest_paper_for_field_issues k field date :
  issues k (budget 1 1 5 15 0 k) (ingest_paper_for_field env field date).
Proof. unfold ingest_paper_for_field. issues_by_kind. Qed.

Lemma ingest_loop_issues k date fields : ∀ results,
  issues k (length fields * budget 1 1 5 15 1 k) (ingest_loop env fields date results).
Proof.
  induction fields as [|field rest IH]; intros results; simpl; [apply issues_ret|].
  eapply issues_weaken.
  - eapply issues_bind; [apply ingest_paper_for_field_issues|]. intros result.
    eapply issues_bind; [apply issues_tick|]. intros _. apply IH.
  - destruct k; simpl; lia.
Qed.

End CallsOfARun.

Lemma issues_run {A} (m : M A) (b : CallKind → nat) w :
  (∀ k, issues k (b k) m) →
  ∃ evs, trace (m w).2 = trace w ++ evs ∧ ∀ k, (calls k evs ≤ b k)%nat.
Proof.
  intros H. destruct (H FeedCall w) as (evs & Ht & _). exists evs. split; [done|].
  intros k. destruct (H k w) as (evs' & Ht' & Hc).
  rewrite Ht in Ht'. by apply app_inv_head in Ht' as ->.
Qed.

(** X20.  What one field costs.  Whatever the feed, the extractor, the
    provider and the database answer, a run of [ingest_paper_for_field]
    only appends to the trace, and what it appends holds at most one feed
    request, one PDF download, five provider requests (the pre-reading
    materials, three summaries, the quiz) and fifteen database calls, and
    no pause. *)
Theorem field_run_budget (env : Env) (field : AcademicField) (date : string) (w : World) :
  ∃ evs,
    trace (ingest_paper_for_field env field date w).2 = trace w ++ evs
    ∧ (calls FeedCall evs ≤ 1)%nat
    ∧ (calls PdfCall evs ≤ 1)%nat
    ∧ (calls ChatCall evs ≤ 5)%nat
    ∧ (calls StoreCall evs ≤ 15)%nat
    ∧ calls Pause evs = 0%nat.
Proof.
  destruct (issues_run (ingest_paper_for_field env field date) (budget 1 1 5 15 0) w
              (λ k, ingest_paper_for_field_issues env k field date)) as (evs & Ht & Hc).
  exists evs. split; [done|].
  pose proof (Hc FeedCall). pose proof (Hc PdfCall). pose proof (Hc ChatCall).
  pose proof (Hc StoreCall). pose proof (Hc Pause). simpl in *. lia.
Qed.

(** X21.  What a daily run costs.  With [n] fields in the catalog, a run
    of [ingest_daily_papers] appends to the trace at most [n] feed
    requests, [n] PDF downloads, [5 n] provider requests, [15 n + 1]
    database calls and [n] pauses. *)
Theorem daily_run_budget (env : Env) (date : option string) (w : World) :
  let n := length (fields (store w)) in
  ∃ evs,
    trace (ingest_daily_papers env date w).2 = trace w ++ evs
    ∧ (calls FeedCall evs ≤ n)%nat
    ∧ (calls PdfCall evs ≤ n)%nat
    ∧ (calls ChatCall evs ≤ 5 * n)%nat
    ∧ (calls StoreCall evs ≤ 15 * n + 1)%nat
    ∧ (calls Pause evs ≤ n)%nat.
Proof.
  intros n.
  assert (∀ k, ∃ evs, trace (ingest_daily_papers env date w).2 = trace w ++ evs
                      ∧ (calls k evs ≤ budget 0 0 0 1 0 k + n * budget 1 1 5 15 1 k)%nat)
    as H.
  { intros k. unfold ingest_daily_papers.
    assert (∀ f : string → M (list FieldIngestResult),
              bind (match date with
                    | Some d => if Py.truthy d then ret d else get_today_date env
                    | None => get_today_date env
                    end) f w = f (run_date env date w) w) as ->.
    { intros f. unfold run_date, bind, get_today_date, ret.
      destruct date as [d|]; [destruct (Py.truthy d)|]; done. }
    unfold bind. rewrite get_fields_eq.
    destruct (store_fault env (clock w)) as [msg|].
    - exists [StoreRead SelectFields]. split; [done|]. destruct k; simpl; lia.
    - destruct (ingest_loop_issues env k (run_date env date w)
                  (merge_sort name_le (fields (store w))) []
                  (advance (StoreRead SelectFields) w)) as (evs & Ht & Hc).
      exists (StoreRead SelectFields :: evs). split.
      + rewrite Ht. simpl. by rewrite <- app_assoc.
      + assert (length (merge_sort name_le (fields (store w))) = n) as Hn
          by apply Permutation_length, merge_sort_Permutation.
        rewrite Hn in Hc. destruct k; simpl in *; lia. }
  destruct (H FeedCall) as (evs & Ht & H1). exists evs. split; [done|].
  assert (∀ k, (calls k evs ≤ budget 0 0 0 1 0 k + n * budget 1 1 5 15 1 k)%nat) as Hc.
  { intros k. destruct (H k) as (evs' & Ht' & Hc).
    rewrite Ht in Ht'. by apply app_inv_head in Ht' as ->. }
  pose proof (Hc PdfCall). pose proof (Hc ChatCall).
  pose proof (Hc StoreCall). pose proof (Hc Pause). simpl in *. lia.
Qed.

(** ** References between the tables *)

Global Instance sound_kept_preorder : PreOrder sound_kept.
Proof.
  split; [intros s H; exact H|]. intros s1 s2 s3 H1 H2. unfold sound_kept in *. auto.
Qed.

Global Instance sound_with_preorder id : PreOrder (sound_with id).
Proof.
  split; [intros s H; exact H|]. intros s1 s2 s3 H1 H2. unfold sound_with in *. auto.
Qed.

Lemma keeps_bind_post {A B} (Q : relation Store) `{!PreOrder Q} (φ : A → Prop)
    (m : M A) (f : A → M B) :
  keeps Q m → (∀ w a w', m w = (Ok a, w') → φ a) → (∀ a, φ a → keeps Q (f a)) →
  keeps Q (bind m f).
Proof.
  intros Hm Hφ Hf w. unfold bind. specialize (Hm w).
  destruct (m w) as [[a|e] w1] eqn:Hrun; simpl in *; [|done].
  etrans; [exact Hm|]. apply Hf. by eapply Hφ.
Qed.

Lemma has_paper_grows s s' id : grows s s' → has_paper s id → has_paper s' id.
Proof.
  intros G. unfold has_paper. rewrite !list_elem_of_fmap.
  intros (p & -> & [i Hi]%list_elem_of_lookup).
  destruct (grows_papers _ _ G i p Hi) as (p' & Hi' & Hid & _).
  exists p'. split; [done|]. by eapply list_elem_of_lookup_2.
Qed.

Lemma upsert_row_elem {A} (same : A → bool) (row : A) (rows : list A) r :
  r ∈ upsert_row same row rows → r = row ∨ r ∈ rows.
Proof.
  unfold upsert_row. destruct (existsb same rows).
  - intros (x & -> & Hx)%list_elem_of_fmap. destruct (same x); auto.
  - intros [H|H%list_elem_of_singleton]%elem_of_app; auto.
Qed.

Lemma sound_with_intro {A} id (m : M A) :
  keeps wf_grows m →
  (∀ w, store_wf (store w) → store_sound (store w) → has_paper (store w) id →
        store_sound (store (m w).2)) →
  keeps (sound_with id) m.
Proof.
  intros Hg Hs w (Hwf & Hsound & Hid). destruct (Hg w Hwf) as [Hwf' G].
  split_and!; [done|by apply Hs|by eapply has_paper_grows].
Qed.

Section References.
Variable env : Env.

Lemma create_daily_paper_sound date field id :
  keeps (sound_with id) (create_daily_paper env date field id).
Proof.
  apply sound_with_intro; [apply create_daily_paper_grows|]. intros w _ Hs Hid.
  unfold create_daily_paper, bind. rewrite execute_eq.
  destruct (store_fault env (clock w)); simpl; [done|].
  destruct (existsb _ _); simpl; [done|].
  destruct Hs as [Ha Hsum Hq Hp]. constructor; simpl; try done.
  intros dp [H|H%list_elem_of_singleton]%elem_of_app; [by apply Ha|by subst].
Qed.

Lemma create_paper_summary_sound id field level text :
  keeps (sound_with id) (create_paper_summary env id field level text).
Proof.
  apply sound_with_intro; [apply create_paper_summary_grows|]. intros w _ Hs Hid.
  unfold create_paper_summary, bind. rewrite execute_eq.
  destruct (store_fault env (clock w)); simpl; [done|].
  destruct Hs as [Ha Hsum Hq Hp]. constructor; simpl; try done.
  intros r [->|H]%upsert_row_elem; [done|by apply Hsum].
Qed.

Lemma create_paper_quiz_sound id field quiz :
  Forall valid_question (questions quiz) →
  keeps (sound_with id) (create_paper_quiz env id field quiz).
Proof.
  intros Hquiz.
  apply sound_with_intro; [apply create_paper_quiz_grows|]. intros w _ Hs Hid.
  unfold create_paper_quiz, bind. rewrite execute_eq.
  destruct (store_fault env (clock w)); simpl; [done|].
  destruct Hs as [Ha Hsum Hq Hp]. constructor; simpl; try done.
  intros r [->|H]%upsert_row_elem; [done|by apply Hq].
Qed.

Lemma create_paper_prereading_sound id field j p d t c :
  keeps (sound_with id) (create_paper_prereading env id field j p d t c).
Proof.
  apply sound_with_intro; [apply create_paper_prereading_grows|]. intros w _ Hs Hid.
  unfold create_paper_prereading, bind. rewrite execute_eq.
  destruct (store_fault env (clock w)); simpl; [done|].
  destruct Hs as [Ha Hsum Hq Hp]. constructor; simpl; try done.
  intros r [->|H]%upsert_row_elem; [done|by apply Hp].
Qed.

Lemma pdf_extraction_sound id db_paper :
  keeps (sound_with id) (pdf_extraction env db_paper).
Proof.
  apply sound_with_intro; [apply pdf_extraction_grows|]. intros w _ Hs Hid.
  unfold pdf_extraction, try_except, bind.
  destruct (extract_text_from_url env (paper_pdf_url db_paper) w)
    as [[[text meta]|e] w1] eqn:Hx;
    pose proof (keeps_run same_store _ _ _ _ (extract_text_from_url_reads env _) Hx) as S1;
    unfold same_store in S1; simpl; [|by rewrite S1].
  destruct (viable_text text); simpl; [|by rewrite S1].
  assert (store_sound (store (update_paper_full_text env (paper_id db_paper) text w1).2))
    as Hupd.
  { unfold update_paper_full_text, bind. rewrite execute_eq.
    destruct (store_fault env (clock w1)); simpl; rewrite S1; [done|].
    assert (∀ x, has_paper (store w) x →
                 has_paper
                   (set_papers (store w)
                      (map (λ p, if bool_decide (paper_id p = paper_id db_paper)
                                 then with_full_text text p else p)
                           (papers (store w)))) x) as Hkeep.
    { intros x. unfold has_paper. simpl. rewrite map_map.
      erewrite map_ext; [done|]. intros p. simpl. by destruct (bool_decide _). }
    destruct Hs as [Ha Hsum Hq Hp]. constructor; simpl.
    - intros dp H. by apply Hkeep, Ha.
    - intros r H. by apply Hkeep, Hsum.
    - intros r H. destruct (Hq r H). split; [by apply Hkeep|done].
    - intros r H. by apply Hkeep, Hp. }
  by destruct (update_paper_full_text env (paper_id db_paper) text w1) as [[u|e] w2].
Qed.

Lemma generate_quiz_valid title abstract w quiz w' :
  generate_quiz env title abstract w = (Ok quiz, w') →
  Forall valid_question (questions quiz).
Proof.
  unfold generate_quiz, chat_completion, bind, tick, lift.
  destruct (chat env (clock w) _) as [[c|]|e]; simpl; [|discriminate..].
  destruct (Py.truthy c); simpl; [|discriminate].
  destruct (json_loads env c) as [parsed|e]; simpl; [|discriminate].
  unfold quiz_of_json, exc_bind.
  destruct (questions_array parsed) as [qs|e]; [|discriminate].
  destruct (quiz_loop env qs []) as [res|e] eqn:Hloop; [|discriminate].
  intros [= <- _]. simpl.
  apply quiz_loop_ok in Hloop as (new & -> & Hall). simpl.
  clear -Hall. induction Hall as [|q question qs new (_ & H4 & Hc) _ IH]; constructor; auto.
  by split.
Qed.

Lemma generate_and_store_quiz_sound db_paper field :
  keeps (sound_with (paper_id db_paper)) (generate_and_store_quiz env db_paper field).
Proof.
  unfold generate_and_store_quiz.
  apply (keeps_bind_post _ (λ quiz, Forall valid_question (questions quiz))).
  - apply keeps_same_store; [apply _|auto with reads].
  - intros w quiz w'. apply generate_quiz_valid.
  - intros quiz. apply create_paper_quiz_sound.
Qed.

Lemma assign_and_generate_sound field date existing db_paper :
  keeps (sound_with (paper_id db_paper))
    (assign_and_generate env field date existing db_paper).
Proof.
  unfold assign_and_generate, prereading_step, summaries_step, quiz_step,
    generate_and_store_prereading, generate_and_store_summaries.
  keeps_pipeline
    ltac:(first [ apply create_daily_paper_sound | apply create_paper_summary_sound
                | apply generate_and_store_quiz_sound
                | apply create_paper_prereading_sound ]).
Qed.

Lemma upsert_paper_sound pd w :
  store_wf (store w) → store_sound (store w) →
  store_wf (store (upsert_paper env pd w).2)
  ∧ store_sound (store (upsert_paper env pd w).2)
  ∧ ∀ row, (upsert_paper env pd w).1 = Ok row →
           has_paper (store (upsert_paper env pd w).2) (paper_id row).
Proof.
  intros Hwf Hs. destruct (upsert_paper_grows env pd w Hwf) as [Hwf' G].
  split_and!; [done| |].
  - destruct (upsert_paper_eq env pd w) as (row & _ & _ & Heq).
    rewrite Heq in G |- *. destruct (store_fault env (clock w)); simpl in *; [done|].
    assert (∀ x, has_paper (store w) x →
                 has_paper (set_papers (store w)
                              (upsert_row
                                 (λ p, bool_decide (paper_arxiv_id p = pd_arxiv_id pd))
                                 row (papers (store w)))) x) as Hkeep
      by (intros x; by apply has_paper_grows).
    destruct Hs as [Ha Hsum Hq Hp]. constructor; simpl.
    + intros dp H. by apply Hkeep, Ha.
    + intros r H. by apply Hkeep, Hsum.
    + intros r H. destruct (Hq r H). split; [by apply Hkeep|done].
    + intros r H. by apply Hkeep, Hp.
  - intros row Hrow.
    destruct (upsert_paper env pd w) as [r w1] eqn:Hrun. simpl in *. subst r.
    apply upsert_paper_row_stored in Hrun.
    unfold has_paper. apply list_elem_of_fmap. by exists row.
Qed.

Lemma store_and_generate_sound field date existing selected :
  keeps sound_kept (store_and_generate env field date existing selected).
Proof.
  intros w [Hwf Hs].
  set (rest := λ db_paper, let* p := pdf_extraction env db_paper in
                           assign_and_generate env field date existing p).
  change (store_and_generate env field date existing selected)
    with (bind (upsert_paper env (paper_data_of selected)) rest).
  destruct (upsert_paper_sound (paper_data_of selected) w Hwf Hs) as (Hwf1 & Hs1 & Hid).
  unfold bind.
  destruct (upsert_paper env (paper_data_of selected) w) as [[db_paper|e] w1];
    simpl in *; [|by split].
  specialize (Hid db_paper eq_refl).
  assert (keeps (sound_with (paper_id db_paper)) (rest db_paper)) as Hrest.
  { apply (keeps_bind_post _ (λ p, paper_id p = paper_id db_paper)).
    - apply pdf_extraction_sound.
    - intros w0 p w0' Hp. by apply pdf_extraction_id in Hp as [? _].
    - intros p <-. apply assign_and_generate_sound. }
  destruct (Hrest w1) as (? & ? & _); done.
Qed.

Lemma ingest_paper_for_field_sound field date :
  keeps sound_kept (ingest_paper_for_field env field date).
Proof.
  unfold ingest_paper_for_field, ingest_body, fetch_and_select. cbv zeta.
  keeps_pipeline ltac:(apply store_and_generate_sound).
Qed.

Lemma ingest_loop_sound date fields :
  ∀ results, keeps sound_kept (ingest_loop env fields date results).
Proof.
  induction fields as [|field rest IH]; intros results; simpl.
  - apply keeps_ret; apply _.
  - apply keeps_bind; [apply _|apply ingest_paper_for_field_sound|]. intros r.
    apply keeps_bind; [apply _|apply keeps_tick; apply _|]. intros _. apply IH.
Qed.

Lemma ingest_daily_papers_sound date : keeps sound_kept (ingest_daily_papers env date).
Proof.
  unfold ingest_daily_papers.
  apply keeps_bind; [apply _| |intros d].
  - destruct date as [d|]; [destruct (Py.truthy d)|];
      first [apply keeps_ret; apply _ | intros w; simpl; reflexivity].
  - apply keeps_bind; [apply _|apply keeps_same_store; [apply _|auto with reads]|].
    intros fs. apply ingest_loop_sound.
Qed.

End References.

(** X22.  The pipeline writes no dangling reference and no unchecked
    quiz.  On a store with unique keys in which every assignment, summary,
    quiz and pre-reading row names a paper of the [papers] table and every
    stored quiz question has four options and a [correct_index] from 0 to
    3, the same holds after a run for one field and after a daily run,
    whatever happened on the way, also when the run failed half-way. *)
Theorem ingestion_keeps_references
    (env : Env) (field : AcademicField) (date : string) (day : option string) (w : World) :
  store_wf (store w) →
  store_sound (store w) →
  store_sound (store (ingest_paper_for_field env field date w).2)
  ∧ store_sound (store (ingest_daily_papers env day w).2).
Proof.
  intros Hwf Hs. split.
  - by destruct (ingest_paper_for_field_sound env field date w).
  - by destruct (ingest_daily_papers_sound env day w).
Qed.

Lemma ingestion_keeps_references_witness :
  store_sound (store (ingest_paper_for_field Scenario.env_two Scenario.ml Scenario.today_is
                        (Scenario.world_of Scenario.store_fresh)).2)
  ∧ store_sound (store (ingest_daily_papers Scenario.env_two None
                          (Scenario.world_of Scenario.store_fresh)).2).
Proof.
  apply (ingestion_keeps_references Scenario.env_two Scenario.ml Scenario.today_is None
           (Scenario.world_of Scenario.store_fresh)).
  - constructor; simpl; apply NoDup_nil_2.
  - constructor; simpl; intros r H; by apply elem_of_nil in H.
Defined.
